(** * eCFR analyzer: ingestion and aggregation pipeline

    A shallow embedding of the Go sources of the pipeline

    - [internal/service/ecfr_client.go]: [fetchWithRetry], bounded retry
      with backoff;
    - [internal/service/parser.go]: [Parse], streaming metric extraction;
    - [internal/store/agency_store.go], which holds the agency store, the
      title store and the importer: [SaveTitleWithSnapshot] and
      [InsertSnapshotIfChanged] (snapshot gate), [calculateDensityScores]
      and [GetDensityScoreForAgency] (density score),
      [calculateAgencyWordCount] (agency roll-up) and [PrintSummary];

    followed by the properties established about it.

    Conventions.  A Go [int] is a [Z] and the arithmetic the code performs
    on it is wrapped to 64 bits with [wrap64].  A Go [string] that is only
    compared or concatenated is a [string]; text handed to
    [strings.TrimSpace] and [strings.Fields] is the sequence of runes that
    ranging over it yields.  A [float64] is a primitive binary64 float.
    The relational tables are lists of rows, in table order, and every SQL
    statement of the sources is evaluated on them as PostgreSQL does;
    connection and driver failures are outside the model. *)

From Stdlib Require Import ZArith String Ascii List Lia PrimFloat Uint63 Floats.
From Stdlib.Strings Require Import Byte.
From stdpp Require Import gmap strings list sorting pretty.

Local Open Scope Z_scope.

(** ** Go integers *)

Module GoInt.

(** Two's complement reduction of an integer to the range of [int64]. *)
Definition wrap64 (z : Z) : Z :=
  (z + 2 ^ 63) mod 2 ^ 64 - 2 ^ 63.

Definition wrap32u (z : Z) : Z := z mod 2 ^ 32.

(** [float64(z)] for an [int] value [z]. *)
Definition float64 (z : Z) : float :=
  if z =? - 2 ^ 63 then PrimFloat.opp (PrimFloat.of_uint63 (Uint63.of_Z (2 ^ 62)) * 2)%float
  else if z <? 0 then PrimFloat.opp (PrimFloat.of_uint63 (Uint63.of_Z (- z)))
  else PrimFloat.of_uint63 (Uint63.of_Z z).

End GoInt.

(** ** crypto/md5 and encoding/hex

    The digest the sources call, [md5.Sum], written out after RFC 1321 on
    32-bit words held in [Z]. *)

Module MD5.
Import GoInt.

Definition K : list Z :=
  [ 3614090360; 3905402710; 606105819; 3250441966;
    4118548399; 1200080426; 2821735955; 4249261313;
    1770035416; 2336552879; 4294925233; 2304563134;
    1804603682; 4254626195; 2792965006; 1236535329;
    4129170786; 3225465664; 643717713; 3921069994;
    3593408605; 38016083; 3634488961; 3889429448;
    568446438; 3275163606; 4107603335; 1163531501;
    2850285829; 4243563512; 1735328473; 2368359562;
    4294588738; 2272392833; 1839030562; 4259657740;
    2763975236; 1272893353; 4139469664; 3200236656;
    681279174; 3936430074; 3572445317; 76029189;
    3654602809; 3873151461; 530742520; 3299628645;
    4096336452; 1126891415; 2878612391; 4237533241;
    1700485571; 2399980690; 4293915773; 2240044497;
    1873313359; 4264355552; 2734768916; 1309151649;
    4149444226; 3174756917; 718787259; 3951481745 ].

Definition shifts : list Z :=
  [ 7; 12; 17; 22; 7; 12; 17; 22; 7; 12; 17; 22; 7; 12; 17; 22;
    5; 9; 14; 20; 5; 9; 14; 20; 5; 9; 14; 20; 5; 9; 14; 20;
    4; 11; 16; 23; 4; 11; 16; 23; 4; 11; 16; 23; 4; 11; 16; 23;
    6; 10; 15; 21; 6; 10; 15; 21; 6; 10; 15; 21; 6; 10; 15; 21 ].

Definition rotl32 (x c : Z) : Z :=
  wrap32u (Z.lor (Z.shiftl x c) (Z.shiftr x (32 - c))).

Definition not32 (x : Z) : Z := Z.lxor x (2 ^ 32 - 1).

(** Little-endian 32-bit words of a byte sequence (a multiple of four). *)
Fixpoint words_le (bs : list Z) : list Z :=
  match bs with
  | b0 :: b1 :: b2 :: b3 :: rest =>
      (b0 + Z.shiftl b1 8 + Z.shiftl b2 16 + Z.shiftl b3 24) :: words_le rest
  | _ => []
  end.

Definition bytes_le (n : nat) (x : Z) : list Z :=
  map (fun i => Z.land (Z.shiftr x (8 * Z.of_nat i)) 255) (seq 0 n).

(** The message followed by 0x80, zeros up to 56 mod 64, and the bit
    length on 64 bits. *)
Definition pad (msg : list Z) : list Z :=
  let len := Z.of_nat (length msg) in
  let zeros := Z.to_nat ((55 - len) mod 64) in
  msg ++ [128] ++ repeat 0 zeros ++ bytes_le 8 ((8 * len) mod 2 ^ 64).

Record state := State { sa : Z; sb : Z; sc : Z; sd : Z }.

Definition init : state :=
  State 1732584193 4023233417 2562383102 271733878.

Definition step (m : list Z) (st : state) (i : nat) : state :=
  let '(State a b c d) := st in
  let zi := Z.of_nat i in
  let '(f, g) :=
    if zi <? 16 then (Z.lor (Z.land b c) (Z.land (not32 b) d), zi)
    else if zi <? 32 then (Z.lor (Z.land d b) (Z.land (not32 d) c), (5 * zi + 1) mod 16)
    else if zi <? 48 then (Z.lxor (Z.lxor b c) d, (3 * zi + 5) mod 16)
    else (Z.lxor c (Z.lor b (not32 d)), (7 * zi) mod 16) in
  let f' := wrap32u (f + a + nth i K 0 + nth (Z.to_nat g) m 0) in
  State d (wrap32u (b + rotl32 f' (nth i shifts 0))) b c.

Definition block (st : state) (m : list Z) : state :=
  let '(State a b c d) := fold_left (step m) (seq 0 64) st in
  State (wrap32u (sa st + a)) (wrap32u (sb st + b))
        (wrap32u (sc st + c)) (wrap32u (sd st + d)).

(** Cut a word sequence into blocks of sixteen words. *)
Fixpoint blocks (fuel : nat) (ws : list Z) : list (list Z) :=
  match fuel, ws with
  | S fuel', _ :: _ => firstn 16 ws :: blocks fuel' (skipn 16 ws)
  | _, _ => []
  end.

Definition digest (msg : list Z) : list Z :=
  let ws := words_le (pad msg) in
  let '(State a b c d) := fold_left block (blocks (length ws) ws) init in
  bytes_le 4 a ++ bytes_le 4 b ++ bytes_le 4 c ++ bytes_le 4 d.

(** [md5.Sum] on a byte slice. *)
Definition Sum (content : list byte) : list byte :=
  map (fun z => match Byte.of_N (Z.to_N z) with Some b => b | None => Byte.x00 end)
      (digest (map (fun b => Z.of_N (Byte.to_N b)) content)).

End MD5.

Module Hex.

Definition hexdigit (n : N) : ascii :=
  nth (N.to_nat n)
      (list_ascii_of_string "0123456789abcdef") "0"%char.

(** [hex.EncodeToString]. *)
Fixpoint EncodeToString (bs : list byte) : string :=
  match bs with
  | [] => EmptyString
  | b :: rest =>
      let n := Byte.to_N b in
      String (hexdigit (n / 16)) (String (hexdigit (n mod 16)) (EncodeToString rest))
  end.

End Hex.

(** [[]byte(s)] for a Go string. *)
Definition bytes_of_string (s : string) : list byte := list_byte_of_string s.

Definition md5hex (content : list byte) : string :=
  Hex.EncodeToString (MD5.Sum content).

(** ** Go errors *)

(** The reasons [ctx.Err()] reports once a context is done. *)
Inductive ctx_error := CtxCanceled | CtxDeadlineExceeded.

Inductive error :=
| ErrExternal (msg : string)                (* an error value of net/http or io *)
| ErrContext (reason : ctx_error)           (* context.Canceled, context.DeadlineExceeded *)
| Errorf (msg : string)                     (* fmt.Errorf without a wrapped error *)
| ErrorfW (msg : string) (wrapped : error). (* fmt.Errorf("msg%w", err) *)

(** [err.Error()]. *)
Fixpoint Error (e : error) : string :=
  match e with
  | ErrExternal msg => msg
  | ErrContext CtxCanceled => "context canceled"
  | ErrContext CtxDeadlineExceeded => "context deadline exceeded"
  | Errorf msg => msg
  | ErrorfW msg w => msg ++ Error w
  end%string.

(** [errors.Unwrap]. *)
Definition Unwrap (e : error) : option error :=
  match e with
  | ErrorfW _ w => Some w
  | _ => None
  end.

(** [fmt.Errorf(msg + "%w", err)] for an [err] that may be nil: the verb
    then prints as a bad operand and nothing is wrapped. *)
Definition ErrorfWrap (msg : string) (err : option error) : error :=
  match err with
  | Some e => ErrorfW msg e
  | None => Errorf (msg ++ "%!w(<nil>)")
  end.

(** ** internal/service/ecfr_client.go *)

Module Client.
Import GoInt.

Definition maxRetries : nat := 3.
Definition initialBackoff : Z := 2 * 1000000000.   (* 2 * time.Second *)
Definition requestDelay : Z := 1 * 1000000000.
Definition StatusOK : Z := 200.
Definition StatusTooManyRequests : Z := 429.

(** What the network does with one attempt of the loop body. *)
Inductive attempt :=
| RequestError (e : error)                  (* http.NewRequestWithContext fails *)
| TransportError (e : error)                (* c.client.Do fails *)
| ReadError (status : Z) (e : error)        (* io.ReadAll fails *)
| Response (status : Z) (body : list byte).

(** The two cases of the [select] that guards a retry. *)
Inductive wait :=
| CtxDone (reason : ctx_error)              (* <-ctx.Done() *)
| TimerFired.                               (* <-time.After(backoff) *)

(** The environment of one call: the outcome of the attempt numbered
    [n], and of the wait that precedes it. *)
Record world := World {
  attempts : nat -> attempt;
  waits : nat -> wait
}.

(** What a call does that is visible outside. *)
Inductive event :=
| Slept (d : Z)             (* the backoff timer of duration d fired *)
| Interrupted (d : Z)       (* the context was done during that wait *)
| Sent (n : nat).           (* attempt n handed its request to the client *)

Definition outcome : Type := (list byte + error) * list event.

Definition emit (ev : event) (o : outcome) : outcome :=
  (fst o, ev :: snd o).

(** The [for] loop of [fetchWithRetry]; [remaining] is
    [maxRetries - attempt]. *)
Fixpoint fetchLoop (w : world) (remaining : nat) (attempt : nat)
         (lastErr : option error) (backoff : Z) : outcome :=
  match remaining with
  | O =>
      (inr (ErrorfWrap ("failed after " ++ pretty maxRetries ++ " attempts: ") lastErr), [])
  | S remaining' =>
      let body (backoff : Z) : outcome :=
        match attempts w attempt with
        | RequestError e =>
            (inr (ErrorfW "failed to create request: " e), [])
        | TransportError e =>
            emit (Sent attempt)
                 (fetchLoop w remaining' (S attempt) (Some e) backoff)
        | ReadError _ e =>
            emit (Sent attempt)
                 (fetchLoop w remaining' (S attempt) (Some e) backoff)
        | Response status body =>
            emit (Sent attempt)
              (if status =? StatusTooManyRequests then
                 fetchLoop w remaining' (S attempt)
                           (Some (Errorf "rate limited (HTTP 429)")) backoff
               else if negb (status =? StatusOK) then
                 fetchLoop w remaining' (S attempt)
                           (Some (Errorf ("unexpected status code: " ++ pretty status)))
                           backoff
               else (inl body, []))
        end in
      if (0 <? attempt)%nat then
        match waits w attempt with
        | CtxDone reason => (inr (ErrContext reason), [Interrupted backoff])
        | TimerFired => emit (Slept backoff) (body (wrap64 (backoff * 2)))
        end
      else body backoff
  end.

Definition fetchWithRetry (w : world) : outcome :=
  fetchLoop w maxRetries 0 None initialBackoff.

(** [Delay]. *)
Definition Delay : Z := requestDelay.

(** The error that the loop body records in [lastErr] before it
    continues with the next attempt; [None] for an attempt that ends the
    call. *)
Definition retryError (a : attempt) : option error :=
  match a with
  | RequestError _ => None
  | TransportError e => Some e
  | ReadError _ e => Some e
  | Response status _ =>
      if status =? StatusTooManyRequests then Some (Errorf "rate limited (HTTP 429)")
      else if negb (status =? StatusOK)
           then Some (Errorf ("unexpected status code: " ++ pretty status))
           else None
  end.

(** The world [w] with the outcome of attempt [n] replaced by [a]. *)
Definition withAttempt (w : world) (n : nat) (a : attempt) : world :=
  World (fun k => if (k =? n)%nat then a else attempts w k) (waits w).

(** A server that answers every request with 201 Created and the
    one-byte body [A], under a context that is never done. *)
Definition world_created : world :=
  World (fun _ => Response 201 [Byte.x41]) (fun _ => TimerFired).

(** A time-out, a 504, then 200 OK with the body [A]. *)
Definition world_third_time : world :=
  World (fun k => match k with
                  | 0%nat => TransportError (ErrExternal "i/o timeout")
                  | 1%nat => Response 504 []
                  | _ => Response 200 [Byte.x41]
                  end)
        (fun _ => TimerFired).

(** A server that is always unavailable. *)
Definition world_unavailable : world :=
  World (fun _ => Response 503 []) (fun _ => TimerFired).

(** A rate-limited first answer, and a context cancelled during the
    first backoff wait. *)
Definition world_cancelled : world :=
  World (fun _ => Response 429 []) (fun _ => CtxDone CtxCanceled).

(** The number of requests a call handed to the HTTP client. *)
Definition is_sent (ev : event) : bool :=
  match ev with Sent _ => true | _ => false end.

Definition sends (o : outcome) : nat :=
  length (List.filter is_sent (snd o)).

End Client.

(** ** internal/service/parser.go *)

Module Parser.
Import GoInt.

(** A rune is its code point. *)
Definition rune : Type := Z.

(** [unicode.IsSpace]: the Latin-1 cases of its switch, then the
    remaining ranges of the White_Space table. *)
Definition IsSpace (r : rune) : bool :=
  if (0 <=? r) && (r <=? 255) then
    (r =? 9) || (r =? 10) || (r =? 11) || (r =? 12) || (r =? 13)
    || (r =? 32) || (r =? 133) || (r =? 160)
  else
    (r =? 5760) || ((8192 <=? r) && (r <=? 8202))
    || (r =? 8232) || (r =? 8233) || (r =? 8239) || (r =? 8287)
    || (r =? 12288).

Fixpoint TrimLeftSpace (s : list rune) : list rune :=
  match s with
  | r :: s' => if IsSpace r then TrimLeftSpace s' else s
  | [] => []
  end.

(** [strings.TrimSpace]. *)
Definition TrimSpace (s : list rune) : list rune :=
  rev (TrimLeftSpace (rev (TrimLeftSpace s))).

(** [strings.Fields]: the maximal runs of runes that are not white
    space; [cur] is the run being read, most recent rune first. *)
Fixpoint fieldsFrom (cur : list rune) (s : list rune) : list (list rune) :=
  match s with
  | [] => match cur with [] => [] | _ => [rev cur] end
  | r :: s' =>
      if IsSpace r then
        match cur with
        | [] => fieldsFrom [] s'
        | _ => rev cur :: fieldsFrom [] s'
        end
      else fieldsFrom (r :: cur) s'
  end.

Definition Fields (s : list rune) : list (list rune) := fieldsFrom [] s.

(** The tokens of encoding/xml. *)
Record Name := { Space : string; Local : string }.
Record Attr := { AttrName : Name; Value : string }.

Inductive Token :=
| StartElement (name : Name) (attr : list Attr)
| EndElement (name : Name)
| CharData (data : list rune)
| Comment (data : list rune)
| ProcInst (target : string) (inst : list rune)
| Directive (data : list rune).

(** What [xml.NewDecoder(bytes.NewReader(content))] yields: the tokens
    that successive calls of [Token] return, and the error that ends
    them, [io.EOF] or a syntax error. *)
Definition decoder : Type := list byte -> list Token * error.

Record ParseResult := {
  WordCount : Z;
  SectionCount : Z;
  Checksum : string
}.

(** [isTextElement]. *)
Definition isTextElement (name : string) : bool :=
  existsb (String.eqb name)
          ["P"; "FP"; "HD"; "HEAD"; "PRTPAGE"; "EDNOTE"; "NOTE"; "EXTRACT"; "APPRO"]%string.

(** [calculateChecksum]. *)
Definition calculateChecksum (content : list byte) : string :=
  Hex.EncodeToString (MD5.Sum content).

(** The variables of [Parse] that its loop updates. *)
Record scan := Scan {
  sections : Z;               (* result.SectionCount *)
  textBuilder : list rune;
  inTextElement : bool
}.

Definition isSectionAttr (a : Attr) : bool :=
  String.eqb (Local (AttrName a)) "TYPE" && String.eqb (Value a) "SECTION".

(** One turn of the loop, on the token that [decoder.Token] returned. *)
Definition scanToken (st : scan) (token : Token) : scan :=
  match token with
  | StartElement name attr =>
      let sections' :=
        if String.eqb (Local name) "DIV8" && existsb isSectionAttr attr
        then wrap64 (sections st + 1) else sections st in
      Scan sections' (textBuilder st)
           (if isTextElement (Local name) then true else inTextElement st)
  | EndElement name =>
      Scan (sections st) (textBuilder st)
           (if isTextElement (Local name) then false else inTextElement st)
  | CharData data =>
      if inTextElement st then
        match TrimSpace data with
        | [] => st
        | text => Scan (sections st) (textBuilder st ++ text ++ [32]) (inTextElement st)
        end
      else st
  | _ => st
  end.

Definition scanTokens (tokens : list Token) : scan :=
  fold_left scanToken tokens (Scan 0 [] false).

Definition countWords (text : list rune) : Z :=
  match text with
  | [] => 0
  | _ => Z.of_nat (length (Fields text))
  end.

(** [Parse]: the result pointer and the error. *)
Definition Parse (dec : decoder) (content : list byte)
  : option ParseResult * option error :=
  let checksum := calculateChecksum content in
  let st := scanTokens (fst (dec content)) in
  (Some {| WordCount := countWords (textBuilder st);
           SectionCount := sections st;
           Checksum := checksum |}, None).

(** Following the specification: the words of the text read inside the
    readable-text regions.  A flag, toggled by the elements of the
    allow-list, says whether the scan is inside such a region; character
    data read while it is set counts its runs of runes that are not
    white space, and other tokens count nothing. *)
Fixpoint wordsIn (inText : bool) (tokens : list Token) : nat :=
  match tokens with
  | [] => 0
  | StartElement name _ :: rest =>
      wordsIn (if isTextElement (Local name) then true else inText) rest
  | EndElement name :: rest =>
      wordsIn (if isTextElement (Local name) then false else inText) rest
  | CharData data :: rest =>
      ((if inText then length (Fields data) else 0) + wordsIn inText rest)%nat
  | _ :: rest => wordsIn inText rest
  end.

(** Following the specification: a section is a start element [DIV8]
    with an attribute [TYPE] of value [SECTION], and each such element
    counts once. *)
Definition isSection (token : Token) : bool :=
  match token with
  | StartElement name attr =>
      String.eqb (Local name) "DIV8" && existsb isSectionAttr attr
  | _ => false
  end.

Definition sectionsIn (tokens : list Token) : nat :=
  length (List.filter isSection tokens).

(** The builder is only ever extended by trimmed text followed by a
    space, so what is appended to it starts a new field. *)
Definition builder_closed (tb : list rune) : Prop :=
  forall x, Fields (tb ++ x) = Fields tb ++ Fields x.

(** What one character data token appends to the builder. *)
Definition appended (data : list rune) : list rune :=
  match TrimSpace data with
  | [] => []
  | text => text ++ [32]
  end.

(** The runes of an ASCII string. *)
Definition runes (s : string) : list rune :=
  map (fun b => Z.of_N (Byte.to_N b)) (list_byte_of_string s).

Definition local (s : string) : Name := {| Space := EmptyString; Local := s |}.

(** The tokens of [<P>one<NOTE>two</NOTE>three four</P>]. *)
Definition nested_note : list Token :=
  [ StartElement (local "P") []; CharData (runes "one");
    StartElement (local "NOTE") []; CharData (runes "two");
    EndElement (local "NOTE"); CharData (runes "three four");
    EndElement (local "P") ].

(** The tokens read from [<DIV8 TYPE="SECTION"><P>a b</P><P>c</DIV8>]
    before the decoder reports the mismatched end tag. *)
Definition truncated_section : list Token :=
  [ StartElement (local "DIV8") [ {| AttrName := local "TYPE"; Value := "SECTION" |} ];
    StartElement (local "P") []; CharData (runes "a b"); EndElement (local "P");
    StartElement (local "P") []; CharData (runes "c") ].

End Parser.

(** ** internal/model

    [sql.NullInt64], [sql.NullTime] and [sql.NullString] are options; a
    [time.Time] is an instant and a snapshot date a day number. *)

Module Title.
Record t := Make {
  ID : Z;
  TitleNumber : Z;
  TitleName : string;
  WordCount : Z;
  SectionCount : Z;
  Checksum : string;
  LastAmendedDate : option Z;
  FetchedAt : Z;
  CreatedAt : Z
}.
End Title.

Module TitleSnapshot.
Record t := Make {
  ID : Z;
  TitleNumber : Z;
  TitleName : string;
  WordCount : Z;
  SectionCount : Z;
  Checksum : string;
  LastAmendedDate : option Z;
  SnapshotDate : Z;
  CreatedAt : Z
}.
End TitleSnapshot.

Module Agency.
Record t := Make {
  ID : Z;
  AgencyName : string;
  ShortName : option string;
  Slug : string;
  ParentID : option Z;
  TotalWordCount : Z;
  RegulationCount : Z;
  Checksum : string;
  UpdatedAt : Z
}.
End Agency.

Module AgencySnapshot.
Record t := Make {
  ID : Z;
  AgencyID : Z;
  AgencyName : string;
  TotalWordCount : Z;
  RegulationCount : Z;
  Checksum : string;
  SnapshotDate : Z;
  CreatedAt : Z
}.
End AgencySnapshot.

Module AgencyTitle.
Record t := Make {
  AgencyID : Z;
  TitleNumber : Z
}.
End AgencyTitle.

(** ** internal/store

    Every function of the stores returns an error next to its result.  It
    reports a failure of the driver, which does not occur in the model,
    or a statement that the database refuses, which can occur in
    [InsertSnapshotIfChanged] only: elsewhere the error is nil. *)

Module Store.
Import GoInt.

(** The tables of the schema that the pipeline reads and writes, with
    the sequences behind their [SERIAL] keys. *)
Record DB := {
  titles : list Title.t;
  title_snapshots : list TitleSnapshot.t;
  agencies : list Agency.t;
  agency_titles : list AgencyTitle.t;
  agency_snapshots : list AgencySnapshot.t;
  agency_snapshot_titles : list (Z * Z);    (* (agency_snapshot_id, title_number) *)
  titles_id_seq : Z;
  title_snapshots_id_seq : Z;
  agency_snapshots_id_seq : Z
}.

(** [INSERT ... ON CONFLICT (key) DO UPDATE SET ...]: the row that
    conflicts with the proposed one is updated in place, and without a
    conflict the proposed row is appended. *)
Definition upsert {R : Type} (conflict : R -> bool) (update : R -> R)
           (proposed : R) (table : list R) : list R :=
  if existsb conflict table
  then map (fun r => if conflict r then update r else r) table
  else table ++ [proposed].

(** [RETURNING id] of such a statement. *)
Definition returning_id {R : Type} (conflict : R -> bool) (id : R -> Z)
           (proposed : R) (table : list R) : Z :=
  match List.find conflict table with
  | Some r => id r
  | None => id proposed
  end.

(** *** title_store.go *)

Definition title_conflict (n : Z) (r : Title.t) : bool :=
  Title.TitleNumber r =? n.

Definition title_update (t r : Title.t) : Title.t :=
  Title.Make (Title.ID r) (Title.TitleNumber r) (Title.TitleName t)
             (Title.WordCount t) (Title.SectionCount t) (Title.Checksum t)
             (Title.LastAmendedDate t) (Title.FetchedAt t) (Title.CreatedAt r).

Definition snapshot_conflict (n date : Z) (r : TitleSnapshot.t) : bool :=
  (TitleSnapshot.TitleNumber r =? n) && (TitleSnapshot.SnapshotDate r =? date).

Definition snapshot_update (t : Title.t) (r : TitleSnapshot.t) : TitleSnapshot.t :=
  TitleSnapshot.Make (TitleSnapshot.ID r) (TitleSnapshot.TitleNumber r)
                     (Title.TitleName t) (Title.WordCount t) (Title.SectionCount t)
                     (Title.Checksum t) (Title.LastAmendedDate t)
                     (TitleSnapshot.SnapshotDate r) (TitleSnapshot.CreatedAt r).

(** [SaveTitleWithSnapshot], run at the instant [now] of its
    transaction: the flag and the error it returns, the title with the
    [ID] scanned into it, and the tables it commits. *)
Definition SaveTitleWithSnapshot (now : Z) (t : Title.t) (snapshotDate : Z) (db : DB)
  : bool * option error * Title.t * DB :=
  let n := Title.TitleNumber t in
  let existingChecksum :=
    option_map TitleSnapshot.Checksum
               (List.find (snapshot_conflict n snapshotDate) (title_snapshots db)) in
  let changed :=
    match existingChecksum with
    | None => true
    | Some c => negb (String.eqb c (Title.Checksum t))
    end in
  let tid := titles_id_seq db + 1 in
  let proposed :=
    Title.Make tid n (Title.TitleName t) (Title.WordCount t) (Title.SectionCount t)
               (Title.Checksum t) (Title.LastAmendedDate t) (Title.FetchedAt t) now in
  let titles' := upsert (title_conflict n) (title_update t) proposed (titles db) in
  let t' :=
    Title.Make (returning_id (title_conflict n) Title.ID proposed (titles db))
               n (Title.TitleName t) (Title.WordCount t) (Title.SectionCount t)
               (Title.Checksum t) (Title.LastAmendedDate t) (Title.FetchedAt t)
               (Title.CreatedAt t) in
  if changed then
    let sid := title_snapshots_id_seq db + 1 in
    let row :=
      TitleSnapshot.Make sid n (Title.TitleName t) (Title.WordCount t)
                         (Title.SectionCount t) (Title.Checksum t)
                         (Title.LastAmendedDate t) snapshotDate now in
    (true, None, t',
     {| titles := titles';
        title_snapshots :=
          upsert (snapshot_conflict n snapshotDate) (snapshot_update t) row
                 (title_snapshots db);
        agencies := agencies db;
        agency_titles := agency_titles db;
        agency_snapshots := agency_snapshots db;
        agency_snapshot_titles := agency_snapshot_titles db;
        titles_id_seq := tid;
        title_snapshots_id_seq := sid;
        agency_snapshots_id_seq := agency_snapshots_id_seq db |})
  else
    (false, None, t',
     {| titles := titles';
        title_snapshots := title_snapshots db;
        agencies := agencies db;
        agency_titles := agency_titles db;
        agency_snapshots := agency_snapshots db;
        agency_snapshot_titles := agency_snapshot_titles db;
        titles_id_seq := tid;
        title_snapshots_id_seq := title_snapshots_id_seq db;
        agency_snapshots_id_seq := agency_snapshots_id_seq db |}).

(** The key of the constraint [UNIQUE(title_number, snapshot_date)]. *)
Definition title_snapshot_key (r : TitleSnapshot.t) : Z * Z :=
  (TitleSnapshot.TitleNumber r, TitleSnapshot.SnapshotDate r).

(** The row [row] of [titles] carries the current state of [t]. *)
Definition current_state_of (t row : Title.t) : Prop :=
  Title.TitleNumber row = Title.TitleNumber t
  /\ Title.TitleName row = Title.TitleName t
  /\ Title.WordCount row = Title.WordCount t
  /\ Title.SectionCount row = Title.SectionCount t
  /\ Title.Checksum row = Title.Checksum t
  /\ Title.LastAmendedDate row = Title.LastAmendedDate t
  /\ Title.FetchedAt row = Title.FetchedAt t.

(** *** agency_store.go *)

(** [GetAgencyTitles]: the title numbers, in table order, and the
    error. *)
Definition GetAgencyTitles (agencyID : Z) (db : DB) : list Z * option error :=
  (map AgencyTitle.TitleNumber
       (List.filter (fun r => AgencyTitle.AgencyID r =? agencyID) (agency_titles db)),
   None).

(** [GetTitleWordCount]: the word count and the error; a title without
    a row counts zero words. *)
Definition GetTitleWordCount (titleNumber : Z) (db : DB) : Z * option error :=
  match List.find (title_conflict titleNumber) (titles db) with
  | Some r => (Title.WordCount r, None)
  | None => (0, None)
  end.

(** [UpdateWordCount], with the reading [now] of [time.Now()]: the error
    and the tables. *)
Definition UpdateWordCount (now : Z) (agencyID wordCount regulationCount : Z)
           (checksum : string) (db : DB) : option error * DB :=
  (None,
   {| titles := titles db;
      title_snapshots := title_snapshots db;
      agencies :=
        map (fun r =>
               if Agency.ID r =? agencyID
               then Agency.Make (Agency.ID r) (Agency.AgencyName r) (Agency.ShortName r)
                                (Agency.Slug r) (Agency.ParentID r)
                                wordCount regulationCount checksum now
               else r)
            (agencies db);
      agency_titles := agency_titles db;
      agency_snapshots := agency_snapshots db;
      agency_snapshot_titles := agency_snapshot_titles db;
      titles_id_seq := titles_id_seq db;
      title_snapshots_id_seq := title_snapshots_id_seq db;
      agency_snapshots_id_seq := agency_snapshots_id_seq db |}).

Definition agency_snapshot_conflict (agencyID date : Z) (r : AgencySnapshot.t) : bool :=
  (AgencySnapshot.AgencyID r =? agencyID) && (AgencySnapshot.SnapshotDate r =? date).

Definition agency_snapshot_update (snap r : AgencySnapshot.t) : AgencySnapshot.t :=
  AgencySnapshot.Make (AgencySnapshot.ID r) (AgencySnapshot.AgencyID r)
                      (AgencySnapshot.AgencyName snap)
                      (AgencySnapshot.TotalWordCount snap)
                      (AgencySnapshot.RegulationCount snap)
                      (AgencySnapshot.Checksum snap)
                      (AgencySnapshot.SnapshotDate r) (AgencySnapshot.CreatedAt r).

(** The key of the constraint [UNIQUE(agency_id, snapshot_date)]. *)
Definition agency_snapshot_key (r : AgencySnapshot.t) : Z * Z :=
  (AgencySnapshot.AgencyID r, AgencySnapshot.SnapshotDate r).

(** [INSERT INTO agency_snapshot_titles ... ON CONFLICT DO NOTHING]. *)
Definition link_snapshot_title (links : list (Z * Z)) (link : Z * Z) : list (Z * Z) :=
  if existsb (fun l => (fst l =? fst link) && (snd l =? snd link)) links
  then links else links ++ [link].

(** [InsertSnapshotIfChanged], run at the instant [now]: the flag and
    the error it returns, the snapshot with the [ID] scanned into it,
    and the tables.  The insert is refused when [agency_id] references
    no agency. *)
Definition InsertSnapshotIfChanged (now : Z) (snap : AgencySnapshot.t)
           (titleNumbers : list Z) (db : DB)
  : bool * option error * AgencySnapshot.t * DB :=
  let aid := AgencySnapshot.AgencyID snap in
  let date := AgencySnapshot.SnapshotDate snap in
  let existingChecksum :=
    option_map AgencySnapshot.Checksum
               (List.find (agency_snapshot_conflict aid date) (agency_snapshots db)) in
  let unchanged :=
    match existingChecksum with
    | Some c => String.eqb c (AgencySnapshot.Checksum snap)
    | None => false
    end in
  if unchanged then (false, None, snap, db)
  else
    let sid := agency_snapshots_id_seq db + 1 in
    if negb (existsb (fun a => Agency.ID a =? aid) (agencies db)) then
      (false,
       Some (ErrorfW ("failed to insert snapshot for agency " ++ pretty aid ++ ": ")
                     (ErrExternal "violates foreign key constraint")),
       snap,
       {| titles := titles db;
          title_snapshots := title_snapshots db;
          agencies := agencies db;
          agency_titles := agency_titles db;
          agency_snapshots := agency_snapshots db;
          agency_snapshot_titles := agency_snapshot_titles db;
          titles_id_seq := titles_id_seq db;
          title_snapshots_id_seq := title_snapshots_id_seq db;
          agency_snapshots_id_seq := sid |})
    else
      let row :=
        AgencySnapshot.Make sid aid (AgencySnapshot.AgencyName snap)
                            (AgencySnapshot.TotalWordCount snap)
                            (AgencySnapshot.RegulationCount snap)
                            (AgencySnapshot.Checksum snap) date now in
      let id :=
        returning_id (agency_snapshot_conflict aid date) AgencySnapshot.ID row
                     (agency_snapshots db) in
      let snap' :=
        AgencySnapshot.Make id aid (AgencySnapshot.AgencyName snap)
                            (AgencySnapshot.TotalWordCount snap)
                            (AgencySnapshot.RegulationCount snap)
                            (AgencySnapshot.Checksum snap) date
                            (AgencySnapshot.CreatedAt snap) in
      (true, None, snap',
       {| titles := titles db;
          title_snapshots := title_snapshots db;
          agencies := agencies db;
          agency_titles := agency_titles db;
          agency_snapshots :=
            upsert (agency_snapshot_conflict aid date) (agency_snapshot_update snap)
                   row (agency_snapshots db);
          agency_snapshot_titles :=
            fold_left link_snapshot_title (map (fun t => (id, t)) titleNumbers)
                      (agency_snapshot_titles db);
          titles_id_seq := titles_id_seq db;
          title_snapshots_id_seq := title_snapshots_id_seq db;
          agency_snapshots_id_seq := sid |}).

(** Day numbers of two snapshot dates, and an import scenario: document
    A with 200 words and 10 sections, whose content is first "X" and
    then "Y", and an agency whose aggregate checksum changes likewise. *)
Definition day_2024_01_01 : Z := 19723.
Definition day_2024_04_01 : Z := 19814.

Definition document_A (content : string) : Title.t :=
  Title.Make 0 1 "Document A" 200 10 (md5hex (bytes_of_string content)) None 0 0.

Definition empty_db : DB :=
  {| titles := []; title_snapshots := []; agencies := []; agency_titles := [];
     agency_snapshots := []; agency_snapshot_titles := [];
     titles_id_seq := 0; title_snapshots_id_seq := 0; agency_snapshots_id_seq := 0 |}.

Definition one_agency_db : DB :=
  {| titles := []; title_snapshots := [];
     agencies := [Agency.Make 1 "Agency" None "agency" None 0 0 EmptyString 0];
     agency_titles := [];
     agency_snapshots := []; agency_snapshot_titles := [];
     titles_id_seq := 0; title_snapshots_id_seq := 0; agency_snapshots_id_seq := 0 |}.

Definition agency_aggregate (input : string) (date : Z) : AgencySnapshot.t :=
  AgencySnapshot.Make 0 1 "Agency" 200 1 (md5hex (bytes_of_string input)) date 0.

(** [AgencyWithDepth]; [Agency] is the embedded [model.Agency]. *)
Record AgencyWithDepth := {
  Agency : Agency.t;
  Depth : Z;
  TitleCount : Z;
  DensityScore : float
}.

Definition setDensityScore (score : float) (a : AgencyWithDepth) : AgencyWithDepth :=
  {| Agency := Agency a; Depth := Depth a; TitleCount := TitleCount a;
     DensityScore := score |}.

(** [GetDensityScoreForAgency]: the score and the error. *)
Definition GetDensityScoreForAgency (agency : Agency.t) (db : DB) : float * option error :=
  if Agency.RegulationCount agency =? 0 then (0%float, None)
  else
    let agencyDensity :=
      PrimFloat.div (float64 (Agency.TotalWordCount agency))
                    (float64 (Agency.RegulationCount agency)) in
    let lowerCount :=
      Z.of_nat (length (List.filter
        (fun r => (0 <? Agency.RegulationCount r)
                  && PrimFloat.ltb (PrimFloat.div (float64 (Agency.TotalWordCount r))
                                                  (float64 (Agency.RegulationCount r)))
                                   agencyDensity)
        (agencies db))) in
    let totalCount :=
      Z.of_nat (length (List.filter (fun r => 0 <? Agency.RegulationCount r)
                                    (agencies db))) in
    if totalCount <=? 1 then (0.5%float, None)
    else (PrimFloat.div (float64 lowerCount) (float64 (wrap64 (totalCount - 1))), None).

Record densityInfo := {
  index : nat;
  density : float
}.

Definition densityLess (a b : densityInfo) : bool :=
  PrimFloat.ltb (density a) (density b).

(** The entry that the first loop of [calculateDensityScores] appends
    for the agency at position [i], if it appends one. *)
Definition densityEntry (i : nat) (a : AgencyWithDepth) : option densityInfo :=
  if 0 <? TitleCount a
  then Some {| index := i;
               density := PrimFloat.div (float64 (Agency.TotalWordCount (Agency a)))
                                        (float64 (TitleCount a)) |}
  else None.

(** Insertion sort, a sort that [sort.Slice] may be taken to be on short
    slices. *)
Fixpoint insertSorted {A : Type} (less : A -> A -> bool) (x : A) (l : list A) : list A :=
  match l with
  | [] => [x]
  | y :: l' => if less y x then y :: insertSorted less x l' else x :: l
  end.

Definition insertionSort {A : Type} (less : A -> A -> bool) (l : list A) : list A :=
  fold_left (fun acc x => insertSorted less x acc) l [].

Definition withDepth (a : Agency.t) (titleCount : Z) : AgencyWithDepth :=
  {| Agency := a; Depth := 0; TitleCount := titleCount; DensityScore := 0%float |}.

(** An agency without titles, and one with 1000 words in 4 titles. *)
Definition agency_without_titles : Agency.t :=
  Agency.Make 1 "Empty" None "empty" None 0 0 EmptyString 0.
Definition agency_with_titles : Agency.t :=
  Agency.Make 2 "Dense" None "dense" None 1000 4 EmptyString 0.

Definition db_of_agencies (rows : list Agency.t) : DB :=
  {| titles := []; title_snapshots := []; agencies := rows; agency_titles := [];
     agency_snapshots := []; agency_snapshot_titles := [];
     titles_id_seq := 0; title_snapshots_id_seq := 0; agency_snapshots_id_seq := 0 |}.

Section Density.

(** [sort.Slice] on the collected densities; the order it gives to
    entries that compare equal is its own. *)
Variable sortSlice :
  (densityInfo -> densityInfo -> bool) -> list densityInfo -> list densityInfo.

(** The first loop of [calculateDensityScores]. *)
Definition collectDensities (agencies : list AgencyWithDepth) : list densityInfo :=
  omap id (imap densityEntry agencies).

(** One turn of its last loop. *)
Definition assignScore (n : nat) (agencies : list AgencyWithDepth)
           (entry : nat * densityInfo) : list AgencyWithDepth :=
  let '(rank, d) := entry in
  let agencies1 :=
    alter (setDensityScore
             (PrimFloat.div (float64 (Z.of_nat rank))
                            (float64 (wrap64 (Z.of_nat n - 1)))))
          (index d) agencies in
  if (n =? 1)%nat
  then alter (setDensityScore 0.5%float) (index d) agencies1
  else agencies1.

(** [calculateDensityScores]: the slice after the call. *)
Definition calculateDensityScores (agencies : list AgencyWithDepth)
  : list AgencyWithDepth :=
  let densities := collectDensities agencies in
  match densities with
  | [] => agencies
  | _ =>
      let sorted := sortSlice densityLess densities in
      let n := length sorted in
      fold_left (assignScore n) (imap pair sorted) agencies
  end.

End Density.

End Store.

(** ** internal/service/importer.go *)

Module Importer.
Import GoInt Store.

Record ImportStats := {
  Total : Z;
  Imported : Z;
  Changed : Z;
  Unchanged : Z;
  Skipped : Z;
  Failed : Z
}.

(** The divisor and the value of [successRate] in [PrintSummary]. *)
Definition successRateDivisor (stats : ImportStats) : float :=
  float64 (wrap64 (Total stats - Skipped stats)).

Definition successRate (stats : ImportStats) : float :=
  (PrimFloat.div (float64 (Imported stats)) (successRateDivisor stats) * 100)%float.

(** An argument of a call of the logger. *)
Inductive logArg :=
| LogInt (z : Z)
| LogFloat (f : float).

(** [PrintSummary]: the calls of the logger, each with its format and
    its arguments. *)
Definition PrintSummary (stats : ImportStats) : list (string * list logArg) :=
  [ (EmptyString, []);
    ("=== Import Summary ===", []);
    ("Total titles:    %d", [LogInt (Total stats)]);
    ("Imported:        %d", [LogInt (Imported stats)]);
    ("Changed:         %d", [LogInt (Changed stats)]);
    ("Unchanged:       %d", [LogInt (Unchanged stats)]);
    ("Skipped:         %d (reserved)", [LogInt (Skipped stats)]);
    ("Failed:          %d", [LogInt (Failed stats)]);
    ("Success rate:    %.1f%%", [LogFloat (successRate stats)]) ]%string.

(** The places where [calculateAgencyWordCount] ranges over a map, and
    where it reads the clock. *)
Inductive range_site :=
| RangeChildTitles (agencyID childID : Z)
| RangeTitleSet (agencyID : Z).

Inductive clock_site :=
| AtUpdateWordCount (agencyID : Z)
| AtInsertSnapshot (agencyID : Z).

Inductive outcome (A : Type) :=
| Returned (a : A)
| Errored (err : error)        (* a nil result and an error *)
| Panicked                     (* nil pointer dereference *)
| OutOfFuel.                   (* the recursion did not end within the fuel *)
Arguments Returned {A} a.
Arguments Errored {A} err.
Arguments Panicked {A}.
Arguments OutOfFuel {A}.

Section Rollup.

(** The order in which a [range] over a map visits its keys. *)
Variable rangeOrder : range_site -> gset Z -> list Z.
Variable clock : clock_site -> Z.

(** The loop over [titleNums] that sums the word counts and builds
    the checksum input. *)
Definition sumTitle (db : DB) (acc : Z * string) (titleNum : Z) : Z * string :=
  match GetTitleWordCount titleNum db with
  | (_, Some _) => acc
  | (wordCount, None) =>
      (wrap64 (fst acc + wordCount),
       (snd acc ++ pretty titleNum ++ ":" ++ pretty wordCount ++ ";")%string)
  end.

(** The loop over [childrenMap[agencyID]], given the recursive call. *)
Fixpoint forChildren (recur : Z -> DB -> outcome (gset Z) * DB) (agencyID : Z)
         (children : list Z) (titleSet : gset Z) (db : DB)
  : outcome (gset Z) * DB :=
  match children with
  | [] => (Returned titleSet, db)
  | childID :: rest =>
      match recur childID db with
      | (Returned childTitles, db') =>
          forChildren recur agencyID rest
            (fold_left (fun acc t => {[ t ]} ∪ acc)
                       (rangeOrder (RangeChildTitles agencyID childID) childTitles)
                       titleSet)
            db'
      | (Errored err, db') => (Errored err, db')
      | (Panicked, db') => (Panicked, db')
      | (OutOfFuel, db') => (OutOfFuel, db')
      end
  end.

(** [calculateAgencyWordCount]: what the call returns and the store it
    leaves.  The calls of the loggers are left out. *)
Fixpoint calculateAgencyWordCount (fuel : nat) (agencyID : Z)
         (agencyMap : gmap Z Agency.t) (childrenMap : gmap Z (list Z))
         (snapshotDate : Z) (db : DB) : outcome (gset Z) * DB :=
  match fuel with
  | O => (OutOfFuel, db)
  | S fuel' =>
      let agency := agencyMap !! agencyID in
      match GetAgencyTitles agencyID db with
      | (_, Some err) =>
          (Errored (ErrorfW ("failed to get titles for agency " ++ pretty agencyID ++ ": ")
                           err), db)
      | (directTitles, None) =>
      let titleSet0 := fold_left (fun acc t => {[ t ]} ∪ acc) directTitles ∅ in
      match forChildren
              (fun childID db =>
                 calculateAgencyWordCount fuel' childID agencyMap childrenMap
                                          snapshotDate db)
              agencyID (default [] (childrenMap !! agencyID)) titleSet0 db with
      | (Returned titleSet, db1) =>
          let titleNums :=
            merge_sort Z.le (rangeOrder (RangeTitleSet agencyID) titleSet) in
          let '(totalWordCount, checksumInput) :=
            fold_left (sumTitle db1) titleNums (0, EmptyString) in
          let checksum := md5hex (bytes_of_string checksumInput) in
          let regulationCount := Z.of_nat (size titleSet) in
          match UpdateWordCount (clock (AtUpdateWordCount agencyID)) agencyID
                                totalWordCount regulationCount checksum db1 with
          | (Some err, db2) =>
              (Errored (ErrorfW ("failed to update word count for agency "
                                  ++ pretty agencyID ++ ": ") err), db2)
          | (None, db2) =>
          match agency with
          | None => (Panicked, db2)
          | Some agency =>
              let snapshot :=
                AgencySnapshot.Make 0 agencyID (Agency.AgencyName agency)
                                    totalWordCount regulationCount checksum
                                    snapshotDate 0 in
              let '(_, _, _, db3) :=
                InsertSnapshotIfChanged (clock (AtInsertSnapshot agencyID))
                                        snapshot titleNums db2 in
              (Returned titleSet, db3)
          end
          end
      | (Errored err, db1) => (Errored err, db1)
      | (Panicked, db1) => (Panicked, db1)
      | (OutOfFuel, db1) => (OutOfFuel, db1)
      end
      end
  end.

End Rollup.

(** The title set of a call that returned, and the empty set otherwise. *)
Definition titleSetOf (result : outcome (gset Z) * DB) : gset Z :=
  match fst result with
  | Returned titleSet => titleSet
  | _ => ∅
  end.

(** The word count that [GetTitleWordCount] reports for a title. *)
Definition wordCountOf (db : DB) (titleNum : Z) : Z :=
  fst (GetTitleWordCount titleNum db).

Definition sumZ (l : list Z) : Z := fold_right Z.add 0 l.

(** The result of the two loops over the sorted members of a title
    set: the total word count and the checksum input. *)
Definition aggregate (db : DB) (titleSet : gset Z) : Z * string :=
  fold_left (sumTitle db) (merge_sort Z.le (elements titleSet)) (0, EmptyString).

(** What a call leaves as it is: the titles, the links between agencies
    and titles, and the identifiers of the agencies. *)
Definition preserved (db db' : DB) : Prop :=
  titles db' = titles db
  /\ agency_titles db' = agency_titles db
  /\ map Agency.ID (agencies db') = map Agency.ID (agencies db).

(** The children of a node in [childrenMap]. *)
Definition childrenOf (childrenMap : gmap Z (list Z)) (agencyID : Z) : list Z :=
  default [] (childrenMap !! agencyID).

(** [childrenMap] is a forest whose nodes are all in [agencyMap]: every
    child is less deep than its parent, and the children of a node of
    the map are nodes of the map. *)
Definition forest (agencyMap : gmap Z Agency.t) (childrenMap : gmap Z (list Z))
           (depth : Z -> nat) : Prop :=
  (forall p c, In c (childrenOf childrenMap p) -> (depth c < depth p)%nat)
  /\ (forall p c, is_Some (agencyMap !! p) -> In c (childrenOf childrenMap p) ->
                  is_Some (agencyMap !! c)).

(** A forest of three agencies: a department (1) with two bureaus (2 and
    3).  Both bureaus are linked to title 7 (200 words), bureau 3 also to
    title 9 (50 words), and the department itself to title 5 (100
    words). *)
Definition bureau (id : Z) (name : string) (parent : option Z) : Agency.t :=
  Agency.Make id name None name parent 0 0 EmptyString 0.

Definition title_row (number words : Z) : Title.t :=
  Title.Make number number "Title" words 0 EmptyString None 0 0.

Definition forest_db : DB :=
  {| titles := [title_row 5 100; title_row 7 200; title_row 9 50];
     title_snapshots := [];
     agencies := [bureau 1 "department" None; bureau 2 "bureau-a" (Some 1);
                  bureau 3 "bureau-b" (Some 1)];
     agency_titles := [AgencyTitle.Make 2 7; AgencyTitle.Make 3 7;
                       AgencyTitle.Make 3 9; AgencyTitle.Make 1 5];
     agency_snapshots := []; agency_snapshot_titles := [];
     titles_id_seq := 9; title_snapshots_id_seq := 0; agency_snapshots_id_seq := 0 |}.

Definition forest_agencyMap : gmap Z Agency.t :=
  list_to_map (map (fun a => (Agency.ID a, a)) (agencies forest_db)).

Definition forest_childrenMap : gmap Z (list Z) := {[ 1 := [2; 3] ]}.

(** The same forest with the bureaus and the links listed in another
    order. *)
Definition forest_db_reordered : DB :=
  {| titles := titles forest_db;
     title_snapshots := [];
     agencies := agencies forest_db;
     agency_titles := [AgencyTitle.Make 1 5; AgencyTitle.Make 3 9;
                       AgencyTitle.Make 3 7; AgencyTitle.Make 2 7];
     agency_snapshots := []; agency_snapshot_titles := [];
     titles_id_seq := 9; title_snapshots_id_seq := 0; agency_snapshots_id_seq := 0 |}.

Definition forest_childrenMap_reordered : gmap Z (list Z) := {[ 1 := [3; 2] ]}.

Definition forest_depth (agencyID : Z) : nat :=
  if agencyID =? 1 then 1%nat else 0%nat.

(** Two orders in which a [range] may visit a set of titles. *)
Definition ascending : range_site -> gset Z -> list Z :=
  fun _ titleSet => elements titleSet.
Definition descending : range_site -> gset Z -> list Z :=
  fun _ titleSet => rev (elements titleSet).

Definition midnight : clock_site -> Z := fun _ => 0.

End Importer.

(** ** internal/model: what the API lists *)

Module TitleMeta.
Record t := Make {
  Number : Z;
  Name : string;
  LatestAmendedOn : string;
  LatestIssueDate : string;
  Reserved : bool
}.
End TitleMeta.

(** ** internal/service/ecfr_client.go: the methods of the client *)

Module ECFRClient.
Import Client.

Definition baseURL : string := "https://www.ecfr.gov/api/versioner/v1".
Definition adminBaseURL : string := "https://www.ecfr.gov/api/admin/v1".

(** An entry of [titlesResponse]. *)
Record titleJSON := {
  number : Z;
  name : string;
  latest_amended_on : string;
  latest_issue_date : string;
  reserved : bool
}.

(** An entry of [versionsResponse]. *)
Record versionJSON := {
  date : string;
  identifier : string
}.

Section Methods.

(** What the network does with the call of [fetchWithRetry] for a URL. *)
Variable http : string -> world.

(** [json.Unmarshal] into a [titlesResponse] and into a
    [versionsResponse]: the entries, or the error. *)
Variable unmarshalTitles : list byte -> list titleJSON + error.
Variable unmarshalVersions : list byte -> list versionJSON + error.

(** [FetchTitles]: the titles or the error, and what the call did on
    the network. *)
Definition FetchTitles : (list TitleMeta.t + error) * list event :=
  let url := (baseURL ++ "/titles.json")%string in
  match fetchWithRetry (http url) with
  | (inr err, trace) => (inr (ErrorfW "failed to fetch titles: " err), trace)
  | (inl body, trace) =>
      match unmarshalTitles body with
      | inr err => (inr (ErrorfW "failed to parse titles response: " err), trace)
      | inl resp =>
          (inl (map (fun t => TitleMeta.Make (number t) (name t) (latest_amended_on t)
                                             (latest_issue_date t) (reserved t))
                    resp),
           trace)
      end
  end.

(** [FetchTitleContent]. *)
Definition FetchTitleContent (date : string) (titleNumber : Z)
  : (list byte + error) * list event :=
  let url := (baseURL ++ "/full/" ++ date ++ "/title-" ++ pretty titleNumber ++ ".xml")%string in
  match fetchWithRetry (http url) with
  | (inr err, trace) =>
      (inr (ErrorfW ("failed to fetch title " ++ pretty titleNumber ++ " content: ") err),
       trace)
  | (inl body, trace) => (inl body, trace)
  end.

(** [FetchTitleVersions]. *)
Definition FetchTitleVersions (titleNumber : Z) : (list string + error) * list event :=
  let url := (baseURL ++ "/versions/title-" ++ pretty titleNumber ++ ".json")%string in
  match fetchWithRetry (http url) with
  | (inr err, trace) =>
      (inr (ErrorfW ("failed to fetch versions for title " ++ pretty titleNumber ++ ": ") err),
       trace)
  | (inl body, trace) =>
      match unmarshalVersions body with
      | inr err => (inr (ErrorfW "failed to parse versions response: " err), trace)
      | inl resp => (inl (map date resp), trace)
      end
  end.

End Methods.

End ECFRClient.

(** ** internal/service/importer.go: the import of the titles *)

Module ImportRun.
Import GoInt Client Store Importer.

(** The calls of [fetchWithRetry] in a run: the one for the list of the
    titles, and the one for the content of the title at position [idx]
    of the list. *)
Inductive call_site :=
| ListTitles
| Content (idx : nat).

(** The readings of the clock for the title at position [idx]:
    [time.Now()] in [importTitle], and the instant of the transaction of
    [SaveTitleWithSnapshot]. *)
Inductive clock_site :=
| AtFetched (idx : nat)
| AtSaved (idx : nat).

(** What a run does that is visible outside, the store apart.  The
    calls of [i.logger] are left out. *)
Inductive event :=
| Requested (site : call_site) (trace : list Client.event)  (* a call of fetchWithRetry *)
| Paused (d : Z)                                            (* time.Sleep(d) *)
| ImportFailed (number : Z) (err : error).
    (* errLogger.Printf("Failed to import Title %d: %v", number, err) *)

Definition zeroStats : ImportStats :=
  {| Total := 0; Imported := 0; Changed := 0; Unchanged := 0; Skipped := 0; Failed := 0 |}.

Definition setTotal (n : Z) (s : ImportStats) : ImportStats :=
  {| Total := n; Imported := Imported s; Changed := Changed s;
     Unchanged := Unchanged s; Skipped := Skipped s; Failed := Failed s |}.
Definition incImported (s : ImportStats) : ImportStats :=
  {| Total := Total s; Imported := wrap64 (Imported s + 1); Changed := Changed s;
     Unchanged := Unchanged s; Skipped := Skipped s; Failed := Failed s |}.
Definition incChanged (s : ImportStats) : ImportStats :=
  {| Total := Total s; Imported := Imported s; Changed := wrap64 (Changed s + 1);
     Unchanged := Unchanged s; Skipped := Skipped s; Failed := Failed s |}.
Definition incUnchanged (s : ImportStats) : ImportStats :=
  {| Total := Total s; Imported := Imported s; Changed := Changed s;
     Unchanged := wrap64 (Unchanged s + 1); Skipped := Skipped s; Failed := Failed s |}.
Definition incSkipped (s : ImportStats) : ImportStats :=
  {| Total := Total s; Imported := Imported s; Changed := Changed s;
     Unchanged := Unchanged s; Skipped := wrap64 (Skipped s + 1); Failed := Failed s |}.
Definition incFailed (s : ImportStats) : ImportStats :=
  {| Total := Total s; Imported := Imported s; Changed := Changed s;
     Unchanged := Unchanged s; Skipped := Skipped s; Failed := wrap64 (Failed s + 1) |}.

(** What a function of the importer leaves when it ends: the statistics
    ([stats] is a pointer that [importTitle] writes through), the store
    and the events, oldest first. *)
Record state := State {
  stats : ImportStats;
  db : DB;
  events : list event
}.

Definition emit (ev : event) (st : state) : state :=
  State (stats st) (db st) (events st ++ [ev]).

Section Run.

Variable http : call_site -> string -> world.
Variable unmarshalTitles : list byte -> list ECFRClient.titleJSON + error.
(** [time.Parse("2006-01-02", s)]: the day, or the error. *)
Variable parseDate : string -> Z + error.
Variable dec : Parser.decoder.
(** The state of the context at the [select] that opens the turn for the
    title at position [idx]: the error of a context that is done. *)
Variable ctxDone : nat -> option ctx_error.
Variable clock : clock_site -> Z.

(** The content that the call for the title at position [idx] fetches,
    or the error of [FetchTitleContent], and what the call did on the
    network. *)
Definition fetchDateOf (meta : TitleMeta.t) (date : string) : string :=
  if String.eqb date "" then TitleMeta.LatestIssueDate meta else date.

Definition contentOf (idx : nat) (meta : TitleMeta.t) (date : string) : list byte + error :=
  fst (ECFRClient.FetchTitleContent (http (Content idx)) (fetchDateOf meta date)
                                    (TitleMeta.Number meta)).

Definition traceOf (idx : nat) (meta : TitleMeta.t) (date : string) : list Client.event :=
  snd (ECFRClient.FetchTitleContent (http (Content idx)) (fetchDateOf meta date)
                                    (TitleMeta.Number meta)).

(** The date of the last amendment that [importTitle] stores. *)
Definition lastAmendedOf (meta : TitleMeta.t) : option Z :=
  if String.eqb (TitleMeta.LatestAmendedOn meta) "" then None
  else match parseDate (TitleMeta.LatestAmendedOn meta) with
       | inl t => Some t
       | inr _ => None
       end.

(** The title that is saved for a content, with the metrics of the
    content in closed form: the words of its readable text, its sections,
    and the digest of its bytes. *)
Definition titleOf (idx : nat) (meta : TitleMeta.t) (content : list byte) : Title.t :=
  Title.Make 0 (TitleMeta.Number meta) (TitleMeta.Name meta)
             (Z.of_nat (Parser.wordsIn false (fst (dec content))))
             (wrap64 (Z.of_nat (Parser.sectionsIn (fst (dec content)))))
             (md5hex content)
             (lastAmendedOf meta) (clock (AtFetched idx)) 0.

(** [importTitle]: the error it returns, or a panic. *)
Definition importTitle (idx : nat) (meta : TitleMeta.t) (date : string) (snapshotDate : Z)
           (st : state) : outcome (option error) * state :=
  let fetchDate := if String.eqb date "" then TitleMeta.LatestIssueDate meta else date in
  let '(content, trace) :=
    ECFRClient.FetchTitleContent (http (Content idx)) fetchDate (TitleMeta.Number meta) in
  let st := emit (Requested (Content idx) trace) st in
  match content with
  | inr err => (Returned (Some (ErrorfW "failed to fetch content: " err)), st)
  | inl content =>
      match Parser.Parse dec content with
      | (_, Some err) => (Returned (Some (ErrorfW "failed to parse content: " err)), st)
      | (None, None) => (Panicked, st)
      | (Some parseResult, None) =>
          let lastAmendedDate :=
            if String.eqb (TitleMeta.LatestAmendedOn meta) "" then None
            else match parseDate (TitleMeta.LatestAmendedOn meta) with
                 | inl t => Some t
                 | inr _ => None
                 end in
          let title :=
            Title.Make 0 (TitleMeta.Number meta) (TitleMeta.Name meta)
                       (Parser.WordCount parseResult) (Parser.SectionCount parseResult)
                       (Parser.Checksum parseResult) lastAmendedDate
                       (clock (AtFetched idx)) 0 in
          match SaveTitleWithSnapshot (clock (AtSaved idx)) title snapshotDate (db st) with
          | (_, Some err, _, db') =>
              (Returned (Some (ErrorfW "failed to save title: " err)),
               State (stats st) db' (events st))
          | (changed, None, _, db') =>
              (Returned None,
               State (if changed then incChanged (stats st) else incUnchanged (stats st))
                     db' (events st))
          end
      end
  end.

(** The loop of [Import] over the titles from position [idx] on:
    the pair it returns, or a panic. *)
Fixpoint importLoop (total : Z) (idx : nat) (titles : list TitleMeta.t) (date : string)
         (snapshotDate : Z) (st : state)
  : outcome (option ImportStats * option error) * state :=
  match titles with
  | [] => (Returned (Some (stats st), None), st)
  | titleMeta :: rest =>
      match ctxDone idx with
      | Some reason => (Returned (Some (stats st), Some (ErrContext reason)), st)
      | None =>
          if TitleMeta.Reserved titleMeta then
            importLoop total (S idx) rest date snapshotDate
                       (State (incSkipped (stats st)) (db st) (events st))
          else
            match importTitle idx titleMeta date snapshotDate st with
            | (Returned (Some err), st1) =>
                let st2 := emit (ImportFailed (TitleMeta.Number titleMeta) err) st1 in
                importLoop total (S idx) rest date snapshotDate
                           (State (incFailed (stats st2)) (db st2) (events st2))
            | (Returned None, st1) =>
                let st2 := State (incImported (stats st1)) (db st1) (events st1) in
                importLoop total (S idx) rest date snapshotDate
                           (if Z.of_nat idx <? total - 1 then emit (Paused Delay) st2 else st2)
            | (Errored err, st1) => (Errored err, st1)
            | (Panicked, st1) => (Panicked, st1)
            | (OutOfFuel, st1) => (OutOfFuel, st1)
            end
      end
  end.

(** The store that the loop leaves, read off the loop: a title that is
    reserved, or whose content cannot be fetched, is passed over, and the
    others are saved in the order of the list, until the context is
    done. *)
Definition saveStep (date : string) (snapshotDate : Z) (db : DB) (idx : nat)
           (meta : TitleMeta.t) : DB :=
  if TitleMeta.Reserved meta then db
  else match contentOf idx meta date with
       | inr _ => db
       | inl content =>
           (SaveTitleWithSnapshot (clock (AtSaved idx)) (titleOf idx meta content)
                                  snapshotDate db).2
       end.

Fixpoint savedFrom (idx : nat) (titles : list TitleMeta.t) (date : string)
         (snapshotDate : Z) (db : DB) : DB :=
  match titles with
  | [] => db
  | meta :: rest =>
      match ctxDone idx with
      | Some _ => db
      | None => savedFrom (S idx) rest date snapshotDate (saveStep date snapshotDate db idx meta)
      end
  end.

(** The position at which the loop stops: that of the first turn that
    finds the context done, or the end of the list. *)
Fixpoint stopFrom (idx : nat) (remaining : nat) : nat :=
  match remaining with
  | O => idx
  | S remaining' =>
      match ctxDone idx with
      | Some _ => idx
      | None => stopFrom (S idx) remaining'
      end
  end.

(** Whether the run dealt with the last title of the list and imported
    it. *)
Definition lastImported (metas : list TitleMeta.t) (date : string) : bool :=
  (stopFrom 0 (length metas) =? length metas)%nat
  && match last metas with
     | Some meta =>
         negb (TitleMeta.Reserved meta)
         && match contentOf (length metas - 1) meta date with
            | inl _ => true
            | inr _ => false
            end
     | None => false
     end.

(** [Import]. *)
Definition Import (date : string) (db0 : DB)
  : outcome (option ImportStats * option error) * state :=
  let '(titles, trace) := ECFRClient.FetchTitles (http ListTitles) unmarshalTitles in
  let st := emit (Requested ListTitles trace) (State zeroStats db0 []) in
  match titles with
  | inr err => (Returned (None, Some (ErrorfW "failed to fetch titles list: " err)), st)
  | inl titles =>
      let total := Z.of_nat (length titles) in
      let st := State (setTotal total (stats st)) (db st) (events st) in
      match parseDate date with
      | inr err => (Returned (None, Some (ErrorfW "invalid date format: " err)), st)
      | inl snapshotDate => importLoop total 0 titles date snapshotDate st
      end
  end.

(** [ImportSingleTitle]. *)
Definition ImportSingleTitle (titleNumber : Z) (date : string) (snapshotDate : Z) (db0 : DB)
  : outcome (option ImportStats * option error) * state :=
  let '(titles, trace) := ECFRClient.FetchTitles (http ListTitles) unmarshalTitles in
  let st := emit (Requested ListTitles trace) (State (setTotal 1 zeroStats) db0 []) in
  match titles with
  | inr err => (Returned (None, Some (ErrorfW "failed to fetch titles list: " err)), st)
  | inl titles =>
      match List.find (fun t => TitleMeta.Number t =? titleNumber) titles with
      | None =>
          (Returned (None, Some (Errorf ("title " ++ pretty titleNumber
                                         ++ " not found in eCFR API"))), st)
      | Some titleMeta =>
          if TitleMeta.Reserved titleMeta then
            let st := State (incSkipped (stats st)) (db st) (events st) in
            (Returned (Some (stats st), None), st)
          else
            match importTitle 0 titleMeta date snapshotDate st with
            | (Returned (Some err), st1) =>
                let st2 := emit (ImportFailed (TitleMeta.Number titleMeta) err) st1 in
                let st3 := State (incFailed (stats st2)) (db st2) (events st2) in
                (Returned (Some (stats st3), Some err), st3)
            | (Returned None, st1) =>
                let st2 := State (incImported (stats st1)) (db st1) (events st1) in
                (Returned (Some (stats st2), None), st2)
            | (Errored err, st1) => (Errored err, st1)
            | (Panicked, st1) => (Panicked, st1)
            | (OutOfFuel, st1) => (OutOfFuel, st1)
            end
      end
  end.

End Run.

(** The counters of a run that has dealt with [k] titles. *)
Definition accounted (s : ImportStats) (k : Z) : Prop :=
  0 <= Imported s /\ 0 <= Skipped s /\ 0 <= Failed s
  /\ 0 <= Changed s /\ 0 <= Unchanged s
  /\ Changed s + Unchanged s = Imported s
  /\ Imported s + Skipped s + Failed s = k.

Definition is_ImportFailed (ev : event) : bool :=
  match ev with ImportFailed _ _ => true | _ => false end.

Definition is_Paused (ev : event) : bool :=
  match ev with Paused _ => true | _ => false end.

(** The failures and the pauses among the events of a run. *)
Definition failures (evs : list event) : Z :=
  Z.of_nat (length (List.filter is_ImportFailed evs)).

Definition pauses (evs : list event) : Z :=
  Z.of_nat (length (List.filter is_Paused evs)).

(** An example run.  The API lists three titles, of which the second
    is reserved; the content of the first is fetched at the third attempt,
    the server is unavailable for the others, and the context is never
    done. *)
Definition example_titles : list ECFRClient.titleJSON :=
  [ {| ECFRClient.number := 1; ECFRClient.name := "General Provisions";
       ECFRClient.latest_amended_on := "2022-12-29";
       ECFRClient.latest_issue_date := "2024-05-17"; ECFRClient.reserved := false |};
    {| ECFRClient.number := 35; ECFRClient.name := "Panama Canal";
       ECFRClient.latest_amended_on := "";
       ECFRClient.latest_issue_date := ""; ECFRClient.reserved := true |};
    {| ECFRClient.number := 7; ECFRClient.name := "Agriculture";
       ECFRClient.latest_amended_on := "2024-05-15";
       ECFRClient.latest_issue_date := "2024-05-17"; ECFRClient.reserved := false |} ].

Definition example_http (site : call_site) (url : string) : world :=
  match site with
  | ListTitles => World (fun _ => Response 200 []) (fun _ => TimerFired)
  | Content 0 => world_third_time
  | Content _ => world_unavailable
  end.

Definition example_unmarshal (body : list byte) : list ECFRClient.titleJSON + error :=
  inl example_titles.

Definition example_parseDate (s : string) : Z + error :=
  if String.eqb s "2024-01-01" then inl day_2024_01_01
  else inr (ErrExternal "parsing time: cannot parse as 2006-01-02").

Definition example_decoder : Parser.decoder :=
  fun _ => (Parser.truncated_section, ErrExternal "EOF").

Definition never_done (idx : nat) : option ctx_error := None.

Definition example_clock (site : clock_site) : Z := 0.

(** The titles of the example as the client returns them. *)
Definition example_metas : list TitleMeta.t :=
  [ TitleMeta.Make 1 "General Provisions" "2022-12-29" "2024-05-17" false;
    TitleMeta.Make 35 "Panama Canal" "" "" true;
    TitleMeta.Make 7 "Agriculture" "2024-05-15" "2024-05-17" false ].

End ImportRun.

(** ** internal/store/title_store.go: the other methods of the title store *)

Module TitleStore.
Import GoInt Store.


(** [UpsertTitle] at the instant [now]: the error, the title with the
    [ID] scanned into it, and the tables. *)
Definition UpsertTitle (now : Z) (t : Title.t) (db : DB) : option error * Title.t * DB :=
  let n := Title.TitleNumber t in
  let tid := titles_id_seq db + 1 in
  let proposed :=
    Title.Make tid n (Title.TitleName t) (Title.WordCount t) (Title.SectionCount t)
               (Title.Checksum t) (Title.LastAmendedDate t) (Title.FetchedAt t) now in
  (None,
   Title.Make (returning_id (title_conflict n) Title.ID proposed (titles db))
              n (Title.TitleName t) (Title.WordCount t) (Title.SectionCount t)
              (Title.Checksum t) (Title.LastAmendedDate t) (Title.FetchedAt t)
              (Title.CreatedAt t),
   {| titles := upsert (title_conflict n) (title_update t) proposed (titles db);
      title_snapshots := title_snapshots db;
      agencies := agencies db;
      agency_titles := agency_titles db;
      agency_snapshots := agency_snapshots db;
      agency_snapshot_titles := agency_snapshot_titles db;
      titles_id_seq := tid;
      title_snapshots_id_seq := title_snapshots_id_seq db;
      agency_snapshots_id_seq := agency_snapshots_id_seq db |}).

Definition snapshot_row_update (snap r : TitleSnapshot.t) : TitleSnapshot.t :=
  TitleSnapshot.Make (TitleSnapshot.ID r) (TitleSnapshot.TitleNumber r)
                     (TitleSnapshot.TitleName snap) (TitleSnapshot.WordCount snap)
                     (TitleSnapshot.SectionCount snap) (TitleSnapshot.Checksum snap)
                     (TitleSnapshot.LastAmendedDate snap)
                     (TitleSnapshot.SnapshotDate r) (TitleSnapshot.CreatedAt r).

(** [InsertSnapshot] at the instant [now]: the error, the snapshot with
    the [ID] scanned into it, and the tables. *)
Definition InsertSnapshot (now : Z) (snap : TitleSnapshot.t) (db : DB)
  : option error * TitleSnapshot.t * DB :=
  let n := TitleSnapshot.TitleNumber snap in
  let date := TitleSnapshot.SnapshotDate snap in
  let sid := title_snapshots_id_seq db + 1 in
  let proposed :=
    TitleSnapshot.Make sid n (TitleSnapshot.TitleName snap) (TitleSnapshot.WordCount snap)
                       (TitleSnapshot.SectionCount snap) (TitleSnapshot.Checksum snap)
                       (TitleSnapshot.LastAmendedDate snap) date now in
  (None,
   TitleSnapshot.Make
     (returning_id (snapshot_conflict n date) TitleSnapshot.ID proposed (title_snapshots db))
     n (TitleSnapshot.TitleName snap) (TitleSnapshot.WordCount snap)
     (TitleSnapshot.SectionCount snap) (TitleSnapshot.Checksum snap)
     (TitleSnapshot.LastAmendedDate snap) date (TitleSnapshot.CreatedAt snap),
   {| titles := titles db;
      title_snapshots :=
        upsert (snapshot_conflict n date) (snapshot_row_update snap) proposed
               (title_snapshots db);
      agencies := agencies db;
      agency_titles := agency_titles db;
      agency_snapshots := agency_snapshots db;
      agency_snapshot_titles := agency_snapshot_titles db;
      titles_id_seq := titles_id_seq db;
      title_snapshots_id_seq := sid;
      agency_snapshots_id_seq := agency_snapshots_id_seq db |}).

(** The snapshot that [SaveTitleWithSnapshot] writes for a title. *)
Definition snapshotOf (t : Title.t) (snapshotDate : Z) : TitleSnapshot.t :=
  TitleSnapshot.Make 0 (Title.TitleNumber t) (Title.TitleName t) (Title.WordCount t)
                     (Title.SectionCount t) (Title.Checksum t) (Title.LastAmendedDate t)
                     snapshotDate 0.

(** [ORDER BY title_number] and [ORDER BY snapshot_date DESC]. *)
Definition byNumber (a b : Title.t) : Prop := Title.TitleNumber a <= Title.TitleNumber b.
Definition byDateDesc (a b : TitleSnapshot.t) : Prop :=
  TitleSnapshot.SnapshotDate b <= TitleSnapshot.SnapshotDate a.

#[global] Instance byNumber_dec a b : Decision (byNumber a b) := Z_le_dec _ _.
#[global] Instance byDateDesc_dec a b : Decision (byDateDesc a b) := Z_le_dec _ _.

(** [GetAll]. *)
Definition GetAll (db : DB) : list Title.t * option error :=
  (merge_sort byNumber (titles db), None).

(** [GetSnapshots]: the snapshots of a title, the latest first. *)
Definition GetSnapshots (titleNumber : Z) (db : DB) : list TitleSnapshot.t * option error :=
  (merge_sort byDateDesc
     (List.filter (fun r => TitleSnapshot.TitleNumber r =? titleNumber) (title_snapshots db)),
   None).

(** [CountTitles]. *)
Definition CountTitles (db : DB) : Z * option error :=
  (Z.of_nat (length (titles db)), None).

(** [GetTotalWordCount]: [COALESCE(SUM(word_count), 0)]. *)
Definition GetTotalWordCount (db : DB) : Z * option error :=
  (fold_right Z.add 0 (map Title.WordCount (titles db)), None).

(** [GetSnapshotDates]: [SELECT DISTINCT snapshot_date ... ORDER BY
    snapshot_date DESC]. *)
Definition GetSnapshotDates (db : DB) : list Z * option error :=
  (merge_sort Z.ge (remove_dups (map TitleSnapshot.SnapshotDate (title_snapshots db))), None).

(** The statement of [GetAllSorted] and of [GetAllSortedWithDensity]:
    the column and the direction that go into its [ORDER BY]. *)
Definition validColumns : gmap string string :=
  list_to_map [ ("number", "title_number"); ("name", "title_name");
                ("word_count", "word_count"); ("section_count", "section_count");
                ("last_amended", "last_amended_date") ]%string.

Definition sortColumn (sortBy : string) : string :=
  match validColumns !! sortBy with
  | Some column => column
  | None => "title_number"%string
  end.

Definition sortOrder (order : string) : string :=
  if String.eqb order "desc" then "DESC"%string else "ASC"%string.

Definition sortedQuery (sortBy order : string) : string :=
  ("SELECT id, title_number, title_name, word_count, section_count, "
   ++ "checksum, last_amended_date, fetched_at, created_at FROM titles ORDER BY "
   ++ sortColumn sortBy ++ " " ++ sortOrder order)%string.

(** [TitleWithDensity]; [Title] is the embedded [model.Title]. *)
Record TitleWithDensity := {
  Title : Title.t;
  DensityScore : float
}.

Definition setDensityScore (score : float) (t : TitleWithDensity) : TitleWithDensity :=
  {| Title := Title t; DensityScore := score |}.

(** The density of a title: its words per section. *)
Definition densityOf (t : Title.t) : float :=
  PrimFloat.div (float64 (Title.WordCount t)) (float64 (Title.SectionCount t)).

(** The entry that the first loop of [calculateTitleDensityScores]
    appends for the title at position [i], if it appends one. *)
Definition densityEntry (i : nat) (t : TitleWithDensity) : option densityInfo :=
  if 0 <? Title.SectionCount (Title t)
  then Some {| index := i; density := densityOf (Title t) |}
  else None.

Section Density.

(** [sort.Slice] on the collected densities. *)
Variable sortSlice :
  (densityInfo -> densityInfo -> bool) -> list densityInfo -> list densityInfo.

Definition collectDensities (titles : list TitleWithDensity) : list densityInfo :=
  omap id (imap densityEntry titles).

Definition assignScore (n : nat) (titles : list TitleWithDensity)
           (entry : nat * densityInfo) : list TitleWithDensity :=
  let '(rank, d) := entry in
  let titles1 :=
    alter (setDensityScore
             (PrimFloat.div (float64 (Z.of_nat rank))
                            (float64 (wrap64 (Z.of_nat n - 1)))))
          (index d) titles in
  if (n =? 1)%nat
  then alter (setDensityScore 0.5%float) (index d) titles1
  else titles1.

(** [calculateTitleDensityScores]: the slice after the call. *)
Definition calculateTitleDensityScores (titles : list TitleWithDensity)
  : list TitleWithDensity :=
  let densities := collectDensities titles in
  match densities with
  | [] => titles
  | _ =>
      let sorted := sortSlice densityLess densities in
      let n := length sorted in
      fold_left (assignScore n) (imap pair sorted) titles
  end.

(** What PostgreSQL makes of [ORDER BY column direction] on the rows
    of [titles]. *)
Variable orderBy : string -> string -> list Title.t -> list Title.t.

(** [GetAllSortedWithDensity]. *)
Definition GetAllSortedWithDensity (sortBy order : string) (db : DB)
  : list TitleWithDensity * option error :=
  (calculateTitleDensityScores
     (map (fun t => {| Title := t; DensityScore := 0%float |})
          (orderBy (sortColumn sortBy) (sortOrder order) (titles db))),
   None).

End Density.

(** A slice that is in order for [less]: no element is less than one
    that comes before it. *)
Fixpoint inOrder {A : Type} (less : A -> A -> bool) (l : list A) : bool :=
  match l with
  | [] => true
  | a :: l' => forallb (fun b => negb (less b a)) l' && inOrder less l'
  end.

(** No two entries have the same density: of two entries for different
    positions, one is less than the other. *)
Definition distinctDensities (ds : list densityInfo) : bool :=
  forallb (fun a =>
             forallb (fun b => (index a =? index b)%nat || densityLess a b || densityLess b a)
                     ds)
          ds.

(** The score that the last loop gives to the entry of rank [rank]
    among [n]. *)
Definition scoreOf (rank n : nat) : float :=
  if (n =? 1)%nat then 0.5%float
  else PrimFloat.div (float64 (Z.of_nat rank)) (float64 (wrap64 (Z.of_nat n - 1))).

(** The rows that [GetDensityScoreForTitle] counts: those that have
    sections, and among them those of a lower density. *)
Definition hasSections (r : Title.t) : bool := 0 <? Title.SectionCount r.

Definition lowerCount (titleDensity : float) (db : DB) : Z :=
  Z.of_nat (length (List.filter
    (fun r => hasSections r && PrimFloat.ltb (densityOf r) titleDensity) (titles db))).

Definition totalCount (db : DB) : Z :=
  Z.of_nat (length (List.filter hasSections (titles db))).

(** [GetDensityScoreForTitle]: the score and the error. *)
Definition GetDensityScoreForTitle (title : Title.t) (db : DB) : float * option error :=
  if Title.SectionCount title =? 0 then (0%float, None)
  else
    let titleDensity := densityOf title in
    if totalCount db <=? 1 then (0.5%float, None)
    else (PrimFloat.div (float64 (lowerCount titleDensity db))
                        (float64 (wrap64 (totalCount db - 1))), None).

(** Four titles: 100, 300 and 50 words per section, and one without
    sections. *)
Definition density_titles : list Title.t :=
  [ Title.Make 1 1 "General Provisions" 1000 10 EmptyString None 0 0;
    Title.Make 2 35 "Panama Canal" 50 0 EmptyString None 0 0;
    Title.Make 3 7 "Agriculture" 900 3 EmptyString None 0 0;
    Title.Make 4 40 "Protection of Environment" 200 4 EmptyString None 0 0 ].

Definition density_db : DB :=
  {| titles := density_titles; title_snapshots := []; agencies := []; agency_titles := [];
     agency_snapshots := []; agency_snapshot_titles := [];
     titles_id_seq := 4; title_snapshots_id_seq := 0; agency_snapshots_id_seq := 0 |}.

(** An order that a statement may give to the rows. *)
Definition reversed (column direction : string) (rows : list Title.t) : list Title.t :=
  rev rows.

End TitleStore.

(** * Properties *)

(** ** Go integers *)

Lemma wrap64_idemp (z : Z) : GoInt.wrap64 (GoInt.wrap64 z) = GoInt.wrap64 z.
Proof.
  unfold GoInt.wrap64.
  replace ((z + 2 ^ 63) mod 2 ^ 64 - 2 ^ 63 + 2 ^ 63) with ((z + 2 ^ 63) mod 2 ^ 64) by lia.
  rewrite Z.mod_mod by lia. reflexivity.
Qed.

Lemma wrap64_add_l (a b : Z) : GoInt.wrap64 (GoInt.wrap64 a + b) = GoInt.wrap64 (a + b).
Proof.
  unfold GoInt.wrap64. f_equal.
  replace ((a + 2 ^ 63) mod 2 ^ 64 - 2 ^ 63 + b + 2 ^ 63)
    with ((a + 2 ^ 63) mod 2 ^ 64 + b) by lia.
  rewrite Zplus_mod_idemp_l. f_equal. lia.
Qed.

(** ** Digests *)

(** The test suite of RFC 1321, and the checksum input of one title. *)
Example md5hex_vectors :
  md5hex (bytes_of_string "") = "d41d8cd98f00b204e9800998ecf8427e"%string
  /\ md5hex (bytes_of_string "a") = "0cc175b9c0f1b6a831c399e269772661"%string
  /\ md5hex (bytes_of_string "abc") = "900150983cd24fb0d6963f7d28e17f72"%string
  /\ md5hex (bytes_of_string "message digest") = "f96b697d7cb7938d525a2f31aaf161d0"%string
  /\ md5hex (bytes_of_string "abcdefghijklmnopqrstuvwxyz")
     = "c3fcd3d76192e4007dfb496cca67e13b"%string
  /\ md5hex (bytes_of_string
               "12345678901234567890123456789012345678901234567890123456789012345678901234567890")
     = "57edf4a22be3c955ac49da2e2107b67a"%string
  /\ md5hex (bytes_of_string "7:200;") = "7f6f066a4e69fcb92507248de524f294"%string.
Proof. repeat split; vm_compute; reflexivity. Qed.

(** ** Fetch client *)

Section ClientProperties.
Import Client.

(** An attempt that records an error is followed by the rest of the loop
    with that error as [lastErr]; it costs one request. *)
Lemma fetchLoop_retry w r n lastErr b e :
  retryError (attempts w n) = Some e ->
  (0 < n -> waits w n = TimerFired)%nat ->
  exists b',
    fst (fetchLoop w (S r) n lastErr b) = fst (fetchLoop w r (S n) (Some e) b')
    /\ sends (fetchLoop w (S r) n lastErr b) = S (sends (fetchLoop w r (S n) (Some e) b')).
Proof.
  intros He Hw. cbn [fetchLoop].
  destruct (0 <? n)%nat eqn:Hn.
  - apply Nat.ltb_lt in Hn. rewrite (Hw Hn).
    exists (GoInt.wrap64 (b * 2)).
    destruct (attempts w n) as [e0|e0|st e0|st body]; cbn in He; try discriminate.
    + injection He as <-. split; reflexivity.
    + injection He as <-. split; reflexivity.
    + destruct (st =? StatusTooManyRequests).
      * injection He as <-. split; reflexivity.
      * destruct (st =? StatusOK); cbn in He; [discriminate|].
        injection He as <-. split; reflexivity.
  - exists b.
    destruct (attempts w n) as [e0|e0|st e0|st body]; cbn in He; try discriminate.
    + injection He as <-. split; reflexivity.
    + injection He as <-. split; reflexivity.
    + destruct (st =? StatusTooManyRequests).
      * injection He as <-. split; reflexivity.
      * destruct (st =? StatusOK); cbn in He; [discriminate|].
        injection He as <-. split; reflexivity.
Qed.

(** A response with status 200 ends the call with its body. *)
Lemma fetchLoop_ok w r n lastErr b body :
  attempts w n = Response StatusOK body ->
  (0 < n -> waits w n = TimerFired)%nat ->
  fst (fetchLoop w (S r) n lastErr b) = inl body
  /\ sends (fetchLoop w (S r) n lastErr b) = 1%nat.
Proof.
  intros Ha Hw. cbn [fetchLoop]. rewrite Ha.
  destruct (0 <? n)%nat eqn:Hn.
  - apply Nat.ltb_lt in Hn. rewrite (Hw Hn). split; reflexivity.
  - split; reflexivity.
Qed.

(** A context that is done during the wait ends the call before the
    attempt. *)
Lemma fetchLoop_cancel w r n lastErr b reason :
  (0 < n)%nat ->
  waits w n = CtxDone reason ->
  fetchLoop w (S r) n lastErr b = (inr (ErrContext reason), [Interrupted b]).
Proof.
  intros Hn Hw. cbn [fetchLoop].
  apply Nat.ltb_lt in Hn. rewrite Hn, Hw. reflexivity.
Qed.

(** [j] failed attempts in a row, from attempt [n] on. *)
Lemma fetchLoop_failures w j : forall r n lastErr b,
  (forall k, n <= k < n + j -> is_Some (retryError (attempts w k)))%nat ->
  (forall k, n <= k < n + j -> 0 < k -> waits w k = TimerFired)%nat ->
  exists lastErr' b',
    fst (fetchLoop w (j + r) n lastErr b) = fst (fetchLoop w r (n + j) lastErr' b')
    /\ sends (fetchLoop w (j + r) n lastErr b)
       = (j + sends (fetchLoop w r (n + j) lastErr' b'))%nat
    /\ lastErr' = match j with
                  | O => lastErr
                  | S j' => retryError (attempts w (n + j'))
                  end.
Proof.
  induction j as [|j IH]; intros r n lastErr b Hfail Hwait.
  - exists lastErr, b. rewrite Nat.add_0_r. auto.
  - destruct (Hfail n ltac:(lia)) as [e He].
    destruct (fetchLoop_retry w (j + r) n lastErr b e He) as (b1 & Hfst & Hsends).
    { intros Hn. apply Hwait; lia. }
    destruct (IH r (S n) (Some e) b1) as (lastErr' & b' & Hfst' & Hsends' & Hlast).
    { intros k Hk. apply Hfail. lia. }
    { intros k Hk Hpos. apply Hwait; lia. }
    exists lastErr', b'.
    replace (n + S j)%nat with (S n + j)%nat by lia.
    change (S j + r)%nat with (S (j + r)).
    rewrite Hfst, Hsends, Hfst', Hsends'. split; [reflexivity|]. split; [lia|].
    rewrite Hlast. destruct j as [|j'].
    + rewrite Nat.add_0_r. symmetry. exact He.
    + f_equal. f_equal. lia.
Qed.

(** Before a wait that the context interrupts, only attempts of a lower
    number send a request. *)
Lemma fetchLoop_sent_before_cancel w j reason :
  (0 < j)%nat ->
  waits w j = CtxDone reason ->
  forall r n lastErr b m,
    (n <= j)%nat ->
    In (Sent m) (snd (fetchLoop w r n lastErr b)) -> (n <= m < j)%nat.
Proof.
  intros Hj Hw. induction r as [|r IH]; intros n lastErr b m Hn Hin.
  - cbn in Hin. contradiction.
  - destruct (Nat.eq_dec n j) as [->|Hne].
    + rewrite (fetchLoop_cancel w r j lastErr b reason Hj Hw) in Hin.
      cbn in Hin. destruct Hin as [Hin|[]]. discriminate.
    + assert (Hrest : forall lastErr' b',
                 In (Sent m) (snd (emit (Sent n) (fetchLoop w r (S n) lastErr' b'))) ->
                 (n <= m < j)%nat).
      { intros lastErr' b' [Heq|Hin'].
        - injection Heq as <-. lia.
        - apply IH in Hin'; lia. }
      assert (Hbody : forall b',
                 In (Sent m) (snd
                   (match attempts w n with
                    | RequestError e => (inr (ErrorfW "failed to create request: " e), [])
                    | TransportError e =>
                        emit (Sent n) (fetchLoop w r (S n) (Some e) b')
                    | ReadError _ e =>
                        emit (Sent n) (fetchLoop w r (S n) (Some e) b')
                    | Response status body =>
                        emit (Sent n)
                          (if status =? StatusTooManyRequests then
                             fetchLoop w r (S n)
                               (Some (Errorf "rate limited (HTTP 429)")) b'
                           else if negb (status =? StatusOK) then
                             fetchLoop w r (S n)
                               (Some (Errorf ("unexpected status code: " ++ pretty status)))
                               b'
                           else (inl body, []))
                    end)) -> (n <= m < j)%nat).
      { intros b'. destruct (attempts w n) as [e0|e0|st e0|st body].
        - cbn. contradiction.
        - apply Hrest.
        - apply Hrest.
        - destruct (st =? StatusTooManyRequests); [apply Hrest|].
          destruct (st =? StatusOK); cbn [negb]; [|apply Hrest].
          cbn. intros [Heq|[]]. injection Heq as <-. lia. }
      cbn [fetchLoop] in Hin.
      destruct (0 <? n)%nat.
      * destruct (waits w n).
        -- cbn in Hin. destruct Hin as [Hin|[]]. discriminate.
        -- destruct Hin as [Hin|Hin]; [discriminate|]. eapply Hbody, Hin.
      * eapply Hbody, Hin.
Qed.

(** Replacing a response whose status is not 200 by a transport failure
    that carries the error recorded for it changes nothing. *)
Lemma fetchLoop_status_as_failure w n status body e :
  attempts w n = Response status body ->
  retryError (Response status body) = Some e ->
  forall r m lastErr b,
    fetchLoop (withAttempt w n (TransportError e)) r m lastErr b
    = fetchLoop w r m lastErr b.
Proof.
  intros Ha He. induction r as [|r IH]; intros m lastErr b; [reflexivity|].
  cbn [fetchLoop withAttempt attempts waits].
  destruct (Nat.eqb_spec m n) as [->|Hne].
  - rewrite Ha. cbn in He.
    destruct (status =? StatusTooManyRequests).
    + injection He as <-. rewrite !IH. reflexivity.
    + destruct (status =? StatusOK); cbn in He; [discriminate|].
      injection He as <-. cbn [negb]. rewrite !IH. reflexivity.
  - destruct (attempts w m); rewrite ?IH; try reflexivity.
Qed.

(** A budget that is spent on failures: the error of the last attempt,
    wrapped, after [maxRetries] requests. *)
Lemma fetchWithRetry_exhausted (w : world) e :
  (forall k, 0 < k < maxRetries -> waits w k = TimerFired)%nat ->
  (forall k, k < maxRetries - 1 -> is_Some (retryError (attempts w k)))%nat ->
  retryError (attempts w (maxRetries - 1)) = Some e ->
  fst (fetchWithRetry w) = inr (ErrorfW "failed after 3 attempts: " e)
  /\ sends (fetchWithRetry w) = maxRetries.
Proof.
  intros Hwait Hfail He. unfold fetchWithRetry, maxRetries in *.
  destruct (fetchLoop_failures w 3 0 0 None initialBackoff)
    as (lastErr' & b' & Hfst & Hsends & Hlast).
  { intros k Hk. destruct (Nat.eq_dec k 2%nat) as [->|Hne].
    - cbn in He. rewrite He. eauto.
    - apply Hfail. lia. }
  { intros k Hk Hpos. apply Hwait. lia. }
  cbn [Nat.add] in Hfst, Hsends, Hlast. cbn in He.
  rewrite Hfst, Hsends, Hlast, He. split; reflexivity.
Qed.

(** C5.  With the budget of [maxRetries] = 3 attempts and a context that
    is not cancelled: if the first two attempts fail and the third is
    answered 200, the call returns the body of that answer; if all three
    fail, it returns an error that wraps the error of the last attempt
    under the attempt count, after exactly three requests. *)
Theorem fetchWithRetry_retry_budget (w : world) :
  (forall k, 0 < k < maxRetries -> waits w k = TimerFired)%nat ->
  (forall k, k < maxRetries - 1 -> is_Some (retryError (attempts w k)))%nat ->
  (forall body,
      attempts w (maxRetries - 1) = Response StatusOK body ->
      fst (fetchWithRetry w) = inl body
      /\ sends (fetchWithRetry w) = maxRetries)
  /\ (forall e,
      retryError (attempts w (maxRetries - 1)) = Some e ->
      fst (fetchWithRetry w) = inr (ErrorfW "failed after 3 attempts: " e)
      /\ Unwrap (ErrorfW "failed after 3 attempts: " e) = Some e
      /\ sends (fetchWithRetry w) = maxRetries).
Proof.
  intros Hwait Hfail. unfold fetchWithRetry, maxRetries in *. split.
  - intros body Hok.
    destruct (fetchLoop_failures w 2 1 0 None initialBackoff)
      as (lastErr' & b' & Hfst & Hsends & _).
    { intros k Hk. apply Hfail. lia. }
    { intros k Hk Hpos. apply Hwait. lia. }
    cbn [Nat.add] in Hfst, Hsends.
    destruct (fetchLoop_ok w 0 2 lastErr' b' body Hok) as [Hfst' Hsends'].
    { intros _. apply Hwait. lia. }
    rewrite Hfst, Hsends, Hfst', Hsends'. split; reflexivity.
  - intros e He.
    destruct (fetchWithRetry_exhausted w e Hwait Hfail He) as [Hfst Hsends].
    unfold fetchWithRetry, maxRetries in Hfst, Hsends.
    rewrite Hfst, Hsends. repeat split; reflexivity.
Qed.

Lemma fetchWithRetry_retry_budget_witness :
  fst (fetchWithRetry world_third_time) = inl [Byte.x41]
  /\ fst (fetchWithRetry world_unavailable)
     = inr (ErrorfW "failed after 3 attempts: " (Errorf "unexpected status code: 503")).
Proof.
  split.
  - apply (fetchWithRetry_retry_budget world_third_time).
    + intros k Hk. reflexivity.
    + intros k Hk. destruct k as [|[|k]]; [cbn; eauto | cbn; eauto | cbn in Hk; lia].
    + reflexivity.
  - apply (fetchWithRetry_retry_budget world_unavailable).
    + intros k Hk. reflexivity.
    + intros k Hk. cbn. eauto.
    + reflexivity.
Defined.

(** The message of the error of an exhausted budget. *)
Example fetchWithRetry_unavailable_message :
  match fst (fetchWithRetry world_unavailable) with
  | inr err => Error err = "failed after 3 attempts: unexpected status code: 503"%string
  | inl _ => False
  end.
Proof. reflexivity. Qed.

(** C6, as stated, fails on a 2xx status other than 200: the answer
    201 Created is not returned as a success but retried until the budget
    is exhausted. *)
Lemma fetchWithRetry_created_is_retried :
  200 <= 201 < 300
  /\ attempts world_created 0 = Response 201 [Byte.x41]
  /\ fst (fetchWithRetry world_created)
     = inr (ErrorfW "failed after 3 attempts: " (Errorf "unexpected status code: 201"))
  /\ fst (fetchWithRetry world_created) <> inl [Byte.x41]
  /\ sends (fetchWithRetry world_created) = 3%nat.
Proof.
  split; [lia|]. split; [reflexivity|]. split; [reflexivity|].
  split; [discriminate | reflexivity].
Qed.

(** C6, amended.  A response with status 200 returns its body on that
    attempt, with no further request; a response with any other status,
    429 and the other 2xx codes included, is handled exactly as a
    transport failure that carries the error recorded for it, so it is
    retried within the same budget; and when every attempt is answered
    with a status other than 200 the call fails after [maxRetries]
    requests with the error of the last one. *)
Theorem fetchWithRetry_status_classification (w : world) (n : nat) (status : Z)
        (body : list byte) :
  attempts w n = Response status body ->
  (status = StatusOK ->
   (n < maxRetries)%nat ->
   (forall k, k < n -> is_Some (retryError (attempts w k)))%nat ->
   (forall k, 0 < k <= n -> waits w k = TimerFired)%nat ->
   fst (fetchWithRetry w) = inl body /\ sends (fetchWithRetry w) = S n)
  /\ (status <> StatusOK ->
      let e := if status =? StatusTooManyRequests
               then Errorf "rate limited (HTTP 429)"
               else Errorf ("unexpected status code: " ++ pretty status) in
      retryError (Response status body) = Some e
      /\ fetchWithRetry w = fetchWithRetry (withAttempt w n (TransportError e))
      /\ ((n = maxRetries - 1)%nat ->
          (forall k, k < n -> is_Some (retryError (attempts w k)))%nat ->
          (forall k, 0 < k <= n -> waits w k = TimerFired)%nat ->
          fst (fetchWithRetry w) = inr (ErrorfW "failed after 3 attempts: " e)
          /\ sends (fetchWithRetry w) = maxRetries)).
Proof.
  intros Ha. split.
  - intros -> Hn Hfail Hwait. unfold fetchWithRetry.
    assert (Hr : exists r, maxRetries = (n + S r)%nat).
    { exists (maxRetries - S n)%nat. lia. }
    destruct Hr as [r ->].
    destruct (fetchLoop_failures w n (S r) 0 None initialBackoff)
      as (lastErr' & b' & Hfst & Hsends & _).
    { intros k Hk. apply Hfail. lia. }
    { intros k Hk Hpos. apply Hwait. lia. }
    cbn [Nat.add] in Hfst, Hsends.
    destruct (fetchLoop_ok w r n lastErr' b' body Ha) as [Hfst' Hsends'].
    { intros Hpos. apply Hwait. lia. }
    rewrite Hfst, Hsends, Hfst', Hsends'. split; [reflexivity | lia].
  - intros Hne e.
    assert (He : retryError (Response status body) = Some e).
    { subst e. cbn. destruct (status =? StatusTooManyRequests); [reflexivity|].
      destruct (Z.eqb_spec status StatusOK); [contradiction | reflexivity]. }
    split; [exact He|]. split.
    + unfold fetchWithRetry. symmetry.
      apply (fetchLoop_status_as_failure w n status body e Ha He).
    + intros Hn Hfail Hwait.
      apply fetchWithRetry_exhausted.
      * intros k Hk. apply Hwait. lia.
      * intros k Hk. apply Hfail. lia.
      * rewrite <- Hn, Ha. exact He.
Qed.

Lemma fetchWithRetry_status_classification_witness :
  (fst (fetchWithRetry world_third_time) = inl [Byte.x41]
   /\ sends (fetchWithRetry world_third_time) = 3%nat)
  /\ fetchWithRetry world_cancelled
     = fetchWithRetry
         (withAttempt world_cancelled 0
                      (TransportError (Errorf "rate limited (HTTP 429)")))
  /\ fst (fetchWithRetry world_created)
     = inr (ErrorfW "failed after 3 attempts: " (Errorf "unexpected status code: 201")).
Proof.
  split; [|split].
  - apply (fetchWithRetry_status_classification world_third_time 2 200 [Byte.x41]).
    + reflexivity.
    + reflexivity.
    + unfold maxRetries. lia.
    + intros k Hk. destruct k as [|[|k]]; [cbn; eauto | cbn; eauto | lia].
    + intros k Hk. reflexivity.
  - apply (fetchWithRetry_status_classification world_cancelled 0 429 []).
    + reflexivity.
    + discriminate.
  - apply (fetchWithRetry_status_classification world_created 2 201 [Byte.x41]).
    + reflexivity.
    + discriminate.
    + reflexivity.
    + intros k Hk. cbn. eauto.
    + intros k Hk. reflexivity.
Defined.

(** C7.  When the context is done during the backoff wait that precedes
    attempt [j], the call returns the context's error itself, which is
    not the error of an exhausted budget, and attempt [j] sends no
    request: exactly the [j] earlier attempts did. *)
Theorem fetchWithRetry_cancel_during_backoff (w : world) (j : nat) (reason : ctx_error) :
  (0 < j < maxRetries)%nat ->
  (forall k, k < j -> is_Some (retryError (attempts w k)))%nat ->
  (forall k, 0 < k < j -> waits w k = TimerFired)%nat ->
  waits w j = CtxDone reason ->
  fst (fetchWithRetry w) = inr (ErrContext reason)
  /\ (forall lastErr,
        fst (fetchWithRetry w)
        <> inr (ErrorfWrap ("failed after " ++ pretty maxRetries ++ " attempts: ") lastErr))
  /\ sends (fetchWithRetry w) = j
  /\ ~ In (Sent j) (snd (fetchWithRetry w)).
Proof.
  intros Hj Hfail Hwait Hdone. unfold fetchWithRetry.
  assert (Hr : exists r, maxRetries = (j + S r)%nat).
  { exists (maxRetries - S j)%nat. lia. }
  destruct Hr as [r Hr].
  assert (Hres : fst (fetchLoop w maxRetries 0 None initialBackoff) = inr (ErrContext reason)
                 /\ sends (fetchLoop w maxRetries 0 None initialBackoff) = j).
  { rewrite Hr.
    destruct (fetchLoop_failures w j (S r) 0 None initialBackoff)
      as (lastErr' & b' & Hfst & Hsends & _).
    { intros k Hk. apply Hfail. lia. }
    { intros k Hk Hpos. apply Hwait. lia. }
    cbn [Nat.add] in Hfst, Hsends.
    rewrite Hfst, Hsends.
    rewrite (fetchLoop_cancel w r j lastErr' b' reason) by (lia || assumption).
    split; [reflexivity | cbn; lia]. }
  destruct Hres as [Hfst Hsends].
  split; [exact Hfst|]. split.
  - intros lastErr. rewrite Hfst. destruct lastErr; discriminate.
  - split; [exact Hsends|].
    intros Hin.
    apply (fetchLoop_sent_before_cancel w j reason) in Hin; [lia | lia | assumption | lia].
Qed.

Lemma fetchWithRetry_cancel_during_backoff_witness :
  fst (fetchWithRetry world_cancelled) = inr (ErrContext CtxCanceled)
  /\ sends (fetchWithRetry world_cancelled) = 1%nat.
Proof.
  destruct (fetchWithRetry_cancel_during_backoff world_cancelled 1 CtxCanceled)
    as (H1 & _ & H3 & _).
  - unfold maxRetries. lia.
  - intros k Hk. cbn. eauto.
  - intros k Hk. lia.
  - reflexivity.
  - split; assumption.
Defined.

End ClientProperties.

(** ** Content parser *)

Section ParserProperties.
Import Parser.

Lemma countWords_Fields text : countWords text = Z.of_nat (length (Fields text)).
Proof. destruct text; reflexivity. Qed.

(** A white space rune ends the field being read. *)
Lemma fieldsFrom_app_space cur s1 r s2 :
  IsSpace r = true ->
  fieldsFrom cur (s1 ++ r :: s2) = fieldsFrom cur s1 ++ fieldsFrom [] s2.
Proof.
  intros Hr. revert cur. induction s1 as [|x s1 IH]; intros cur; cbn [fieldsFrom app].
  - rewrite Hr. destruct cur; reflexivity.
  - destruct (IsSpace x).
    + destruct cur; rewrite IH; reflexivity.
    + apply IH.
Qed.

Lemma Fields_app_space s1 s2 :
  Fields (s1 ++ 32 :: s2) = Fields s1 ++ Fields s2.
Proof. apply fieldsFrom_app_space. reflexivity. Qed.

Lemma Fields_appended_app data rest :
  Fields (appended data ++ rest) = Fields (TrimSpace data) ++ Fields rest.
Proof.
  unfold appended. destruct (TrimSpace data) as [|x text]; [reflexivity|].
  rewrite <- app_assoc. apply Fields_app_space.
Qed.

Lemma scanToken_CharData st data :
  scanToken st (CharData data)
  = if inTextElement st
    then Scan (sections st) (textBuilder st ++ appended data) (inTextElement st)
    else st.
Proof.
  destruct st as [n tb inText]. cbn [scanToken inTextElement textBuilder sections].
  unfold appended. destruct inText; [|reflexivity].
  destruct (TrimSpace data).
  - rewrite app_nil_r. reflexivity.
  - reflexivity.
Qed.

Lemma scanToken_StartElement_text st name attrs :
  isTextElement (Local name) = true ->
  inTextElement (scanToken st (StartElement name attrs)) = true
  /\ textBuilder (scanToken st (StartElement name attrs)) = textBuilder st.
Proof.
  intros Hname. cbn [scanToken inTextElement textBuilder]. rewrite Hname. auto.
Qed.

Lemma scanToken_EndElement_text st name :
  isTextElement (Local name) = true ->
  inTextElement (scanToken st (EndElement name)) = false
  /\ textBuilder (scanToken st (EndElement name)) = textBuilder st.
Proof.
  intros Hname. cbn [scanToken inTextElement textBuilder]. rewrite Hname. auto.
Qed.

Lemma fieldsFrom_TrimLeftSpace s : fieldsFrom [] (TrimLeftSpace s) = fieldsFrom [] s.
Proof.
  induction s as [|r s IH]; [reflexivity|].
  cbn [TrimLeftSpace]. destruct (IsSpace r) eqn:Hr.
  - rewrite IH. cbn [fieldsFrom]. rewrite Hr. reflexivity.
  - reflexivity.
Qed.

Lemma TrimLeftSpace_prefix s :
  exists p, s = p ++ TrimLeftSpace s /\ Forall (fun r => IsSpace r = true) p.
Proof.
  induction s as [|r s (p & Hs & Hp)].
  - exists []. split; [reflexivity | constructor].
  - cbn [TrimLeftSpace]. destruct (IsSpace r) eqn:Hr.
    + exists (r :: p). split; [cbn; congruence | constructor; assumption].
    + exists []. split; [reflexivity | constructor].
Qed.

Lemma fieldsFrom_spaces t :
  Forall (fun r => IsSpace r = true) t -> fieldsFrom [] t = [].
Proof.
  induction 1 as [|r t Hr _ IH]; [reflexivity|].
  cbn [fieldsFrom]. rewrite Hr. exact IH.
Qed.

Lemma fieldsFrom_app_spaces cur s t :
  Forall (fun r => IsSpace r = true) t -> fieldsFrom cur (s ++ t) = fieldsFrom cur s.
Proof.
  intros Ht. destruct Ht as [|r t Hr Ht].
  - rewrite app_nil_r. reflexivity.
  - rewrite fieldsFrom_app_space by exact Hr.
    rewrite fieldsFrom_spaces by exact Ht. apply app_nil_r.
Qed.

(** Trimming a text does not change its fields. *)
Lemma Fields_TrimSpace s : Fields (TrimSpace s) = Fields s.
Proof.
  unfold TrimSpace, Fields.
  destruct (TrimLeftSpace_prefix (rev (TrimLeftSpace s))) as (p & Hs & Hp).
  apply (f_equal (@rev rune)) in Hs. rewrite rev_involutive, rev_app_distr in Hs.
  rewrite <- (fieldsFrom_TrimLeftSpace s).
  remember (rev (TrimLeftSpace (rev (TrimLeftSpace s)))) as trimmed.
  rewrite Hs. symmetry. apply fieldsFrom_app_spaces.
  apply Forall_rev. exact Hp.
Qed.

Lemma Fields_appended data : Fields (appended data) = Fields (TrimSpace data).
Proof.
  pose proof (Fields_appended_app data []) as H.
  rewrite !app_nil_r in H. exact H.
Qed.

Lemma builder_closed_nil : builder_closed [].
Proof. intros x. reflexivity. Qed.

Lemma builder_closed_appended tb data :
  builder_closed tb -> builder_closed (tb ++ appended data).
Proof.
  intros Htb x. rewrite <- app_assoc, !Htb, Fields_appended_app, Fields_appended.
  rewrite app_assoc. reflexivity.
Qed.

(** The loop against the specification: the words in the builder are
    those it held, and then those of the readable text of the tokens. *)
Lemma scanTokens_words (tokens : list Token) : forall st,
  builder_closed (textBuilder st) ->
  length (Fields (textBuilder (fold_left scanToken tokens st)))
  = (length (Fields (textBuilder st)) + wordsIn (inTextElement st) tokens)%nat.
Proof.
  induction tokens as [|token tokens IH]; intros st Hst; cbn [fold_left wordsIn].
  - lia.
  - destruct token as [name attr|name|data|data|target inst|data];
      try (rewrite IH by exact Hst; reflexivity).
    rewrite scanToken_CharData. destruct (inTextElement st) eqn:Hin.
    + rewrite IH by (apply builder_closed_appended, Hst).
      cbn [textBuilder inTextElement].
      rewrite Hst, Fields_appended, Fields_TrimSpace, length_app. lia.
    + rewrite IH by exact Hst. rewrite Hin. lia.
Qed.

(** The sections counted by the loop, in the arithmetic of [int]. *)
Lemma scanTokens_sections (tokens : list Token) : forall st,
  GoInt.wrap64 (sections st) = sections st ->
  sections (fold_left scanToken tokens st)
  = GoInt.wrap64 (sections st + Z.of_nat (sectionsIn tokens)).
Proof.
  unfold sectionsIn.
  induction tokens as [|token tokens IH]; intros st Hst; cbn [fold_left List.filter].
  - cbn [length]. rewrite Z.add_0_r. symmetry. exact Hst.
  - destruct token as [name attr|name|data|data|target inst|data];
      cbn [isSection]; try (rewrite IH by exact Hst; reflexivity).
    + cbn [scanToken].
      destruct (String.eqb (Local name) "DIV8" && existsb isSectionAttr attr).
      * rewrite IH by apply wrap64_idemp. cbn [sections length].
        rewrite wrap64_add_l. f_equal. lia.
      * rewrite IH by exact Hst. reflexivity.
    + cbn [scanToken].
      destruct (inTextElement st); [destruct (TrimSpace data)|];
        rewrite IH by exact Hst; reflexivity.
Qed.

(** C4.  For every input, whatever the decoder makes of it, [Parse]
    returns a result and no error; the checksum of the result is the
    hexadecimal MD5 digest of the whole input; and the counts are those of
    the tokens read before the decoder stopped, whether it stopped at the
    end of the input or at an error: the words of the readable text among
    these tokens, and the sections among them. *)
Theorem Parse_total_checksum_truncation (dec : decoder) (content : list byte) :
  exists r,
    Parse dec content = (Some r, None)
    /\ Checksum r = Hex.EncodeToString (MD5.Sum content)
    /\ WordCount r = Z.of_nat (wordsIn false (fst (dec content)))
    /\ SectionCount r = GoInt.wrap64 (Z.of_nat (sectionsIn (fst (dec content))))
    /\ (forall err, Parse (fun _ => (fst (dec content), err)) content = (Some r, None))
    /\ Parse (fun _ => (truncated_section,
                        ErrExternal "XML syntax error: element <P> closed by </DIV8>"))
             content
       = (Some {| WordCount := 3; SectionCount := 1;
                  Checksum := Hex.EncodeToString (MD5.Sum content) |}, None).
Proof.
  eexists. split; [reflexivity|]. cbn [Checksum WordCount SectionCount].
  split; [reflexivity|]. split; [|split; [|split; reflexivity]].
  - rewrite countWords_Fields. unfold scanTokens.
    rewrite scanTokens_words by apply builder_closed_nil. reflexivity.
  - unfold scanTokens. rewrite scanTokens_sections by reflexivity. reflexivity.
Qed.

(** C10.  When a text element lies inside another one, the end tag of the
    inner element clears the flag: character data that follows it inside
    the outer element adds no word, and the count is that of the text
    before and inside the inner element. *)
Theorem Parse_nested_text_element (dec : decoder) (content : list byte)
        (outer inner : Name) (attrs attrs' : list Attr) (a b c : list rune) (err : error) :
  isTextElement (Local outer) = true ->
  isTextElement (Local inner) = true ->
  dec content =
    ([ StartElement outer attrs; CharData a;
       StartElement inner attrs'; CharData b; EndElement inner;
       CharData c; EndElement outer ], err) ->
  inTextElement
    (scanTokens [ StartElement outer attrs; CharData a;
                  StartElement inner attrs'; CharData b; EndElement inner ]) = false
  /\ exists r,
       Parse dec content = (Some r, None)
       /\ WordCount r = Z.of_nat (length (Fields a) + length (Fields b)).
Proof.
  intros Houter Hinner Hdec.
  unfold Parse. rewrite Hdec. cbn [fst].
  unfold scanTokens. cbn [fold_left].
  destruct (scanToken_StartElement_text (Scan 0 [] false) outer attrs Houter)
    as [H1i H1t].
  remember (scanToken (Scan 0 [] false) (StartElement outer attrs)) as s1.
  pose proof (scanToken_CharData s1 a) as H2. rewrite H1i in H2.
  remember (scanToken s1 (CharData a)) as s2.
  destruct (scanToken_StartElement_text s2 inner attrs' Hinner) as [H3i H3t].
  remember (scanToken s2 (StartElement inner attrs')) as s3.
  pose proof (scanToken_CharData s3 b) as H4. rewrite H3i in H4.
  remember (scanToken s3 (CharData b)) as s4.
  destruct (scanToken_EndElement_text s4 inner Hinner) as [H5i H5t].
  remember (scanToken s4 (EndElement inner)) as s5.
  pose proof (scanToken_CharData s5 c) as H6. rewrite H5i in H6.
  split; [exact H5i|].
  eexists. split; [reflexivity|]. cbn [WordCount].
  rewrite H6. cbn [scanToken textBuilder].
  rewrite H5t, H4. cbn [textBuilder]. rewrite H3t, H2. cbn [textBuilder].
  rewrite H1t. cbn [textBuilder app].
  rewrite countWords_Fields, Fields_appended_app.
  rewrite <- (app_nil_r (appended b)), Fields_appended_app.
  rewrite !Fields_TrimSpace, !length_app. cbn [Fields fieldsFrom length].
  f_equal. lia.
Qed.

Lemma Parse_nested_text_element_witness :
  exists r,
    Parse (fun _ => (nested_note, ErrExternal "EOF")) [] = (Some r, None)
    /\ WordCount r = 2.
Proof.
  destruct (Parse_nested_text_element
              (fun _ => (nested_note, ErrExternal "EOF")) []
              (local "P") (local "NOTE") [] []
              (runes "one") (runes "two") (runes "three four") (ErrExternal "EOF"))
    as (_ & r & Hr & Hw).
  - reflexivity.
  - reflexivity.
  - reflexivity.
  - exists r. split; [exact Hr | exact Hw].
Defined.

End ParserProperties.

(** ** Snapshot ledger *)

Section UpsertProperties.
Import Store.
Context {R : Type}.
Variables (conflict : R -> bool) (update : R -> R) (proposed : R).

Lemma find_None_existsb (table : list R) :
  List.find conflict table = None <-> existsb conflict table = false.
Proof.
  induction table as [|r table IH]; cbn; [tauto|].
  destruct (conflict r); cbn; [split; discriminate | exact IH].
Qed.

Lemma find_Some_existsb (table : list R) r :
  List.find conflict table = Some r -> existsb conflict table = true.
Proof.
  intros Hfind. destruct (existsb conflict table) eqn:He; [reflexivity|].
  apply find_None_existsb in He. congruence.
Qed.

Lemma upsert_fresh (table : list R) :
  List.find conflict table = None ->
  upsert conflict update proposed table = table ++ [proposed].
Proof.
  intros Hfind. apply find_None_existsb in Hfind.
  unfold upsert. rewrite Hfind. reflexivity.
Qed.

Lemma upsert_in_place (table : list R) r :
  List.find conflict table = Some r ->
  upsert conflict update proposed table
  = map (fun r => if conflict r then update r else r) table.
Proof.
  intros Hfind. apply find_Some_existsb in Hfind.
  unfold upsert. rewrite Hfind. reflexivity.
Qed.

Lemma upsert_in_place_length (table : list R) r :
  List.find conflict table = Some r ->
  length (upsert conflict update proposed table) = length table.
Proof.
  intros Hfind. rewrite (upsert_in_place table r Hfind). apply length_map.
Qed.

Lemma upsert_in_place_keys {K : Type} (key : R -> K) (table : list R) r :
  (forall r, key (update r) = key r) ->
  List.find conflict table = Some r ->
  map key (upsert conflict update proposed table) = map key table.
Proof.
  intros Hkey Hfind. rewrite (upsert_in_place table r Hfind).
  rewrite map_map. apply map_ext. intros x.
  destruct (conflict x); [apply Hkey | reflexivity].
Qed.

Lemma find_map_update (table : list R) r :
  (forall r, conflict (update r) = conflict r) ->
  List.find conflict table = Some r ->
  List.find conflict (map (fun r => if conflict r then update r else r) table)
  = Some (update r).
Proof.
  intros Hc. induction table as [|x table IH]; cbn; [discriminate|].
  destruct (conflict x) eqn:Hx.
  - intros [= ->]. rewrite Hc, Hx. reflexivity.
  - rewrite Hx. exact IH.
Qed.

Lemma find_upsert_in_place (table : list R) r :
  (forall r, conflict (update r) = conflict r) ->
  List.find conflict table = Some r ->
  List.find conflict (upsert conflict update proposed table) = Some (update r).
Proof.
  intros Hc Hfind. rewrite (upsert_in_place table r Hfind).
  apply find_map_update; assumption.
Qed.

Lemma find_app_None (table : list R) x :
  List.find conflict table = None ->
  List.find conflict (table ++ [x]) = if conflict x then Some x else None.
Proof.
  induction table as [|y table IH]; cbn; [reflexivity|].
  destruct (conflict y); [discriminate | exact IH].
Qed.

Lemma find_upsert_fresh (table : list R) :
  conflict proposed = true ->
  List.find conflict table = None ->
  List.find conflict (upsert conflict update proposed table) = Some proposed.
Proof.
  intros Hp Hfind. rewrite (upsert_fresh table Hfind).
  rewrite (find_app_None table proposed Hfind), Hp. reflexivity.
Qed.

End UpsertProperties.

Section TitleSnapshotProperties.
Import Store.

Lemma snapshot_conflict_key n date r :
  snapshot_conflict n date r = true <-> title_snapshot_key r = (n, date).
Proof.
  unfold snapshot_conflict, title_snapshot_key.
  rewrite andb_true_iff, !Z.eqb_eq. split; [intros [-> ->]; reflexivity | intros [= -> ->]; auto].
Qed.

Lemma snapshot_conflict_update n date t r :
  snapshot_conflict n date (snapshot_update t r) = snapshot_conflict n date r.
Proof. reflexivity. Qed.

(** The current-state table after a call, whatever the gate decides. *)
Lemma SaveTitleWithSnapshot_titles now t date db :
  titles (SaveTitleWithSnapshot now t date db).2
  = upsert (title_conflict (Title.TitleNumber t)) (title_update t)
           (Title.Make (titles_id_seq db + 1) (Title.TitleNumber t) (Title.TitleName t)
                       (Title.WordCount t) (Title.SectionCount t) (Title.Checksum t)
                       (Title.LastAmendedDate t) (Title.FetchedAt t) now)
           (titles db).
Proof.
  unfold SaveTitleWithSnapshot.
  destruct (option_map _ _) as [c|]; [destruct (negb _)|]; reflexivity.
Qed.

(** The gate is closed: the snapshot table is left as it is. *)
Lemma SaveTitleWithSnapshot_same now t date db r :
  List.find (snapshot_conflict (Title.TitleNumber t) date) (title_snapshots db) = Some r ->
  TitleSnapshot.Checksum r = Title.Checksum t ->
  (SaveTitleWithSnapshot now t date db).1.1.1 = false
  /\ title_snapshots (SaveTitleWithSnapshot now t date db).2 = title_snapshots db.
Proof.
  intros Hfind Hsum. unfold SaveTitleWithSnapshot. rewrite Hfind. cbn [option_map].
  rewrite Hsum, String.eqb_refl. cbn. auto.
Qed.

(** The gate is open on an existing row: the row is rewritten. *)
Lemma SaveTitleWithSnapshot_differs now t date db r :
  List.find (snapshot_conflict (Title.TitleNumber t) date) (title_snapshots db) = Some r ->
  TitleSnapshot.Checksum r <> Title.Checksum t ->
  (SaveTitleWithSnapshot now t date db).1.1.1 = true
  /\ title_snapshots (SaveTitleWithSnapshot now t date db).2
     = map (fun x => if snapshot_conflict (Title.TitleNumber t) date x
                     then snapshot_update t x else x)
           (title_snapshots db).
Proof.
  intros Hfind Hsum. unfold SaveTitleWithSnapshot. rewrite Hfind. cbn [option_map].
  apply String.eqb_neq in Hsum. rewrite Hsum. cbn.
  split; [reflexivity|]. apply (upsert_in_place _ _ _ _ r Hfind).
Qed.

(** The gate is open on a date without a row: a row is appended. *)
Lemma SaveTitleWithSnapshot_fresh now t date db :
  List.find (snapshot_conflict (Title.TitleNumber t) date) (title_snapshots db) = None ->
  (SaveTitleWithSnapshot now t date db).1.1.1 = true
  /\ title_snapshots (SaveTitleWithSnapshot now t date db).2
     = title_snapshots db
       ++ [TitleSnapshot.Make (title_snapshots_id_seq db + 1) (Title.TitleNumber t)
                              (Title.TitleName t) (Title.WordCount t)
                              (Title.SectionCount t) (Title.Checksum t)
                              (Title.LastAmendedDate t) date now].
Proof.
  intros Hfind. unfold SaveTitleWithSnapshot. rewrite Hfind. cbn.
  split; [reflexivity|]. apply upsert_fresh, Hfind.
Qed.

(** After any call the table holds a row for the title and the date, and
    it carries the checksum of the title that was saved. *)
Lemma SaveTitleWithSnapshot_row now t date db :
  exists r,
    List.find (snapshot_conflict (Title.TitleNumber t) date)
              (title_snapshots (SaveTitleWithSnapshot now t date db).2) = Some r
    /\ TitleSnapshot.Checksum r = Title.Checksum t.
Proof.
  destruct (List.find (snapshot_conflict (Title.TitleNumber t) date) (title_snapshots db))
    as [r|] eqn:Hfind.
  - destruct (string_dec (TitleSnapshot.Checksum r) (Title.Checksum t)) as [Heq|Hne].
    + destruct (SaveTitleWithSnapshot_same now t date db r Hfind Heq) as [_ ->]. eauto.
    + destruct (SaveTitleWithSnapshot_differs now t date db r Hfind Hne) as [_ ->].
      exists (snapshot_update t r). split; [|reflexivity].
      apply find_map_update; [reflexivity | exact Hfind].
  - destruct (SaveTitleWithSnapshot_fresh now t date db Hfind) as [_ ->].
    eexists. split.
    + rewrite (find_app_None _ _ _ Hfind). unfold snapshot_conflict. cbn.
      rewrite !Z.eqb_refl. reflexivity.
    + reflexivity.
Qed.

(** At most one snapshot per title and date, before and after. *)
Lemma SaveTitleWithSnapshot_unique now t date db :
  NoDup (map title_snapshot_key (title_snapshots db)) ->
  NoDup (map title_snapshot_key (title_snapshots (SaveTitleWithSnapshot now t date db).2)).
Proof.
  intros Hnd.
  destruct (List.find (snapshot_conflict (Title.TitleNumber t) date) (title_snapshots db))
    as [r|] eqn:Hfind.
  - destruct (string_dec (TitleSnapshot.Checksum r) (Title.Checksum t)) as [Heq|Hne].
    + destruct (SaveTitleWithSnapshot_same now t date db r Hfind Heq) as [_ ->]. exact Hnd.
    + destruct (SaveTitleWithSnapshot_differs now t date db r Hfind Hne) as [_ ->].
      rewrite map_map.
      erewrite map_ext; [exact Hnd|]. intros x.
      destruct (snapshot_conflict _ _ x); reflexivity.
  - destruct (SaveTitleWithSnapshot_fresh now t date db Hfind) as [_ ->].
    rewrite map_app. apply NoDup_app. split; [exact Hnd|]. split.
    + intros k Hin Hin'. apply list_elem_of_In in Hin.
      apply in_map_iff in Hin as (x & Hk & Hx).
      apply list_elem_of_In in Hin'. destruct Hin' as [<-|[]].
      apply (find_none _ _ Hfind) in Hx.
      apply (proj2 (snapshot_conflict_key (Title.TitleNumber t) date x)) in Hk.
      congruence.
    + apply NoDup_singleton.
Qed.

(** A call for one date leaves a date without a row without a row. *)
Lemma SaveTitleWithSnapshot_other_date now t date date' db :
  date' <> date ->
  List.find (snapshot_conflict (Title.TitleNumber t) date') (title_snapshots db) = None ->
  List.find (snapshot_conflict (Title.TitleNumber t) date')
            (title_snapshots (SaveTitleWithSnapshot now t date db).2) = None.
Proof.
  intros Hne Hnone.
  assert (Hmap : forall l,
             List.find (snapshot_conflict (Title.TitleNumber t) date') l = None ->
             List.find (snapshot_conflict (Title.TitleNumber t) date')
               (map (fun x => if snapshot_conflict (Title.TitleNumber t) date x
                              then snapshot_update t x else x) l) = None).
  { induction l as [|x l IH]; cbn; [reflexivity|].
    destruct (snapshot_conflict (Title.TitleNumber t) date' x) eqn:Hx; [discriminate|].
    intros Hl. destruct (snapshot_conflict (Title.TitleNumber t) date x).
    - rewrite snapshot_conflict_update, Hx. auto.
    - rewrite Hx. auto. }
  destruct (List.find (snapshot_conflict (Title.TitleNumber t) date) (title_snapshots db))
    as [r|] eqn:Hfind.
  - destruct (string_dec (TitleSnapshot.Checksum r) (Title.Checksum t)) as [Heq|Hneq].
    + destruct (SaveTitleWithSnapshot_same now t date db r Hfind Heq) as [_ ->]. exact Hnone.
    + destruct (SaveTitleWithSnapshot_differs now t date db r Hfind Hneq) as [_ ->].
      apply Hmap, Hnone.
  - destruct (SaveTitleWithSnapshot_fresh now t date db Hfind) as [_ ->].
    rewrite (find_app_None _ _ _ Hnone). unfold snapshot_conflict. cbn.
    destruct (Z.eqb_spec date date'); [congruence|]. rewrite andb_false_r. reflexivity.
Qed.

(** After any call the current-state table holds a row for the title,
    with the metrics of the title that was saved. *)
Lemma SaveTitleWithSnapshot_current now t date db :
  exists row,
    List.find (title_conflict (Title.TitleNumber t))
              (titles (SaveTitleWithSnapshot now t date db).2) = Some row
    /\ current_state_of t row.
Proof.
  rewrite SaveTitleWithSnapshot_titles.
  destruct (List.find (title_conflict (Title.TitleNumber t)) (titles db)) as [r|] eqn:Hfind.
  - exists (title_update t r). split.
    + apply find_upsert_in_place; [reflexivity | exact Hfind].
    + apply find_some in Hfind as [_ Hr]. apply Z.eqb_eq in Hr.
      unfold current_state_of. cbn. auto 10.
  - eexists. split.
    + apply find_upsert_fresh; [|exact Hfind]. apply Z.eqb_refl.
    + unfold current_state_of. cbn. auto 10.
Qed.

(** A title that has a current-state row keeps a single one. *)
Lemma SaveTitleWithSnapshot_not_duplicated now t date db row :
  List.find (title_conflict (Title.TitleNumber t)) (titles db) = Some row ->
  length (titles (SaveTitleWithSnapshot now t date db).2) = length (titles db)
  /\ map Title.TitleNumber (titles (SaveTitleWithSnapshot now t date db).2)
     = map Title.TitleNumber (titles db).
Proof.
  intros Hfind. rewrite SaveTitleWithSnapshot_titles. split.
  - eapply upsert_in_place_length, Hfind.
  - eapply upsert_in_place_keys; [reflexivity | exact Hfind].
Qed.

End TitleSnapshotProperties.

Section AgencySnapshotProperties.
Import Store.

Lemma agency_snapshot_conflict_key aid date r :
  agency_snapshot_conflict aid date r = true <-> agency_snapshot_key r = (aid, date).
Proof.
  unfold agency_snapshot_conflict, agency_snapshot_key.
  rewrite andb_true_iff, !Z.eqb_eq. split; [intros [-> ->]; reflexivity | intros [= -> ->]; auto].
Qed.

(** The gate is closed: nothing is written. *)
Lemma InsertSnapshotIfChanged_same now snap titleNumbers db r :
  List.find (agency_snapshot_conflict (AgencySnapshot.AgencyID snap)
                                      (AgencySnapshot.SnapshotDate snap))
            (agency_snapshots db) = Some r ->
  AgencySnapshot.Checksum r = AgencySnapshot.Checksum snap ->
  InsertSnapshotIfChanged now snap titleNumbers db = (false, None, snap, db).
Proof.
  intros Hfind Hsum. unfold InsertSnapshotIfChanged. rewrite Hfind. cbn [option_map].
  rewrite Hsum, String.eqb_refl. reflexivity.
Qed.

(** The gate is open on an existing row: the row is rewritten. *)
Lemma InsertSnapshotIfChanged_differs now snap titleNumbers db r :
  existsb (fun a => Agency.ID a =? AgencySnapshot.AgencyID snap) (agencies db) = true ->
  List.find (agency_snapshot_conflict (AgencySnapshot.AgencyID snap)
                                      (AgencySnapshot.SnapshotDate snap))
            (agency_snapshots db) = Some r ->
  AgencySnapshot.Checksum r <> AgencySnapshot.Checksum snap ->
  (InsertSnapshotIfChanged now snap titleNumbers db).1.1.1 = true
  /\ (InsertSnapshotIfChanged now snap titleNumbers db).1.1.2 = None
  /\ agency_snapshots (InsertSnapshotIfChanged now snap titleNumbers db).2
     = map (fun x => if agency_snapshot_conflict (AgencySnapshot.AgencyID snap)
                                                 (AgencySnapshot.SnapshotDate snap) x
                     then agency_snapshot_update snap x else x)
           (agency_snapshots db).
Proof.
  intros Hfk Hfind Hsum. unfold InsertSnapshotIfChanged. rewrite Hfind. cbn [option_map].
  apply String.eqb_neq in Hsum. rewrite Hsum, Hfk. cbn.
  split; [reflexivity|]. split; [reflexivity|].
  apply (upsert_in_place _ _ _ _ r Hfind).
Qed.

(** The gate is open on a date without a row: a row is appended. *)
Lemma InsertSnapshotIfChanged_fresh now snap titleNumbers db :
  existsb (fun a => Agency.ID a =? AgencySnapshot.AgencyID snap) (agencies db) = true ->
  List.find (agency_snapshot_conflict (AgencySnapshot.AgencyID snap)
                                      (AgencySnapshot.SnapshotDate snap))
            (agency_snapshots db) = None ->
  (InsertSnapshotIfChanged now snap titleNumbers db).1.1.1 = true
  /\ (InsertSnapshotIfChanged now snap titleNumbers db).1.1.2 = None
  /\ agency_snapshots (InsertSnapshotIfChanged now snap titleNumbers db).2
     = agency_snapshots db
       ++ [AgencySnapshot.Make (agency_snapshots_id_seq db + 1)
                               (AgencySnapshot.AgencyID snap)
                               (AgencySnapshot.AgencyName snap)
                               (AgencySnapshot.TotalWordCount snap)
                               (AgencySnapshot.RegulationCount snap)
                               (AgencySnapshot.Checksum snap)
                               (AgencySnapshot.SnapshotDate snap) now].
Proof.
  intros Hfk Hfind. unfold InsertSnapshotIfChanged. rewrite Hfind, Hfk. cbn.
  split; [reflexivity|]. split; [reflexivity|]. apply upsert_fresh, Hfind.
Qed.

(** The insert is refused: the tables are left as they are. *)
Lemma InsertSnapshotIfChanged_refused now snap titleNumbers db :
  existsb (fun a => Agency.ID a =? AgencySnapshot.AgencyID snap) (agencies db) = false ->
  agency_snapshots (InsertSnapshotIfChanged now snap titleNumbers db).2
  = agency_snapshots db.
Proof.
  intros Hfk. unfold InsertSnapshotIfChanged. rewrite Hfk.
  destruct (option_map _ _) as [c|]; [destruct (String.eqb _ _)|]; reflexivity.
Qed.

(** After a call for an agency that exists, the table holds a row for
    the agency and the date with the checksum that was offered. *)
Lemma InsertSnapshotIfChanged_row now snap titleNumbers db :
  existsb (fun a => Agency.ID a =? AgencySnapshot.AgencyID snap) (agencies db) = true ->
  exists r,
    List.find (agency_snapshot_conflict (AgencySnapshot.AgencyID snap)
                                        (AgencySnapshot.SnapshotDate snap))
              (agency_snapshots (InsertSnapshotIfChanged now snap titleNumbers db).2)
    = Some r
    /\ AgencySnapshot.Checksum r = AgencySnapshot.Checksum snap.
Proof.
  intros Hfk.
  destruct (List.find (agency_snapshot_conflict (AgencySnapshot.AgencyID snap)
                                                (AgencySnapshot.SnapshotDate snap))
                      (agency_snapshots db)) as [r|] eqn:Hfind.
  - destruct (string_dec (AgencySnapshot.Checksum r) (AgencySnapshot.Checksum snap))
      as [Heq|Hne].
    + rewrite (InsertSnapshotIfChanged_same now snap titleNumbers db r Hfind Heq). eauto.
    + destruct (InsertSnapshotIfChanged_differs now snap titleNumbers db r Hfk Hfind Hne)
        as (_ & _ & ->).
      exists (agency_snapshot_update snap r). split; [|reflexivity].
      apply find_map_update; [reflexivity | exact Hfind].
  - destruct (InsertSnapshotIfChanged_fresh now snap titleNumbers db Hfk Hfind)
      as (_ & _ & ->).
    eexists. split.
    + rewrite (find_app_None _ _ _ Hfind). unfold agency_snapshot_conflict. cbn.
      rewrite !Z.eqb_refl. reflexivity.
    + reflexivity.
Qed.

(** At most one snapshot per agency and date, before and after. *)
Lemma InsertSnapshotIfChanged_unique now snap titleNumbers db :
  NoDup (map agency_snapshot_key (agency_snapshots db)) ->
  NoDup (map agency_snapshot_key
             (agency_snapshots (InsertSnapshotIfChanged now snap titleNumbers db).2)).
Proof.
  intros Hnd.
  destruct (existsb (fun a => Agency.ID a =? AgencySnapshot.AgencyID snap) (agencies db))
    eqn:Hfk.
  2:{ rewrite InsertSnapshotIfChanged_refused by exact Hfk. exact Hnd. }
  destruct (List.find (agency_snapshot_conflict (AgencySnapshot.AgencyID snap)
                                                (AgencySnapshot.SnapshotDate snap))
                      (agency_snapshots db)) as [r|] eqn:Hfind.
  - destruct (string_dec (AgencySnapshot.Checksum r) (AgencySnapshot.Checksum snap))
      as [Heq|Hne].
    + rewrite (InsertSnapshotIfChanged_same now snap titleNumbers db r Hfind Heq). exact Hnd.
    + destruct (InsertSnapshotIfChanged_differs now snap titleNumbers db r Hfk Hfind Hne)
        as (_ & _ & ->).
      rewrite map_map.
      erewrite map_ext; [exact Hnd|]. intros x.
      destruct (agency_snapshot_conflict _ _ x); reflexivity.
  - destruct (InsertSnapshotIfChanged_fresh now snap titleNumbers db Hfk Hfind)
      as (_ & _ & ->).
    rewrite map_app. apply NoDup_app. split; [exact Hnd|]. split.
    + intros k Hin Hin'. apply list_elem_of_In in Hin.
      apply in_map_iff in Hin as (x & Hk & Hx).
      apply list_elem_of_In in Hin'. destruct Hin' as [<-|[]].
      apply (find_none _ _ Hfind) in Hx.
      apply (proj2 (agency_snapshot_conflict_key (AgencySnapshot.AgencyID snap)
                                                 (AgencySnapshot.SnapshotDate snap) x)) in Hk.
      congruence.
    + apply NoDup_singleton.
Qed.

(** A call leaves the agencies as they are. *)
Lemma InsertSnapshotIfChanged_agencies now snap titleNumbers db :
  agencies (InsertSnapshotIfChanged now snap titleNumbers db).2 = agencies db.
Proof.
  unfold InsertSnapshotIfChanged.
  destruct (option_map _ _) as [c|]; [destruct (String.eqb _ _)|];
    try destruct (negb _); reflexivity.
Qed.

(** A call for one date leaves a date without a row without a row. *)
Lemma InsertSnapshotIfChanged_other_date now snap titleNumbers date' db :
  date' <> AgencySnapshot.SnapshotDate snap ->
  List.find (agency_snapshot_conflict (AgencySnapshot.AgencyID snap) date')
            (agency_snapshots db) = None ->
  List.find (agency_snapshot_conflict (AgencySnapshot.AgencyID snap) date')
            (agency_snapshots (InsertSnapshotIfChanged now snap titleNumbers db).2) = None.
Proof.
  intros Hne Hnone.
  set (aid := AgencySnapshot.AgencyID snap) in *.
  set (date := AgencySnapshot.SnapshotDate snap) in *.
  assert (Hmap : forall l,
             List.find (agency_snapshot_conflict aid date') l = None ->
             List.find (agency_snapshot_conflict aid date')
               (map (fun x => if agency_snapshot_conflict aid date x
                              then agency_snapshot_update snap x else x) l) = None).
  { induction l as [|x l IH]; cbn; [reflexivity|].
    destruct (agency_snapshot_conflict aid date' x) eqn:Hx; [discriminate|].
    intros Hl. destruct (agency_snapshot_conflict aid date x).
    - change (agency_snapshot_conflict aid date' (agency_snapshot_update snap x))
        with (agency_snapshot_conflict aid date' x). rewrite Hx. auto.
    - rewrite Hx. auto. }
  destruct (existsb (fun a => Agency.ID a =? aid) (agencies db)) eqn:Hfk.
  2:{ rewrite InsertSnapshotIfChanged_refused by exact Hfk. exact Hnone. }
  destruct (List.find (agency_snapshot_conflict aid date) (agency_snapshots db))
    as [r|] eqn:Hfind.
  - destruct (string_dec (AgencySnapshot.Checksum r) (AgencySnapshot.Checksum snap))
      as [Heq|Hneq].
    + rewrite (InsertSnapshotIfChanged_same now snap titleNumbers db r Hfind Heq).
      exact Hnone.
    + destruct (InsertSnapshotIfChanged_differs now snap titleNumbers db r Hfk Hfind Hneq)
        as (_ & _ & ->).
      apply Hmap, Hnone.
  - destruct (InsertSnapshotIfChanged_fresh now snap titleNumbers db Hfk Hfind)
      as (_ & _ & ->).
    rewrite (find_app_None _ _ _ Hnone). unfold agency_snapshot_conflict. cbn.
    fold aid date.
    destruct (Z.eqb_spec date date'); [congruence|]. rewrite andb_false_r. reflexivity.
Qed.

End AgencySnapshotProperties.

Section SnapshotGate.
Import Store.

(** The three cases for titles.  After a first call for a date: a call for the same
    date with the same checksum reports no change, leaves the snapshot
    table as it is and still upserts the current-state row without
    duplicating it; a call for the same date with another checksum
    rewrites the one row of that date in place; a call for another date,
    on which there is no snapshot yet, appends one row.  Keys that are
    pairwise distinct stay so. *)
Lemma SaveTitleWithSnapshot_idempotent (db : DB) (now1 now2 date : Z) (t t' : Title.t) :
  Title.TitleNumber t' = Title.TitleNumber t ->
  let db1 := (SaveTitleWithSnapshot now1 t date db).2 in
  let conflict := snapshot_conflict (Title.TitleNumber t) in
  (NoDup (map title_snapshot_key (title_snapshots db)) ->
   NoDup (map title_snapshot_key (title_snapshots db1))
   /\ forall date', NoDup (map title_snapshot_key
                      (title_snapshots (SaveTitleWithSnapshot now2 t' date' db1).2)))
  /\ (Title.Checksum t' = Title.Checksum t ->
      let run2 := SaveTitleWithSnapshot now2 t' date db1 in
      run2.1.1.1 = false
      /\ title_snapshots run2.2 = title_snapshots db1
      /\ (exists row,
             List.find (title_conflict (Title.TitleNumber t)) (titles run2.2) = Some row
             /\ current_state_of t' row)
      /\ length (titles run2.2) = length (titles db1)
      /\ map Title.TitleNumber (titles run2.2) = map Title.TitleNumber (titles db1))
  /\ (Title.Checksum t' <> Title.Checksum t ->
      let run2 := SaveTitleWithSnapshot now2 t' date db1 in
      run2.1.1.1 = true
      /\ length (title_snapshots run2.2) = length (title_snapshots db1)
      /\ map title_snapshot_key (title_snapshots run2.2)
         = map title_snapshot_key (title_snapshots db1)
      /\ List.filter (fun x => negb (conflict date x)) (title_snapshots run2.2)
         = List.filter (fun x => negb (conflict date x)) (title_snapshots db1)
      /\ exists r,
           List.find (conflict date) (title_snapshots db1) = Some r
           /\ List.find (conflict date) (title_snapshots run2.2)
              = Some (snapshot_update t' r))
  /\ (forall date',
        date' <> date ->
        List.find (conflict date') (title_snapshots db) = None ->
        let run3 := SaveTitleWithSnapshot now2 t' date' db1 in
        run3.1.1.1 = true
        /\ title_snapshots run3.2
           = title_snapshots db1
             ++ [TitleSnapshot.Make (title_snapshots_id_seq db1 + 1) (Title.TitleNumber t)
                                    (Title.TitleName t') (Title.WordCount t')
                                    (Title.SectionCount t') (Title.Checksum t')
                                    (Title.LastAmendedDate t') date' now2]).
Proof.
  intros Hnum db1 conflict.
  destruct (SaveTitleWithSnapshot_row now1 t date db) as (r & Hfind & Hsum).
  fold db1 in Hfind. rewrite <- Hnum in Hfind.
  split; [|split; [|split]].
  - intros Hnd. split.
    + apply SaveTitleWithSnapshot_unique, Hnd.
    + intros date'. apply SaveTitleWithSnapshot_unique, SaveTitleWithSnapshot_unique, Hnd.
  - intros Heq run2.
    destruct (SaveTitleWithSnapshot_same now2 t' date db1 r Hfind) as [Hc Hs];
      [congruence|].
    destruct (SaveTitleWithSnapshot_current now1 t date db) as (row & Hrow & _).
    fold db1 in Hrow. rewrite <- Hnum in Hrow.
    destruct (SaveTitleWithSnapshot_not_duplicated now2 t' date db1 row Hrow) as [Hl Hk].
    split; [exact Hc|]. split; [exact Hs|]. split.
    + rewrite <- Hnum. apply SaveTitleWithSnapshot_current.
    + split; assumption.
  - intros Hne run2.
    destruct (SaveTitleWithSnapshot_differs now2 t' date db1 r Hfind) as [Hc Hs];
      [congruence|].
    split; [exact Hc|]. subst run2. rewrite Hs, Hnum. fold conflict.
    rewrite Hnum in Hfind. fold conflict in Hfind.
    split; [apply length_map|]. split.
    + rewrite map_map. apply map_ext. intros x. destruct (conflict date x); reflexivity.
    + split.
      * clear. induction (title_snapshots db1) as [|x l IH]; [reflexivity|]. cbn.
        destruct (conflict date x) eqn:Hx.
        -- change (conflict date (snapshot_update t' x)) with (conflict date x).
           rewrite Hx. cbn. exact IH.
        -- rewrite Hx. cbn. rewrite IH. reflexivity.
      * exists r. split; [exact Hfind|].
        apply find_map_update; [reflexivity | exact Hfind].
  - intros date' Hdate Hnone run3.
    pose proof (SaveTitleWithSnapshot_other_date now1 t date date' db Hdate Hnone) as Hnone1.
    fold db1 in Hnone1. rewrite <- Hnum in Hnone1.
    destruct (SaveTitleWithSnapshot_fresh now2 t' date' db1 Hnone1) as [Hc Hs].
    split; [exact Hc|]. subst run3. rewrite Hs, Hnum. reflexivity.
Qed.

(** The same three cases for
    [InsertSnapshotIfChanged], on an agency that exists. *)
Lemma InsertSnapshotIfChanged_idempotent (db : DB) (now1 now2 date : Z)
      (snap snap' : AgencySnapshot.t) (links links' : list Z) :
  existsb (fun a => Agency.ID a =? AgencySnapshot.AgencyID snap) (agencies db) = true ->
  AgencySnapshot.SnapshotDate snap = date ->
  AgencySnapshot.AgencyID snap' = AgencySnapshot.AgencyID snap ->
  let db1 := (InsertSnapshotIfChanged now1 snap links db).2 in
  let conflict := agency_snapshot_conflict (AgencySnapshot.AgencyID snap) in
  (NoDup (map agency_snapshot_key (agency_snapshots db)) ->
   NoDup (map agency_snapshot_key (agency_snapshots db1))
   /\ NoDup (map agency_snapshot_key
                (agency_snapshots (InsertSnapshotIfChanged now2 snap' links' db1).2)))
  /\ (AgencySnapshot.SnapshotDate snap' = date ->
      AgencySnapshot.Checksum snap' = AgencySnapshot.Checksum snap ->
      InsertSnapshotIfChanged now2 snap' links' db1 = (false, None, snap', db1))
  /\ (AgencySnapshot.SnapshotDate snap' = date ->
      AgencySnapshot.Checksum snap' <> AgencySnapshot.Checksum snap ->
      let run2 := InsertSnapshotIfChanged now2 snap' links' db1 in
      run2.1.1.1 = true
      /\ length (agency_snapshots run2.2) = length (agency_snapshots db1)
      /\ map agency_snapshot_key (agency_snapshots run2.2)
         = map agency_snapshot_key (agency_snapshots db1)
      /\ List.filter (fun x => negb (conflict date x)) (agency_snapshots run2.2)
         = List.filter (fun x => negb (conflict date x)) (agency_snapshots db1)
      /\ exists r,
           List.find (conflict date) (agency_snapshots db1) = Some r
           /\ List.find (conflict date) (agency_snapshots run2.2)
              = Some (agency_snapshot_update snap' r))
  /\ (AgencySnapshot.SnapshotDate snap' <> date ->
      List.find (conflict (AgencySnapshot.SnapshotDate snap')) (agency_snapshots db) = None ->
      let run3 := InsertSnapshotIfChanged now2 snap' links' db1 in
      run3.1.1.1 = true
      /\ agency_snapshots run3.2
         = agency_snapshots db1
           ++ [AgencySnapshot.Make (agency_snapshots_id_seq db1 + 1)
                                   (AgencySnapshot.AgencyID snap)
                                   (AgencySnapshot.AgencyName snap')
                                   (AgencySnapshot.TotalWordCount snap')
                                   (AgencySnapshot.RegulationCount snap')
                                   (AgencySnapshot.Checksum snap')
                                   (AgencySnapshot.SnapshotDate snap') now2]).
Proof.
  intros Hfk Hdate Haid db1 conflict.
  assert (Hfk1 : existsb (fun a => Agency.ID a =? AgencySnapshot.AgencyID snap')
                         (agencies db1) = true).
  { subst db1. rewrite InsertSnapshotIfChanged_agencies, Haid. exact Hfk. }
  destruct (InsertSnapshotIfChanged_row now1 snap links db Hfk) as (r & Hfind & Hsum).
  fold db1 in Hfind. rewrite Hdate in Hfind. fold conflict in Hfind.
  split; [|split; [|split]].
  - intros Hnd. split.
    + apply InsertSnapshotIfChanged_unique, Hnd.
    + apply InsertSnapshotIfChanged_unique, InsertSnapshotIfChanged_unique, Hnd.
  - intros Hd Heq.
    apply (InsertSnapshotIfChanged_same now2 snap' links' db1 r).
    + rewrite Haid, Hd. exact Hfind.
    + congruence.
  - intros Hd Hne run2.
    destruct (InsertSnapshotIfChanged_differs now2 snap' links' db1 r Hfk1)
      as (Hc & _ & Hs).
    { rewrite Haid, Hd. exact Hfind. }
    { congruence. }
    split; [exact Hc|]. subst run2. rewrite Hs, Haid, Hd. fold conflict.
    split; [apply length_map|]. split.
    + rewrite map_map. apply map_ext. intros x. destruct (conflict date x); reflexivity.
    + split.
      * clear. induction (agency_snapshots db1) as [|x l IH]; [reflexivity|]. cbn.
        destruct (conflict date x) eqn:Hx.
        -- change (conflict date (agency_snapshot_update snap' x)) with (conflict date x).
           rewrite Hx. cbn. exact IH.
        -- rewrite Hx. cbn. rewrite IH. reflexivity.
      * exists r. split; [exact Hfind|].
        apply find_map_update; [reflexivity | exact Hfind].
  - intros Hd Hnone run3.
    assert (Hnone1 : List.find (agency_snapshot_conflict (AgencySnapshot.AgencyID snap')
                                                         (AgencySnapshot.SnapshotDate snap'))
                               (agency_snapshots db1) = None).
    { rewrite Haid. subst db1.
      apply InsertSnapshotIfChanged_other_date; [congruence | exact Hnone]. }
    destruct (InsertSnapshotIfChanged_fresh now2 snap' links' db1 Hfk1 Hnone1)
      as (Hc & _ & Hs).
    split; [exact Hc|]. subst run3. rewrite Hs, Haid. reflexivity.
Qed.

(** C2.  The snapshot gate is idempotent, for titles
    ([SaveTitleWithSnapshot]) and for agencies ([InsertSnapshotIfChanged]).
    After a first call for a date: a call for the same date with the same
    checksum reports no change and leaves the snapshot table as it is,
    while the current-state row of the title is still upserted, without
    being duplicated; a call for the same date with another checksum
    rewrites the one snapshot row of that date in place, so that the keys
    of the table do not change; a call for another date, on which there
    is no snapshot yet, appends one row.  Snapshot keys that are pairwise
    distinct stay so. *)
Theorem snapshot_gate_idempotent (db : DB) (now1 now2 date : Z) :
  (forall t t' : Title.t,
    Title.TitleNumber t' = Title.TitleNumber t ->
    let db1 := (SaveTitleWithSnapshot now1 t date db).2 in
    let conflict := snapshot_conflict (Title.TitleNumber t) in
    (NoDup (map title_snapshot_key (title_snapshots db)) ->
     NoDup (map title_snapshot_key (title_snapshots db1))
     /\ forall date', NoDup (map title_snapshot_key
                        (title_snapshots (SaveTitleWithSnapshot now2 t' date' db1).2)))
    /\ (Title.Checksum t' = Title.Checksum t ->
        let run2 := SaveTitleWithSnapshot now2 t' date db1 in
        run2.1.1.1 = false
        /\ title_snapshots run2.2 = title_snapshots db1
        /\ (exists row,
               List.find (title_conflict (Title.TitleNumber t)) (titles run2.2) = Some row
               /\ current_state_of t' row)
        /\ length (titles run2.2) = length (titles db1)
        /\ map Title.TitleNumber (titles run2.2) = map Title.TitleNumber (titles db1))
    /\ (Title.Checksum t' <> Title.Checksum t ->
        let run2 := SaveTitleWithSnapshot now2 t' date db1 in
        run2.1.1.1 = true
        /\ length (title_snapshots run2.2) = length (title_snapshots db1)
        /\ map title_snapshot_key (title_snapshots run2.2)
           = map title_snapshot_key (title_snapshots db1)
        /\ List.filter (fun x => negb (conflict date x)) (title_snapshots run2.2)
           = List.filter (fun x => negb (conflict date x)) (title_snapshots db1)
        /\ exists r,
             List.find (conflict date) (title_snapshots db1) = Some r
             /\ List.find (conflict date) (title_snapshots run2.2)
                = Some (snapshot_update t' r))
    /\ (forall date',
          date' <> date ->
          List.find (conflict date') (title_snapshots db) = None ->
          let run3 := SaveTitleWithSnapshot now2 t' date' db1 in
          run3.1.1.1 = true
          /\ title_snapshots run3.2
             = title_snapshots db1
               ++ [TitleSnapshot.Make (title_snapshots_id_seq db1 + 1) (Title.TitleNumber t)
                                      (Title.TitleName t') (Title.WordCount t')
                                      (Title.SectionCount t') (Title.Checksum t')
                                      (Title.LastAmendedDate t') date' now2]))
  /\ (forall (snap snap' : AgencySnapshot.t) (links links' : list Z),
    existsb (fun a => Agency.ID a =? AgencySnapshot.AgencyID snap) (agencies db) = true ->
    AgencySnapshot.SnapshotDate snap = date ->
    AgencySnapshot.AgencyID snap' = AgencySnapshot.AgencyID snap ->
    let db1 := (InsertSnapshotIfChanged now1 snap links db).2 in
    let conflict := agency_snapshot_conflict (AgencySnapshot.AgencyID snap) in
    (NoDup (map agency_snapshot_key (agency_snapshots db)) ->
     NoDup (map agency_snapshot_key (agency_snapshots db1))
     /\ NoDup (map agency_snapshot_key
                  (agency_snapshots (InsertSnapshotIfChanged now2 snap' links' db1).2)))
    /\ (AgencySnapshot.SnapshotDate snap' = date ->
        AgencySnapshot.Checksum snap' = AgencySnapshot.Checksum snap ->
        InsertSnapshotIfChanged now2 snap' links' db1 = (false, None, snap', db1))
    /\ (AgencySnapshot.SnapshotDate snap' = date ->
        AgencySnapshot.Checksum snap' <> AgencySnapshot.Checksum snap ->
        let run2 := InsertSnapshotIfChanged now2 snap' links' db1 in
        run2.1.1.1 = true
        /\ length (agency_snapshots run2.2) = length (agency_snapshots db1)
        /\ map agency_snapshot_key (agency_snapshots run2.2)
           = map agency_snapshot_key (agency_snapshots db1)
        /\ List.filter (fun x => negb (conflict date x)) (agency_snapshots run2.2)
           = List.filter (fun x => negb (conflict date x)) (agency_snapshots db1)
        /\ exists r,
             List.find (conflict date) (agency_snapshots db1) = Some r
             /\ List.find (conflict date) (agency_snapshots run2.2)
                = Some (agency_snapshot_update snap' r))
    /\ (AgencySnapshot.SnapshotDate snap' <> date ->
        List.find (conflict (AgencySnapshot.SnapshotDate snap')) (agency_snapshots db) = None ->
        let run3 := InsertSnapshotIfChanged now2 snap' links' db1 in
        run3.1.1.1 = true
        /\ agency_snapshots run3.2
           = agency_snapshots db1
             ++ [AgencySnapshot.Make (agency_snapshots_id_seq db1 + 1)
                                     (AgencySnapshot.AgencyID snap)
                                     (AgencySnapshot.AgencyName snap')
                                     (AgencySnapshot.TotalWordCount snap')
                                     (AgencySnapshot.RegulationCount snap')
                                     (AgencySnapshot.Checksum snap')
                                     (AgencySnapshot.SnapshotDate snap') now2])).
Proof.
  split.
  - intros t t'. apply SaveTitleWithSnapshot_idempotent.
  - intros snap snap' links links'. apply InsertSnapshotIfChanged_idempotent.
Qed.

Lemma snapshot_gate_idempotent_witness :
  let db1 := (SaveTitleWithSnapshot 1 (document_A "X") day_2024_01_01 one_agency_db).2 in
  let ag1 :=
    (InsertSnapshotIfChanged 1 (agency_aggregate "1:200;" day_2024_01_01) [1]
                             one_agency_db).2 in
  title_snapshots (SaveTitleWithSnapshot 2 (document_A "X") day_2024_01_01 db1).2
  = title_snapshots db1
  /\ length (title_snapshots (SaveTitleWithSnapshot 2 (document_A "Y") day_2024_01_01 db1).2)
     = length (title_snapshots db1)
  /\ (SaveTitleWithSnapshot 2 (document_A "Y") day_2024_04_01 db1).1.1.1 = true
  /\ InsertSnapshotIfChanged 2 (agency_aggregate "1:200;" day_2024_01_01) [1] ag1
     = (false, None, agency_aggregate "1:200;" day_2024_01_01, ag1)
  /\ length (agency_snapshots
               (InsertSnapshotIfChanged 2 (agency_aggregate "1:300;" day_2024_01_01) [1]
                                        ag1).2)
     = length (agency_snapshots ag1)
  /\ (InsertSnapshotIfChanged 2 (agency_aggregate "1:300;" day_2024_04_01) [1] ag1).1.1.1
     = true.
Proof.
  intros db1 ag1.
  destruct (snapshot_gate_idempotent one_agency_db 1 2 day_2024_01_01) as [HT HA].
  destruct (HT (document_A "X") (document_A "X") eq_refl) as (_ & Hsame & _ & _).
  destruct (HT (document_A "X") (document_A "Y") eq_refl) as (_ & _ & Hdiff & Hdate).
  destruct (Hsame eq_refl) as (_ & H1 & _).
  destruct Hdiff as (_ & H2 & _); [vm_compute; discriminate|].
  destruct (Hdate day_2024_04_01) as (H3 & _); [discriminate | reflexivity |].
  destruct (HA (agency_aggregate "1:200;" day_2024_01_01)
               (agency_aggregate "1:200;" day_2024_01_01) [1] [1]
               eq_refl eq_refl eq_refl) as (_ & Hasame & _ & _).
  destruct (HA (agency_aggregate "1:200;" day_2024_01_01)
               (agency_aggregate "1:300;" day_2024_01_01) [1] [1]
               eq_refl eq_refl eq_refl) as (_ & _ & Hadiff & _).
  destruct (HA (agency_aggregate "1:200;" day_2024_01_01)
               (agency_aggregate "1:300;" day_2024_04_01) [1] [1]
               eq_refl eq_refl eq_refl) as (_ & _ & _ & Hadate).
  destruct Hadiff as (_ & H5 & _); [reflexivity | vm_compute; discriminate |].
  destruct Hadate as (H6 & _); [discriminate | reflexivity |].
  split; [exact H1|]. split; [exact H2|]. split; [exact H3|].
  split; [exact (Hasame eq_refl eq_refl)|]. split; [exact H5 | exact H6].
Defined.

(** The import scenario on an empty store: document A with content "X"
    on 2024-01-01, the same again, then content "Y" on the same date,
    then content "Y" on 2024-04-01.  The numbers of current rows and of
    snapshot rows after each step, and the checksums of the snapshots at
    the end. *)
Example import_scenario :
  let step now content date db := (SaveTitleWithSnapshot now (document_A content) date db).2 in
  let db1 := step 1 "X"%string day_2024_01_01 empty_db in
  let db2 := step 2 "X"%string day_2024_01_01 db1 in
  let db3 := step 3 "Y"%string day_2024_01_01 db2 in
  let db4 := step 4 "Y"%string day_2024_04_01 db3 in
  map (fun db => (length (titles db), length (title_snapshots db))) [db1; db2; db3; db4]
  = [(1, 1); (1, 1); (1, 1); (1, 2)]%nat
  /\ title_snapshots db2 = title_snapshots db1
  /\ map (fun r => (TitleSnapshot.ID r, TitleSnapshot.SnapshotDate r, TitleSnapshot.Checksum r))
         (title_snapshots db4)
     = [(1, day_2024_01_01, md5hex (bytes_of_string "Y"));
        (3, day_2024_04_01, md5hex (bytes_of_string "Y"))].
Proof. repeat split; vm_compute; reflexivity. Qed.

End SnapshotGate.

(** ** Density score *)

Lemma insertSorted_perm {A : Type} (less : A -> A -> bool) x l :
  Store.insertSorted less x l ≡ₚ x :: l.
Proof.
  induction l as [|y l IH]; cbn; [reflexivity|].
  destruct (less y x); [|reflexivity].
  rewrite IH. apply Permutation_swap.
Qed.

Lemma insertionSort_perm {A : Type} (less : A -> A -> bool) l :
  Store.insertionSort less l ≡ₚ l.
Proof.
  unfold Store.insertionSort.
  assert (H : forall acc, fold_left (fun acc x => Store.insertSorted less x acc) l acc ≡ₚ l ++ acc).
  { induction l as [|x l IH]; intros acc; cbn; [reflexivity|].
    rewrite IH, insertSorted_perm. symmetry. apply Permutation_middle. }
  rewrite H, app_nil_r. reflexivity.
Qed.

Section DensityProperties.
Import Store.
Variable sortSlice :
  (densityInfo -> densityInfo -> bool) -> list densityInfo -> list densityInfo.
Hypothesis sortSlice_perm : forall less l, sortSlice less l ≡ₚ l.

Lemma omap_imap_none {A B : Type} (f : nat -> A -> option B) (l : list A) :
  (forall i a, l !! i = Some a -> f i a = None) -> omap id (imap f l) = [].
Proof using Type.
  intros Hnone. apply elem_of_nil_inv. intros y Hy.
  apply list_elem_of_omap in Hy as (x & Hx & Hid).
  apply elem_of_lookup_imap in Hx as (i & a & -> & Hl).
  rewrite (Hnone i a Hl) in Hid. discriminate.
Qed.

Lemma densityEntry_none i a : TitleCount a <= 0 -> densityEntry i a = None.
Proof using Type.
  intros Ha. unfold densityEntry. destruct (Z.ltb_spec 0 (TitleCount a)); [lia | reflexivity].
Qed.

Lemma collectDensities_none (l : list AgencyWithDepth) :
  Forall (fun a => TitleCount a <= 0) l -> collectDensities l = [].
Proof using Type.
  intros Hl. apply omap_imap_none. intros i a Hi.
  apply densityEntry_none. eapply Forall_lookup_1 in Hl; eauto.
Qed.

Lemma collectDensities_single (before after : list AgencyWithDepth) a :
  Forall (fun a => TitleCount a <= 0) before ->
  0 < TitleCount a ->
  Forall (fun a => TitleCount a <= 0) after ->
  collectDensities (before ++ a :: after)
  = [ {| index := length before;
         density := PrimFloat.div (GoInt.float64 (Agency.TotalWordCount (Agency a)))
                                  (GoInt.float64 (TitleCount a)) |} ].
Proof using Type.
  intros Hb Ha Hafter. unfold collectDensities.
  rewrite imap_app, omap_app.
  pose proof (collectDensities_none before Hb) as Hnone.
  unfold collectDensities in Hnone. rewrite Hnone. cbn [app].
  rewrite imap_cons. unfold densityEntry at 1. apply Z.ltb_lt in Ha.
  rewrite Nat.add_0_r, Ha. cbn [omap list_omap id]. f_equal.
  apply omap_imap_none. intros i x Hi. apply densityEntry_none.
  eapply Forall_lookup_1 in Hafter; eauto.
Qed.

(** An entry of the population is an agency with titles. *)
Lemma collectDensities_index (l : list AgencyWithDepth) d :
  d ∈ collectDensities l ->
  exists a, l !! index d = Some a /\ 0 < TitleCount a.
Proof using Type.
  intros Hd. apply list_elem_of_omap in Hd as (x & Hx & Hid).
  apply elem_of_lookup_imap in Hx as (i & a & -> & Hl).
  unfold densityEntry in Hid. destruct (Z.ltb_spec 0 (TitleCount a)); [|discriminate].
  injection Hid as <-. cbn. eauto.
Qed.

(** The last loop writes only at the positions of its entries. *)
Lemma assignScore_lookup_ne n (entries : list (nat * densityInfo)) :
  forall (agencies : list AgencyWithDepth) j,
    (forall e, e ∈ entries -> index e.2 <> j) ->
    fold_left (assignScore n) entries agencies !! j = agencies !! j.
Proof using Type.
  induction entries as [|[rank d] entries IH]; intros agencies j Hj; [reflexivity|].
  cbn [fold_left]. rewrite IH.
  - assert (Hd : index d <> j) by (apply (Hj (rank, d)); left).
    unfold assignScore. destruct (n =? 1)%nat;
      rewrite ?list_lookup_alter_ne by exact Hd; reflexivity.
  - intros e He. apply Hj. right. exact He.
Qed.

(** With exactly one agency that has titles, that agency gets the score
    0.5 and nothing else is written. *)
Lemma calculateDensityScores_single (before after : list AgencyWithDepth) a :
  Forall (fun a => TitleCount a <= 0) before ->
  0 < TitleCount a ->
  Forall (fun a => TitleCount a <= 0) after ->
  calculateDensityScores sortSlice (before ++ a :: after)
  = before ++ setDensityScore 0.5%float a :: after.
Proof using sortSlice_perm.
  intros Hb Ha Hafter. unfold calculateDensityScores.
  rewrite (collectDensities_single before after a Hb Ha Hafter).
  pose proof (sortSlice_perm densityLess
                [ {| index := length before;
                     density := PrimFloat.div
                                  (GoInt.float64 (Agency.TotalWordCount (Agency a)))
                                  (GoInt.float64 (TitleCount a)) |} ]) as Hperm.
  apply Permutation_singleton_r in Hperm. rewrite Hperm.
  cbn [length imap fold_left assignScore index Nat.eqb].
  rewrite <- (Nat.add_0_r (length before)).
  rewrite !alter_app_r. reflexivity.
Qed.

(** Without any agency that has titles nothing is written. *)
Lemma calculateDensityScores_none (agencies : list AgencyWithDepth) :
  Forall (fun a => TitleCount a <= 0) agencies ->
  calculateDensityScores sortSlice agencies = agencies.
Proof using Type.
  intros Hall. unfold calculateDensityScores.
  rewrite (collectDensities_none agencies Hall). reflexivity.
Qed.

(** An agency without titles is not in the population, and its score is
    not written. *)
Lemma calculateDensityScores_excluded (agencies : list AgencyWithDepth) j b :
  agencies !! j = Some b ->
  TitleCount b <= 0 ->
  (j ∉ map index (collectDensities agencies))
  /\ calculateDensityScores sortSlice agencies !! j = Some b.
Proof using sortSlice_perm.
  intros Hj Hb.
  assert (Hout : forall d, d ∈ collectDensities agencies -> index d <> j).
  { intros d Hd Heq. apply collectDensities_index in Hd as (a & Ha & Hpos).
    rewrite Heq, Hj in Ha. injection Ha as <-. lia. }
  split.
  - intros Hin. apply list_elem_of_fmap in Hin as (d & -> & Hd).
    exact (Hout d Hd eq_refl).
  - unfold calculateDensityScores.
    destruct (collectDensities agencies) as [|d0 ds] eqn:Hcoll; [exact Hj|].
    rewrite assignScore_lookup_ne; [exact Hj|].
    intros e He. apply elem_of_lookup_imap in He as (i & d & -> & Hd).
    apply list_elem_of_lookup_2 in Hd. rewrite sortSlice_perm in Hd.
    apply Hout. exact Hd.
Qed.

Lemma filter_andb {A : Type} (p q : A -> bool) (l : list A) :
  List.filter (fun x => p x && q x) l = List.filter q (List.filter p l).
Proof using Type.
  induction l as [|x l IH]; [reflexivity|]. cbn.
  destruct (p x); cbn; [destruct (q x)|]; rewrite IH; reflexivity.
Qed.

(** The score of an agency depends on the table only through the rows
    that have regulations. *)
Lemma GetDensityScoreForAgency_population agency db db' :
  List.filter (fun r => 0 <? Agency.RegulationCount r) (agencies db')
  = List.filter (fun r => 0 <? Agency.RegulationCount r) (agencies db) ->
  GetDensityScoreForAgency agency db' = GetDensityScoreForAgency agency db.
Proof using Type.
  intros Hpop. unfold GetDensityScoreForAgency.
  rewrite !(filter_andb (fun r => 0 <? Agency.RegulationCount r)), Hpop. reflexivity.
Qed.

Lemma GetDensityScoreForAgency_single agency db :
  Agency.RegulationCount agency <> 0 ->
  (length (List.filter (fun r => (0 <? Agency.RegulationCount r)%Z) (agencies db)) <= 1)%nat ->
  GetDensityScoreForAgency agency db = (0.5%float, None).
Proof using Type.
  intros Hrc Hone. unfold GetDensityScoreForAgency.
  destruct (Z.eqb_spec (Agency.RegulationCount agency) 0); [contradiction|].
  destruct (Z.leb_spec
              (Z.of_nat (length (List.filter (fun r => 0 <? Agency.RegulationCount r)
                                             (agencies db)))) 1); [reflexivity | lia].
Qed.

(** C8, as stated, fails for [GetDensityScoreForAgency]: in a table
    where no agency has regulations, an agency without regulations is
    given the score zero, with no error. *)
Lemma GetDensityScoreForAgency_scores_zero :
  List.filter (fun r => 0 <? Agency.RegulationCount r)
              (agencies (db_of_agencies [agency_without_titles])) = []
  /\ GetDensityScoreForAgency agency_without_titles (db_of_agencies [agency_without_titles])
     = (0%float, None).
Proof using Type. split; reflexivity. Qed.

(** C8, amended.  With exactly one entity that has structural units,
    that entity gets the score 0.5, from [calculateDensityScores] and from
    [GetDensityScoreForAgency]; with none, [calculateDensityScores] writes
    no score at all, and [GetDensityScoreForAgency] returns the score 0
    and no error for an entity without units; and an entity without units
    is not in the percentile population: [calculateDensityScores] neither
    collects it nor writes its score, and [GetDensityScoreForAgency]
    counts only the rows that have units. *)
Theorem density_score_edge_cases :
  (forall (before after : list AgencyWithDepth) a,
      Forall (fun a => TitleCount a <= 0) before ->
      0 < TitleCount a ->
      Forall (fun a => TitleCount a <= 0) after ->
      calculateDensityScores sortSlice (before ++ a :: after)
      = before ++ setDensityScore 0.5%float a :: after)
  /\ (forall agency db,
        Agency.RegulationCount agency <> 0 ->
        (length (List.filter (fun r => (0 <? Agency.RegulationCount r)%Z) (agencies db))
         <= 1)%nat ->
        GetDensityScoreForAgency agency db = (0.5%float, None))
  /\ (forall agencies : list AgencyWithDepth,
        Forall (fun a => TitleCount a <= 0) agencies ->
        calculateDensityScores sortSlice agencies = agencies)
  /\ (forall agency db,
        Agency.RegulationCount agency = 0 ->
        GetDensityScoreForAgency agency db = (0%float, None))
  /\ (forall (agencies : list AgencyWithDepth) j b,
        agencies !! j = Some b ->
        TitleCount b <= 0 ->
        (j ∉ map index (collectDensities agencies))
        /\ calculateDensityScores sortSlice agencies !! j = Some b)
  /\ (forall agency db db',
        List.filter (fun r => 0 <? Agency.RegulationCount r) (agencies db')
        = List.filter (fun r => 0 <? Agency.RegulationCount r) (agencies db) ->
        GetDensityScoreForAgency agency db' = GetDensityScoreForAgency agency db).
Proof using sortSlice_perm.
  split; [exact calculateDensityScores_single|].
  split; [exact GetDensityScoreForAgency_single|].
  split; [exact calculateDensityScores_none|].
  split.
  - intros agency db Hrc. unfold GetDensityScoreForAgency. rewrite Hrc. reflexivity.
  - split; [exact calculateDensityScores_excluded|].
    exact GetDensityScoreForAgency_population.
Qed.

End DensityProperties.

Lemma density_score_edge_cases_witness :
  Store.calculateDensityScores Store.insertionSort
    [Store.withDepth Store.agency_without_titles 0; Store.withDepth Store.agency_with_titles 4]
  = [Store.withDepth Store.agency_without_titles 0;
     Store.setDensityScore 0.5%float (Store.withDepth Store.agency_with_titles 4)]
  /\ Store.GetDensityScoreForAgency Store.agency_with_titles
       (Store.db_of_agencies [Store.agency_without_titles; Store.agency_with_titles])
     = (0.5%float, None)
  /\ Store.calculateDensityScores Store.insertionSort
       [Store.withDepth Store.agency_without_titles 0]
     = [Store.withDepth Store.agency_without_titles 0]
  /\ Store.GetDensityScoreForAgency Store.agency_without_titles
       (Store.db_of_agencies [Store.agency_without_titles; Store.agency_with_titles])
     = (0%float, None).
Proof.
  destruct (density_score_edge_cases Store.insertionSort
              (fun less l => insertionSort_perm less l))
    as (H1 & H2 & H3 & H4 & _).
  split; [|split; [|split]].
  - apply (H1 [Store.withDepth Store.agency_without_titles 0] []
              (Store.withDepth Store.agency_with_titles 4)).
    + repeat constructor. cbn. lia.
    + cbn. lia.
    + constructor.
  - apply H2; [discriminate | cbn; lia].
  - apply H3. repeat constructor. cbn. lia.
  - apply H4. reflexivity.
Defined.

(** ** Agency roll-up *)

Lemma sumZ_perm (l1 l2 : list Z) : l1 ≡ₚ l2 -> Importer.sumZ l1 = Importer.sumZ l2.
Proof.
  unfold Importer.sumZ.
  induction 1 as [|x l1 l2 _ IH|x y l|l1 l2 l3 _ IH1 _ IH2]; cbn; lia.
Qed.

Section RollupProperties.
Import Store Importer.

Lemma GetTitleWordCount_ok titleNum db :
  GetTitleWordCount titleNum db = (wordCountOf db titleNum, None).
Proof.
  unfold wordCountOf, GetTitleWordCount.
  destruct (List.find _ _); reflexivity.
Qed.

(** The sum of the loop over [titleNums]. *)
Lemma fold_sumTitle_total db (titleNums : list Z) : forall total input,
  GoInt.wrap64 total = total ->
  fst (fold_left (sumTitle db) titleNums (total, input))
  = GoInt.wrap64 (total + sumZ (map (wordCountOf db) titleNums)).
Proof.
  induction titleNums as [|t l IH]; intros total input Htotal; cbn [fold_left map sumZ fold_right].
  - rewrite Z.add_0_r. symmetry. exact Htotal.
  - unfold sumTitle at 2. rewrite GetTitleWordCount_ok. cbn [fst snd].
    rewrite IH by apply wrap64_idemp.
    rewrite wrap64_add_l. f_equal. fold (sumZ (map (wordCountOf db) l)). lia.
Qed.

(** The loop reads the store only through the word counts of the titles
    it visits. *)
Lemma fold_sumTitle_ext db1 db2 (titleNums : list Z) : forall acc,
  (forall t, t ∈ titleNums -> GetTitleWordCount t db1 = GetTitleWordCount t db2) ->
  fold_left (sumTitle db1) titleNums acc = fold_left (sumTitle db2) titleNums acc.
Proof.
  induction titleNums as [|t l IH]; intros acc Hwc; [reflexivity|].
  cbn [fold_left]. unfold sumTitle at 2 4. rewrite (Hwc t) by left.
  apply IH. intros t' Ht'. apply Hwc. right. exact Ht'.
Qed.

Lemma fold_insert_titles (l : list Z) : forall acc : gset Z,
  fold_left (fun acc t => {[ t ]} ∪ acc) l acc = list_to_set l ∪ acc.
Proof.
  induction l as [|t l IH]; intros acc; cbn [fold_left].
  - rewrite list_to_set_nil, (left_id_L ∅ (∪)). reflexivity.
  - rewrite IH, list_to_set_cons.
    rewrite (comm_L (∪) {[ t ]} (list_to_set l)), <- (assoc_L (∪)). reflexivity.
Qed.

(** Sorting gives the same list whatever the order of the range. *)
Lemma merge_sort_range (titleSet : gset Z) (l : list Z) :
  l ≡ₚ elements titleSet ->
  merge_sort Z.le l = merge_sort Z.le (elements titleSet).
Proof.
  intros Hperm. apply (Sorted_unique Z.le).
  - apply (Sorted_merge_sort Z.le).
  - apply (Sorted_merge_sort Z.le).
  - rewrite !merge_sort_Permutation. exact Hperm.
Qed.

Lemma preserved_refl db : preserved db db.
Proof. repeat split. Qed.

Lemma preserved_trans db1 db2 db3 :
  preserved db1 db2 -> preserved db2 db3 -> preserved db1 db3.
Proof. intros (H1 & H2 & H3) (H4 & H5 & H6). repeat split; congruence. Qed.

Lemma UpdateWordCount_preserved now agencyID wordCount regulationCount checksum db :
  preserved db (UpdateWordCount now agencyID wordCount regulationCount checksum db).2.
Proof.
  repeat split. cbn. rewrite map_map. apply map_ext. intros r.
  destruct (Agency.ID r =? agencyID); reflexivity.
Qed.

Lemma InsertSnapshotIfChanged_preserved now snap titleNumbers db :
  preserved db (InsertSnapshotIfChanged now snap titleNumbers db).2.
Proof.
  unfold InsertSnapshotIfChanged.
  destruct (option_map _ _) as [c|]; [destruct (String.eqb _ _)|];
    try destruct (negb _); repeat split.
Qed.

Lemma GetTitleWordCount_titles t db1 db2 :
  titles db1 = titles db2 -> GetTitleWordCount t db1 = GetTitleWordCount t db2.
Proof. intros H. unfold GetTitleWordCount. rewrite H. reflexivity. Qed.

Lemma GetAgencyTitles_links agencyID db1 db2 :
  agency_titles db1 = agency_titles db2 ->
  GetAgencyTitles agencyID db1 = GetAgencyTitles agencyID db2.
Proof. intros H. unfold GetAgencyTitles. rewrite H. reflexivity. Qed.

(** The rows that [UpdateWordCount] leaves for an agency. *)
Lemma UpdateWordCount_row now agencyID wordCount regulationCount checksum db r :
  In r (agencies (UpdateWordCount now agencyID wordCount regulationCount checksum db).2) ->
  Agency.ID r = agencyID ->
  Agency.TotalWordCount r = wordCount
  /\ Agency.RegulationCount r = regulationCount
  /\ Agency.Checksum r = checksum.
Proof.
  cbn. intros Hin Hid. apply in_map_iff in Hin as (x & Hx & _).
  destruct (Z.eqb_spec (Agency.ID x) agencyID) as [Heq|Hne].
  - subst r. cbn. auto.
  - subst r. contradiction.
Qed.

Section Run.
Variable rangeOrder : range_site -> gset Z -> list Z.
Variable clock : clock_site -> Z.
Hypothesis rangeOrder_perm : forall site titleSet, rangeOrder site titleSet ≡ₚ elements titleSet.
Variables (agencyMap : gmap Z Agency.t) (childrenMap : gmap Z (list Z)) (snapshotDate : Z).

Local Abbreviation run := (fun fuel agencyID db =>
  calculateAgencyWordCount rangeOrder clock fuel agencyID agencyMap childrenMap
                           snapshotDate db).

(** One unfolding of the recursion. *)
Lemma calculateAgencyWordCount_step fuel agencyID db :
  run (S fuel) agencyID db
  = match forChildren rangeOrder (run fuel) agencyID (childrenOf childrenMap agencyID)
                      (fold_left (fun acc t => {[ t ]} ∪ acc)
                                 (GetAgencyTitles agencyID db).1 ∅) db with
    | (Returned titleSet, db1) =>
        let titleNums := merge_sort Z.le (rangeOrder (RangeTitleSet agencyID) titleSet) in
        let sums := fold_left (sumTitle db1) titleNums (0, EmptyString) in
        let checksum := md5hex (bytes_of_string (snd sums)) in
        let regulationCount := Z.of_nat (size titleSet) in
        let db2 :=
          (UpdateWordCount (clock (AtUpdateWordCount agencyID)) agencyID
                           (fst sums) regulationCount checksum db1).2 in
        match agencyMap !! agencyID with
        | None => (Panicked, db2)
        | Some agency =>
            (Returned titleSet,
             (InsertSnapshotIfChanged
                (clock (AtInsertSnapshot agencyID))
                (AgencySnapshot.Make 0 agencyID (Agency.AgencyName agency) (fst sums)
                                     regulationCount checksum snapshotDate 0)
                titleNums db2).2)
        end
    | (Errored err, db1) => (Errored err, db1)
    | (Panicked, db1) => (Panicked, db1)
    | (OutOfFuel, db1) => (OutOfFuel, db1)
    end.
Proof using Type.
  cbn [calculateAgencyWordCount GetAgencyTitles fst]. unfold childrenOf.
  destruct (forChildren _ _ _ _ _ _) as [[titleSet|err| |] db1]; try reflexivity.
  cbv zeta.
  destruct (fold_left (sumTitle db1) _ _) as [total input].
  cbn [fst snd UpdateWordCount].
  destruct (agencyMap !! agencyID) as [agency|]; [|reflexivity].
  destruct (InsertSnapshotIfChanged _ _ _ _) as [[[changed err] snap] db3]. reflexivity.
Qed.

(** The loop over the children preserves what each call preserves. *)
Lemma forChildren_preserved recur agencyID (children : list Z) :
  (forall childID db, preserved db (recur childID db).2) ->
  forall titleSet db,
    preserved db (forChildren rangeOrder recur agencyID children titleSet db).2.
Proof using Type.
  intros Hrecur. induction children as [|childID rest IH]; intros titleSet db.
  - apply preserved_refl.
  - cbn [forChildren]. pose proof (Hrecur childID db) as Hch.
    destruct (recur childID db) as [[childTitles|err| |] db1]; cbn [snd] in Hch |- *;
      try exact Hch.
    eapply preserved_trans; [exact Hch | apply IH].
Qed.

Lemma calculateAgencyWordCount_preserved fuel : forall agencyID db,
  preserved db (run fuel agencyID db).2.
Proof using Type.
  induction fuel as [|fuel IH]; intros agencyID db; [apply preserved_refl|].
  rewrite calculateAgencyWordCount_step.
  pose proof (forChildren_preserved (run fuel) agencyID (childrenOf childrenMap agencyID) IH
                (fold_left (fun acc t => {[ t ]} ∪ acc) (GetAgencyTitles agencyID db).1 ∅) db)
    as Hfc.
  destruct (forChildren _ _ _ _ _ _) as [[titleSet|err| |] db1]; cbn [snd] in Hfc |- *;
    try exact Hfc.
  cbv zeta.
  destruct (agencyMap !! agencyID) as [agency|]; cbn [snd].
  - eapply preserved_trans; [exact Hfc|].
    eapply preserved_trans; [apply UpdateWordCount_preserved|].
    apply InsertSnapshotIfChanged_preserved.
  - eapply preserved_trans; [exact Hfc | apply UpdateWordCount_preserved].
Qed.

(** The outcome of the loop over the children depends on the store only
    through the links. *)
Lemma forChildren_links recur agencyID (children : list Z) :
  (forall childID db, preserved db (recur childID db).2) ->
  (forall childID db1 db2,
      In childID children ->
      agency_titles db1 = agency_titles db2 ->
      (recur childID db1).1 = (recur childID db2).1) ->
  forall titleSet db1 db2,
    agency_titles db1 = agency_titles db2 ->
    (forChildren rangeOrder recur agencyID children titleSet db1).1
    = (forChildren rangeOrder recur agencyID children titleSet db2).1.
Proof using Type.
  intros Hpres. induction children as [|childID rest IH];
    intros Hlinks titleSet db1 db2 Heq; [reflexivity|].
  cbn [forChildren].
  pose proof (Hlinks childID db1 db2 (or_introl eq_refl) Heq) as Hfst.
  pose proof (Hpres childID db1) as (_ & H1 & _).
  pose proof (Hpres childID db2) as (_ & H2 & _).
  destruct (recur childID db1) as [o1 db1'], (recur childID db2) as [o2 db2'].
  cbn [fst snd] in *. subst o2.
  destruct o1 as [childTitles|err| |]; try reflexivity.
  apply IH; [|congruence].
  intros c d1 d2 Hc. apply Hlinks. right. exact Hc.
Qed.

Lemma calculateAgencyWordCount_links fuel : forall agencyID db1 db2,
  agency_titles db1 = agency_titles db2 ->
  (run fuel agencyID db1).1 = (run fuel agencyID db2).1.
Proof using Type.
  induction fuel as [|fuel IH]; intros agencyID db1 db2 Heq; [reflexivity|].
  rewrite !calculateAgencyWordCount_step.
  rewrite (GetAgencyTitles_links agencyID db1 db2 Heq).
  pose proof (forChildren_links (run fuel) agencyID (childrenOf childrenMap agencyID)
                (calculateAgencyWordCount_preserved fuel)
                (fun c d1 d2 _ => IH c d1 d2)
                (fold_left (fun acc t => {[ t ]} ∪ acc) (GetAgencyTitles agencyID db2).1 ∅)
                db1 db2 Heq) as Hfc.
  destruct (forChildren _ _ _ _ _ db1) as [o1 d1], (forChildren _ _ _ _ _ db2) as [o2 d2].
  cbn [fst] in Hfc. subst o2.
  destruct o1 as [titleSet|err| |]; try reflexivity.
  cbv zeta. destruct (agencyMap !! agencyID); reflexivity.
Qed.

(** The set that the loop over the children returns: the set it starts
    from, joined with the set of every child. *)
Lemma forChildren_union recur agencyID (children : list Z) :
  (forall childID db, preserved db (recur childID db).2) ->
  (forall childID db1 db2,
      agency_titles db1 = agency_titles db2 ->
      (recur childID db1).1 = (recur childID db2).1) ->
  forall titleSet0 db titleSet db',
    forChildren rangeOrder recur agencyID children titleSet0 db = (Returned titleSet, db') ->
    Forall (fun childID => exists childTitles, (recur childID db).1 = Returned childTitles)
           children
    /\ titleSet = titleSet0 ∪ ⋃ (map (fun childID => titleSetOf (recur childID db)) children).
Proof using rangeOrder_perm.
  intros Hpres Hlinks. induction children as [|childID rest IH];
    intros titleSet0 db titleSet db' Hfc.
  - cbn in Hfc. injection Hfc as <- <-. split; [constructor|]. cbn.
    rewrite (right_id_L ∅ (∪)). reflexivity.
  - cbn [forChildren] in Hfc.
    pose proof (Hpres childID db) as (_ & Hl & _).
    destruct (recur childID db) as [[childTitles|err| |] db1] eqn:Hch; try discriminate.
    cbn [snd] in Hl.
    apply IH in Hfc as [Hall Hset].
    assert (Hsame : forall c, (recur c db1).1 = (recur c db).1).
    { intros c. apply Hlinks. exact Hl. }
    split.
    + constructor.
      * exists childTitles. rewrite Hch. reflexivity.
      * eapply Forall_impl; [exact Hall|]. cbn. intros c [T HT].
        exists T. rewrite <- Hsame. exact HT.
    + rewrite Hset, fold_insert_titles. cbn [map union_list foldr].
      replace (map (fun c => titleSetOf (recur c db1)) rest)
        with (map (fun c => titleSetOf (recur c db)) rest).
      2:{ apply map_ext. intros c. unfold titleSetOf. rewrite Hsame. reflexivity. }
      unfold titleSetOf at 2. rewrite Hch. cbn [fst].
      assert (Hrange : list_to_set (rangeOrder (RangeChildTitles agencyID childID) childTitles)
                       = childTitles).
      { rewrite (list_to_set_perm_L _ _ (rangeOrder_perm _ _)).
        apply list_to_set_elements_L. }
      rewrite Hrange, (assoc_L (∪)), (comm_L (∪) titleSet0 childTitles). reflexivity.
Qed.

Lemma forChildren_returns recur agencyID (children : list Z) :
  (forall childID, In childID children ->
     forall db, exists childTitles db', recur childID db = (Returned childTitles, db')) ->
  forall titleSet0 db,
    exists titleSet db',
      forChildren rangeOrder recur agencyID children titleSet0 db = (Returned titleSet, db').
Proof using Type.
  induction children as [|childID rest IH]; intros Hrecur titleSet0 db.
  - exists titleSet0, db. reflexivity.
  - cbn [forChildren].
    destruct (Hrecur childID (or_introl eq_refl) db) as (childTitles & db1 & ->).
    apply IH. intros c Hc. apply Hrecur. right. exact Hc.
Qed.

(** In a forest whose nodes are all in [agencyMap], the recursion ends:
    a call with more fuel than the node is deep returns a title set. *)
Lemma calculateAgencyWordCount_returns (depth : Z -> nat) :
  (forall p c, In c (childrenOf childrenMap p) -> (depth c < depth p)%nat) ->
  (forall p c, is_Some (agencyMap !! p) -> In c (childrenOf childrenMap p) ->
               is_Some (agencyMap !! c)) ->
  forall fuel agencyID db,
    (depth agencyID < fuel)%nat ->
    is_Some (agencyMap !! agencyID) ->
    exists titleSet db', run fuel agencyID db = (Returned titleSet, db').
Proof using Type.
  intros Hforest Hclosed. induction fuel as [|fuel IH]; intros agencyID db Hfuel Hmap; [lia|].
  rewrite calculateAgencyWordCount_step.
  destruct (forChildren_returns (run fuel) agencyID (childrenOf childrenMap agencyID))
    with (titleSet0 := fold_left (fun acc t => {[ t ]} ∪ acc)
                                 (GetAgencyTitles agencyID db).1 (∅ : gset Z)) (db := db)
    as (titleSet & db1 & ->).
  { intros c Hc db0. apply IH.
    - specialize (Hforest agencyID c Hc). lia.
    - eapply Hclosed; eassumption. }
  cbv zeta. destruct Hmap as [agency ->]. eauto.
Qed.

Lemma forChildren_ext recur1 recur2 agencyID (children : list Z) :
  (forall childID, In childID children -> forall db, recur1 childID db = recur2 childID db) ->
  forall titleSet db,
    forChildren rangeOrder recur1 agencyID children titleSet db
    = forChildren rangeOrder recur2 agencyID children titleSet db.
Proof using Type.
  induction children as [|childID rest IH]; intros Hext titleSet db; [reflexivity|].
  cbn [forChildren]. rewrite (Hext childID (or_introl eq_refl) db).
  destruct (recur2 childID db) as [[childTitles|err| |] db1]; try reflexivity.
  apply IH. intros c Hc. apply Hext. right. exact Hc.
Qed.

(** The fuel is immaterial once it exceeds the depth of the node. *)
Lemma calculateAgencyWordCount_fuel (depth : Z -> nat) :
  (forall p c, In c (childrenOf childrenMap p) -> (depth c < depth p)%nat) ->
  forall fuel1 fuel2 agencyID db,
    (depth agencyID < fuel1)%nat ->
    (depth agencyID < fuel2)%nat ->
    run fuel1 agencyID db = run fuel2 agencyID db.
Proof using Type.
  intros Hforest. induction fuel1 as [|fuel1 IH]; intros fuel2 agencyID db H1 H2; [lia|].
  destruct fuel2 as [|fuel2]; [lia|].
  rewrite !calculateAgencyWordCount_step.
  rewrite (forChildren_ext (run fuel1) (run fuel2)); [reflexivity|].
  intros c Hc db0. specialize (Hforest agencyID c Hc). apply IH; lia.
Qed.

(** The row of the agency after a call that returned: the aggregate of
    the title set that was returned. *)
Lemma calculateAgencyWordCount_row fuel agencyID db titleSet db' :
  run fuel agencyID db = (Returned titleSet, db') ->
  forall r,
    In r (agencies db') ->
    Agency.ID r = agencyID ->
    Agency.TotalWordCount r = fst (aggregate db titleSet)
    /\ Agency.RegulationCount r = Z.of_nat (size titleSet)
    /\ Agency.Checksum r = md5hex (bytes_of_string (snd (aggregate db titleSet))).
Proof using rangeOrder_perm.
  destruct fuel as [|fuel]; [discriminate|].
  rewrite calculateAgencyWordCount_step.
  pose proof (forChildren_preserved (run fuel) agencyID (childrenOf childrenMap agencyID)
                (calculateAgencyWordCount_preserved fuel)
                (fold_left (fun acc t => {[ t ]} ∪ acc) (GetAgencyTitles agencyID db).1 ∅) db)
    as (Htitles & _ & _).
  destruct (forChildren _ _ _ _ _ _) as [[T|err| |] db1]; try discriminate.
  cbv zeta. cbn [snd] in Htitles.
  destruct (agencyMap !! agencyID) as [agency|]; [|discriminate].
  intros [= <- <-] r Hin Hid.
  rewrite InsertSnapshotIfChanged_agencies in Hin.
  apply UpdateWordCount_row in Hin; [|exact Hid].
  unfold aggregate.
  rewrite <- (merge_sort_range T _ (rangeOrder_perm (RangeTitleSet agencyID) T)).
  rewrite <- (fold_sumTitle_ext db1 db).
  - exact Hin.
  - intros t _. apply GetTitleWordCount_titles. exact Htitles.
Qed.

End Run.

(** The total of an aggregate: every member of the set once. *)
Lemma aggregate_total db (titleSet : gset Z) :
  fst (aggregate db titleSet)
  = GoInt.wrap64 (sumZ (map (wordCountOf db) (elements titleSet))).
Proof.
  unfold aggregate. rewrite fold_sumTitle_total by reflexivity.
  rewrite Z.add_0_l. f_equal. apply sumZ_perm.
  apply Permutation_map, merge_sort_Permutation.
Qed.

(** An aggregate reads the store only through the word counts of the
    members of the set. *)
Lemma aggregate_ext db1 db2 (titleSet : gset Z) :
  (forall t, t ∈ titleSet -> GetTitleWordCount t db1 = GetTitleWordCount t db2) ->
  aggregate db1 titleSet = aggregate db2 titleSet.
Proof.
  intros Hwc. unfold aggregate. apply fold_sumTitle_ext.
  intros t Ht. apply Hwc. rewrite merge_sort_Permutation in Ht.
  apply elem_of_elements. exact Ht.
Qed.

(** C1.  In a forest of agencies the call for a node returns, with a
    result that does not depend on the fuel, and the title set it returns
    is the union of the titles linked to the node itself and of the sets
    returned for its children.  The row of the
    node then holds the cardinality of that set as its regulation count
    and, as its total word count, the sum of the word counts of the
    members of the set, each taken once: a title that two children share
    counts once. *)
Theorem rollup_deduplicates
        (rangeOrder : range_site -> gset Z -> list Z) (clock : clock_site -> Z)
        (agencyMap : gmap Z Agency.t) (childrenMap : gmap Z (list Z)) (snapshotDate : Z)
        (depth : Z -> nat) (fuel : nat) (agencyID : Z) (db : DB) :
  (forall site titleSet, rangeOrder site titleSet ≡ₚ elements titleSet) ->
  forest agencyMap childrenMap depth ->
  is_Some (agencyMap !! agencyID) ->
  (depth agencyID < fuel)%nat ->
  let run fuel agencyID :=
    calculateAgencyWordCount rangeOrder clock fuel agencyID agencyMap childrenMap
                             snapshotDate db in
  exists titleSet db',
    run fuel agencyID = (Returned titleSet, db')
    /\ (forall fuel', (depth agencyID < fuel')%nat -> run fuel' agencyID = run fuel agencyID)
    /\ Forall (fun childID => exists childTitles db1,
                   run (pred fuel) childID = (Returned childTitles, db1))
              (childrenOf childrenMap agencyID)
    /\ titleSet
       = list_to_set (GetAgencyTitles agencyID db).1
         ∪ ⋃ (map (fun childID => titleSetOf (run (pred fuel) childID))
                  (childrenOf childrenMap agencyID))
    /\ (forall t, t ∈ titleSet -> count_occ Z.eq_dec (elements titleSet) t = 1%nat)
    /\ map Agency.ID (agencies db') = map Agency.ID (agencies db)
    /\ forall r,
         In r (agencies db') ->
         Agency.ID r = agencyID ->
         Agency.RegulationCount r = Z.of_nat (size titleSet)
         /\ Agency.TotalWordCount r
            = GoInt.wrap64 (sumZ (map (wordCountOf db) (elements titleSet))).
Proof.
  intros Hperm [Hforest Hclosed] Hmap Hfuel run.
  destruct (calculateAgencyWordCount_returns rangeOrder clock agencyMap childrenMap
              snapshotDate depth Hforest Hclosed fuel agencyID db Hfuel Hmap)
    as (titleSet & db' & Hrun).
  exists titleSet, db'. split; [exact Hrun|].
  pose proof (calculateAgencyWordCount_preserved rangeOrder clock agencyMap childrenMap
                snapshotDate fuel agencyID db) as (_ & _ & Hids).
  pose proof (calculateAgencyWordCount_row rangeOrder clock Hperm agencyMap childrenMap
                snapshotDate fuel agencyID db titleSet db' Hrun) as Hrow.
  rewrite Hrun in Hids. cbn [snd] in Hids.
  destruct fuel as [|fuel']; [lia|]. cbn [pred].
  assert (Hchildren :
            Forall (fun childID => exists childTitles db1,
                        run fuel' childID = (Returned childTitles, db1))
                   (childrenOf childrenMap agencyID)).
  { apply Forall_forall. intros c Hc. apply list_elem_of_In in Hc.
    apply (calculateAgencyWordCount_returns rangeOrder clock agencyMap childrenMap
             snapshotDate depth Hforest Hclosed).
    - specialize (Hforest agencyID c Hc). lia.
    - eapply Hclosed; eassumption. }
  split.
  { intros fuel'' Hfuel''.
    apply (calculateAgencyWordCount_fuel rangeOrder clock agencyMap childrenMap
             snapshotDate depth Hforest); assumption. }
  split; [exact Hchildren|]. split; [|split; [|split; [exact Hids|]]].
  - rewrite calculateAgencyWordCount_step in Hrun.
    destruct (forChildren _ _ _ _ _ _) as [[T|err| |] db1] eqn:Hfc; try discriminate.
    cbv zeta in Hrun. destruct (agencyMap !! agencyID); [|discriminate].
    injection Hrun as -> _.
    apply (forChildren_union rangeOrder Hperm) in Hfc as [_ Hset].
    + rewrite Hset, fold_insert_titles.
      rewrite (right_id_L ∅ (∪)). reflexivity.
    + apply calculateAgencyWordCount_preserved.
    + apply calculateAgencyWordCount_links.
  - intros t Ht. apply NoDup_count_occ'.
    + apply NoDup_ListNoDup, NoDup_elements.
    + apply list_elem_of_In, elem_of_elements, Ht.
  - intros r Hin Hid. destruct (Hrow r Hin Hid) as (Htotal & Hcount & _).
    split; [exact Hcount|]. rewrite Htotal. apply aggregate_total.
Qed.

Lemma forest_example : forest forest_agencyMap forest_childrenMap forest_depth.
Proof.
  assert (Hchildren : forall p c, In c (childrenOf forest_childrenMap p) ->
                                  p = 1 /\ (c = 2 \/ c = 3)).
  { intros p c Hc. unfold childrenOf, forest_childrenMap in Hc.
    destruct (decide (p = 1)) as [->|Hne].
    - rewrite lookup_singleton_eq in Hc. cbn in Hc. intuition.
    - rewrite lookup_singleton_ne in Hc by congruence. contradiction. }
  split.
  - intros p c Hc. destruct (Hchildren p c Hc) as [-> [-> | ->]]; cbn; lia.
  - intros p c _ Hc. destruct (Hchildren p c Hc) as [-> [-> | ->]]; vm_compute; eauto.
Qed.

Lemma forest_example_reordered :
  forest forest_agencyMap forest_childrenMap_reordered forest_depth.
Proof.
  assert (Hchildren : forall p c, In c (childrenOf forest_childrenMap_reordered p) ->
                                  p = 1 /\ (c = 2 \/ c = 3)).
  { intros p c Hc. unfold childrenOf, forest_childrenMap_reordered in Hc.
    destruct (decide (p = 1)) as [->|Hne].
    - rewrite lookup_singleton_eq in Hc. cbn in Hc. intuition.
    - rewrite lookup_singleton_ne in Hc by congruence. contradiction. }
  split.
  - intros p c Hc. destruct (Hchildren p c Hc) as [-> [-> | ->]]; cbn; lia.
  - intros p c _ Hc. destruct (Hchildren p c Hc) as [-> [-> | ->]]; vm_compute; eauto.
Qed.

Lemma rollup_deduplicates_witness :
  let run fuel agencyID :=
    calculateAgencyWordCount ascending midnight fuel agencyID forest_agencyMap
                             forest_childrenMap day_2024_01_01 forest_db in
  exists titleSet db',
    run 2%nat 1 = (Returned titleSet, db')
    /\ titleSet
       = list_to_set (GetAgencyTitles 1 forest_db).1
         ∪ ⋃ (map (fun childID => titleSetOf (run 1%nat childID))
                  (childrenOf forest_childrenMap 1))
    /\ forall r,
         In r (agencies db') ->
         Agency.ID r = 1 ->
         Agency.RegulationCount r = Z.of_nat (size titleSet)
         /\ Agency.TotalWordCount r
            = GoInt.wrap64 (sumZ (map (wordCountOf forest_db) (elements titleSet))).
Proof.
  intros run.
  destruct (rollup_deduplicates ascending midnight forest_agencyMap forest_childrenMap
              day_2024_01_01 forest_depth 2 1 forest_db)
    as (titleSet & db' & Hrun & _ & _ & Hset & _ & _ & Hrow).
  - intros site titleSet. reflexivity.
  - exact forest_example.
  - vm_compute. eauto.
  - cbn. lia.
  - exists titleSet, db'. split; [exact Hrun|]. split; [exact Hset | exact Hrow].
Defined.

(** In the example forest both bureaus are linked to title 7: the
    department counts three titles and 350 words, where its four links
    would add up to 550 words. *)
Example rollup_shared_title_counts_once :
  let result :=
    calculateAgencyWordCount ascending midnight 2 1 forest_agencyMap forest_childrenMap
                             day_2024_01_01 forest_db in
  titleSetOf result = {[ 5; 7; 9 ]}
  /\ map (fun r => (Agency.ID r, Agency.RegulationCount r, Agency.TotalWordCount r))
         (agencies result.2)
     = [(1, 3, 350); (2, 1, 200); (3, 2, 250)].
Proof.
  split.
  - vm_compute. reflexivity.
  - vm_compute. reflexivity.
Qed.

(** C3.  In a forest the call for a node returns, and the checksum it
    stores for the node is the digest of the serialization of the sorted
    members of the returned title set with their word counts.  Two runs,
    whatever the order in which each of them ranges over its maps, lists
    the children and reads the links, store the same checksum, total and
    count as soon as they return the same title set and read the same
    word counts for its members.  A node whose set is empty gets the
    digest of the empty input, zero words and zero titles. *)
Theorem rollup_checksum_deterministic
        (rangeOrder1 rangeOrder2 : range_site -> gset Z -> list Z)
        (clock1 clock2 : clock_site -> Z)
        (agencyMap1 agencyMap2 : gmap Z Agency.t)
        (childrenMap1 childrenMap2 : gmap Z (list Z))
        (snapshotDate1 snapshotDate2 : Z) (depth1 depth2 : Z -> nat)
        (fuel1 fuel2 : nat) (agencyID1 agencyID2 : Z) (db1 db2 : DB) :
  (forall site titleSet, rangeOrder1 site titleSet ≡ₚ elements titleSet) ->
  (forall site titleSet, rangeOrder2 site titleSet ≡ₚ elements titleSet) ->
  forest agencyMap1 childrenMap1 depth1 ->
  forest agencyMap2 childrenMap2 depth2 ->
  is_Some (agencyMap1 !! agencyID1) ->
  is_Some (agencyMap2 !! agencyID2) ->
  (depth1 agencyID1 < fuel1)%nat ->
  (depth2 agencyID2 < fuel2)%nat ->
  exists titleSet1 db1' titleSet2 db2',
    calculateAgencyWordCount rangeOrder1 clock1 fuel1 agencyID1 agencyMap1 childrenMap1
                             snapshotDate1 db1 = (Returned titleSet1, db1')
    /\ calculateAgencyWordCount rangeOrder2 clock2 fuel2 agencyID2 agencyMap2 childrenMap2
                                snapshotDate2 db2 = (Returned titleSet2, db2')
    /\ (forall r1,
          In r1 (agencies db1') ->
          Agency.ID r1 = agencyID1 ->
          Agency.Checksum r1 = md5hex (bytes_of_string (snd (aggregate db1 titleSet1)))
          /\ (titleSet1 = ∅ ->
              Agency.Checksum r1 = "d41d8cd98f00b204e9800998ecf8427e"%string
              /\ Agency.TotalWordCount r1 = 0
              /\ Agency.RegulationCount r1 = 0))
    /\ (titleSet1 = titleSet2 ->
        (forall t, t ∈ titleSet1 -> GetTitleWordCount t db1 = GetTitleWordCount t db2) ->
        forall r1 r2,
          In r1 (agencies db1') ->
          Agency.ID r1 = agencyID1 ->
          In r2 (agencies db2') ->
          Agency.ID r2 = agencyID2 ->
          Agency.Checksum r1 = Agency.Checksum r2
          /\ Agency.TotalWordCount r1 = Agency.TotalWordCount r2
          /\ Agency.RegulationCount r1 = Agency.RegulationCount r2).
Proof.
  intros Hperm1 Hperm2 [Hforest1 Hclosed1] [Hforest2 Hclosed2] Hmap1 Hmap2 Hfuel1 Hfuel2.
  destruct (calculateAgencyWordCount_returns rangeOrder1 clock1 agencyMap1 childrenMap1
              snapshotDate1 depth1 Hforest1 Hclosed1 fuel1 agencyID1 db1 Hfuel1 Hmap1)
    as (T1 & db1' & Hrun1).
  destruct (calculateAgencyWordCount_returns rangeOrder2 clock2 agencyMap2 childrenMap2
              snapshotDate2 depth2 Hforest2 Hclosed2 fuel2 agencyID2 db2 Hfuel2 Hmap2)
    as (T2 & db2' & Hrun2).
  pose proof (calculateAgencyWordCount_row rangeOrder1 clock1 Hperm1 agencyMap1 childrenMap1
                snapshotDate1 fuel1 agencyID1 db1 T1 db1' Hrun1) as Hrow1.
  pose proof (calculateAgencyWordCount_row rangeOrder2 clock2 Hperm2 agencyMap2 childrenMap2
                snapshotDate2 fuel2 agencyID2 db2 T2 db2' Hrun2) as Hrow2.
  exists T1, db1', T2, db2'. split; [exact Hrun1|]. split; [exact Hrun2|]. split.
  - intros r1 Hin1 Hid1. destruct (Hrow1 r1 Hin1 Hid1) as (Htotal & Hcount & Hsum).
    split; [exact Hsum|]. intros ->.
    rewrite Hsum, Htotal, Hcount. repeat split.
  - intros <- Hwc r1 r2 Hin1 Hid1 Hin2 Hid2.
    destruct (Hrow1 r1 Hin1 Hid1) as (Htotal1 & Hcount1 & Hsum1).
    destruct (Hrow2 r2 Hin2 Hid2) as (Htotal2 & Hcount2 & Hsum2).
    rewrite Htotal1, Hcount1, Hsum1, Htotal2, Hcount2, Hsum2.
    rewrite (aggregate_ext db1 db2 T1 Hwc). repeat split.
Qed.

Lemma rollup_checksum_deterministic_witness :
  exists titleSet1 db1' titleSet2 db2',
    calculateAgencyWordCount ascending midnight 2 1 forest_agencyMap forest_childrenMap
                             day_2024_01_01 forest_db = (Returned titleSet1, db1')
    /\ calculateAgencyWordCount descending midnight 3 1 forest_agencyMap
                                forest_childrenMap_reordered day_2024_04_01
                                forest_db_reordered = (Returned titleSet2, db2')
    /\ forall r1 r2,
         In r1 (agencies db1') ->
         Agency.ID r1 = 1 ->
         In r2 (agencies db2') ->
         Agency.ID r2 = 1 ->
         Agency.Checksum r1 = Agency.Checksum r2.
Proof.
  destruct (rollup_checksum_deterministic
              ascending descending midnight midnight forest_agencyMap forest_agencyMap
              forest_childrenMap forest_childrenMap_reordered
              day_2024_01_01 day_2024_04_01 forest_depth forest_depth 2 3 1 1
              forest_db forest_db_reordered)
    as (T1 & db1' & T2 & db2' & Hrun1 & Hrun2 & _ & Hsame).
  - intros site titleSet. reflexivity.
  - intros site titleSet. unfold descending. symmetry. apply Permutation_rev.
  - exact forest_example.
  - exact forest_example_reordered.
  - vm_compute. eauto.
  - vm_compute. eauto.
  - cbn. lia.
  - cbn. lia.
  - exists T1, db1', T2, db2'. split; [exact Hrun1|]. split; [exact Hrun2|].
    intros r1 r2 Hin1 Hid1 Hin2 Hid2.
    apply (Hsame) with (r1 := r1) (r2 := r2); try assumption.
    + apply (f_equal titleSetOf) in Hrun1, Hrun2.
      vm_compute in Hrun1, Hrun2. congruence.
    + intros t _. reflexivity.
Defined.

(** The two runs of the example, one ranging upwards and one downwards
    over reordered children and links, store the same checksum for the
    department; an agency without titles gets the digest of the empty
    input. *)
Example rollup_checksum_example :
  map Agency.Checksum
      (agencies (calculateAgencyWordCount ascending midnight 2 1 forest_agencyMap
                   forest_childrenMap day_2024_01_01 forest_db).2)
  = map Agency.Checksum
        (agencies (calculateAgencyWordCount descending midnight 2 1 forest_agencyMap
                     forest_childrenMap_reordered day_2024_01_01 forest_db_reordered).2)
  /\ map Agency.Checksum
         (agencies (calculateAgencyWordCount ascending midnight 1 1
                      (list_to_map [(1, agency_without_titles)]) ∅ day_2024_01_01
                      (db_of_agencies [agency_without_titles])).2)
     = ["d41d8cd98f00b204e9800998ecf8427e"%string].
Proof. split; vm_compute; reflexivity. Qed.

End RollupProperties.

(** ** Run summary *)

(** C9.  [PrintSummary] logs as success rate [Imported] divided by
    [Total - Skipped], times 100, computed with no guard, and whenever
    [Total] equals [Skipped] the divisor of that division is zero. *)
Theorem successRate_divides_by_zero (stats : Importer.ImportStats) :
  last (Importer.PrintSummary stats)
  = Some ("Success rate:    %.1f%%"%string,
          [Importer.LogFloat
             (PrimFloat.div
                (GoInt.float64 (Importer.Imported stats))
                (GoInt.float64
                   (GoInt.wrap64 (Importer.Total stats - Importer.Skipped stats)))
              * 100)%float])
  /\ Importer.successRateDivisor stats
     = GoInt.float64 (GoInt.wrap64 (Importer.Total stats - Importer.Skipped stats))
  /\ (Importer.Total stats = Importer.Skipped stats ->
      Importer.successRateDivisor stats = 0%float).
Proof.
  split; [reflexivity|]. split; [reflexivity|].
  intros Heq. unfold Importer.successRateDivisor.
  rewrite Heq, Z.sub_diag. reflexivity.
Qed.

Lemma successRate_divides_by_zero_witness :
  Importer.successRateDivisor
    {| Importer.Total := 4; Importer.Imported := 0; Importer.Changed := 0;
       Importer.Unchanged := 0; Importer.Skipped := 4; Importer.Failed := 0 |} = 0%float.
Proof.
  apply (successRate_divides_by_zero
           {| Importer.Total := 4; Importer.Imported := 0; Importer.Changed := 0;
              Importer.Unchanged := 0; Importer.Skipped := 4; Importer.Failed := 0 |}).
  reflexivity.
Defined.


(** A run in which every title is reserved: the rate is 0/0, not a
    number; with an import counted against an empty divisor it is
    infinite. *)
Example successRate_all_reserved :
  PrimFloat.is_nan
    (Importer.successRate
       {| Importer.Total := 4; Importer.Imported := 0; Importer.Changed := 0;
          Importer.Unchanged := 0; Importer.Skipped := 4; Importer.Failed := 0 |}) = true
  /\ Importer.successRate
       {| Importer.Total := 1; Importer.Imported := 1; Importer.Changed := 1;
          Importer.Unchanged := 0; Importer.Skipped := 1; Importer.Failed := 0 |}
     = PrimFloat.infinity.
Proof. split; reflexivity. Qed.

(** ** Import of the titles *)

(** [Parse] in closed form. *)
Lemma Parse_closed_form (dec : Parser.decoder) (content : list byte) :
  Parser.Parse dec content
  = (Some {| Parser.WordCount := Z.of_nat (Parser.wordsIn false (fst (dec content)));
             Parser.SectionCount :=
               GoInt.wrap64 (Z.of_nat (Parser.sectionsIn (fst (dec content))));
             Parser.Checksum := md5hex content |}, None).
Proof.
  unfold Parser.Parse. rewrite countWords_Fields. unfold Parser.scanTokens.
  rewrite scanTokens_words by apply builder_closed_nil.
  rewrite scanTokens_sections by reflexivity. reflexivity.
Qed.

Lemma wrap64_small (z : Z) : - 2 ^ 63 <= z < 2 ^ 63 -> GoInt.wrap64 z = z.
Proof.
  intros Hz. unfold GoInt.wrap64. rewrite Z.mod_small by lia. lia.
Qed.

Lemma SaveTitleWithSnapshot_no_error now t date db :
  (Store.SaveTitleWithSnapshot now t date db).1.1.2 = None.
Proof. unfold Store.SaveTitleWithSnapshot. destruct (match _ with Some _ => _ | None => _ end); reflexivity. Qed.



Ltac stats_simpl :=
  cbn [ImportRun.stats ImportRun.db ImportRun.events ImportRun.emit
       ImportRun.incSkipped ImportRun.incFailed ImportRun.incImported
       ImportRun.incChanged ImportRun.incUnchanged ImportRun.setTotal
       Importer.Imported Importer.Skipped Importer.Failed Importer.Changed
       Importer.Unchanged Importer.Total].

Section ImportProperties.
Import GoInt Client Store Importer ImportRun.

Variable http : call_site -> string -> world.
Variable unmarshalTitles : list byte -> list ECFRClient.titleJSON + error.
Variable parseDate : string -> Z + error.
Variable dec : Parser.decoder.
Variable ctxDone : nat -> option ctx_error.
Variable clock : clock_site -> Z.

(** [importTitle] never panics: a content that cannot be fetched is an
    error that leaves the statistics and the store as they are, and a
    content that is fetched is saved with its metrics and counted as
    changed or unchanged. *)
Lemma importTitle_spec idx meta date sd st :
  importTitle http parseDate dec clock idx meta date sd st
  = match contentOf http idx meta date with
    | inr err =>
        (Returned (Some (ErrorfW "failed to fetch content: " err)),
         emit (Requested (Content idx) (traceOf http idx meta date)) st)
    | inl content =>
        let saved :=
          SaveTitleWithSnapshot (clock (AtSaved idx))
                                (titleOf parseDate dec clock idx meta content) sd (db st) in
        (Returned None,
         State (if saved.1.1.1 then incChanged (stats st) else incUnchanged (stats st))
               saved.2
               (events st ++ [Requested (Content idx) (traceOf http idx meta date)]))
    end.
Proof using Type.
  unfold importTitle, contentOf, traceOf, fetchDateOf.
  destruct (ECFRClient.FetchTitleContent _ _ _) as [[content|err] trace]; cbn [fst snd].
  - rewrite Parse_closed_form. cbn [Parser.WordCount Parser.SectionCount Parser.Checksum].
    fold (lastAmendedOf parseDate meta).
    change (Title.Make 0 (TitleMeta.Number meta) (TitleMeta.Name meta) _ _ _ _ _ 0)
      with (titleOf parseDate dec clock idx meta content).
    pose proof (SaveTitleWithSnapshot_no_error (clock (AtSaved idx))
                  (titleOf parseDate dec clock idx meta content) sd (db st)) as Hno.
    destruct (SaveTitleWithSnapshot _ _ _ _) as [[[changed err] t'] db'].
    cbn in Hno. subst err. reflexivity.
  - reflexivity.
Qed.

Lemma stopFrom_spec : forall remaining idx,
  let k := stopFrom ctxDone idx remaining in
  (idx <= k <= idx + remaining)%nat
  /\ (forall j, idx <= j < k -> ctxDone j = None)%nat
  /\ ((k < idx + remaining)%nat -> is_Some (ctxDone k)).
Proof using Type.
  induction remaining as [|n IH]; intros idx; cbn [stopFrom].
  - split; [lia|]. split; intros; lia.
  - destruct (ctxDone idx) eqn:Hdone.
    + split; [lia|]. split; [intros; lia|]. intros _. rewrite Hdone. eauto.
    + destruct (IH (S idx)) as (H1 & H2 & H3). cbn zeta.
      split; [lia|]. split.
      * intros j Hj. destruct (decide (j = idx)) as [->|Hne]; [exact Hdone|].
        apply H2. lia.
      * intros Hk. apply H3. lia.
Qed.

Lemma failures_app evs1 evs2 : failures (evs1 ++ evs2) = failures evs1 + failures evs2.
Proof using Type.
  unfold failures. rewrite List.filter_app, length_app. lia.
Qed.

(** The loop of [Import] never panics, and its counters add up. *)
Lemma importLoop_accounting total date sd : forall metas idx st,
  accounted (stats st) (Z.of_nat idx) ->
  Z.of_nat idx + Z.of_nat (length metas) < 2 ^ 63 ->
  exists err st',
    importLoop http parseDate dec ctxDone clock total idx metas date sd st
    = (Returned (Some (stats st'), err), st')
    /\ Total (stats st') = Total (stats st)
    /\ let k := stopFrom ctxDone idx (length metas) in
       accounted (stats st') (Z.of_nat k)
       /\ Skipped (stats st')
          = Skipped (stats st)
            + Z.of_nat (length (List.filter TitleMeta.Reserved (take (k - idx) metas)))
       /\ Failed (stats st') - failures (events st')
          = Failed (stats st) - failures (events st)
       /\ err = (if (k <? idx + length metas)%nat
                 then option_map ErrContext (ctxDone k) else None)
       /\ db st' = savedFrom http parseDate dec ctxDone clock idx metas date sd (db st).
Proof using Type.
  induction metas as [|meta rest IH]; intros idx st Hacc Hlen;
    cbn [importLoop stopFrom savedFrom length].
  - exists None, st. cbn zeta. rewrite Nat.sub_diag, Nat.add_0_r, Nat.ltb_irrefl.
    cbn. repeat split; try tauto; try lia; apply Hacc.
  - destruct (ctxDone idx) as [reason|] eqn:Hdone.
    + exists (Some (ErrContext reason)), st. cbn zeta. rewrite Nat.sub_diag.
      replace (idx <? idx + S (length rest))%nat with true
        by (symmetry; apply Nat.ltb_lt; lia).
      rewrite Hdone. cbn. repeat split; try tauto; try lia; apply Hacc.
    + pose proof (stopFrom_spec (length rest) (S idx)) as (Hk & _ & _).
      cbn zeta in Hk.
      set (k := stopFrom ctxDone (S idx) (length rest)) in *.
      replace (k - idx)%nat with (S (k - S idx)) by lia.
      replace (k <? idx + S (length rest))%nat with (k <? S idx + length rest)%nat
        by (f_equal; lia).
      cbn [take List.filter].
      cbn [length] in Hlen.
      destruct Hacc as (HI & HS & HF & HC & HU & Hsum1 & Hsum2).
      unfold saveStep.
      destruct (TitleMeta.Reserved meta) eqn:Hres.
      * destruct (IH (S idx) (State (incSkipped (stats st)) (db st) (events st)))
          as (err & st' & Hrun & Htot & Hacc' & Hsk & Hfl & Herr & Hdb).
        { unfold accounted. stats_simpl. rewrite wrap64_small by lia. repeat split; lia. }
        { lia. }
        exists err, st'. split; [exact Hrun|]. split; [exact Htot|].
        cbn zeta in *. fold k in Hacc', Hsk, Hfl, Herr.
        split; [exact Hacc'|]. split; [|split; [exact Hfl|split; [exact Herr|exact Hdb]]].
        rewrite Hsk. stats_simpl. rewrite wrap64_small by lia. cbn [length]. lia.
      * rewrite importTitle_spec.
        destruct (contentOf http idx meta date) as [content|e] eqn:Hcontent.
        -- cbn zeta.
           set (saved := SaveTitleWithSnapshot _ _ _ _).
           set (st1 := State (incImported (if saved.1.1.1 then incChanged (stats st)
                                           else incUnchanged (stats st)))
                             saved.2
                             (events st ++ [Requested (Content idx)
                                                      (traceOf http idx meta date)])).
           set (st2 := if Z.of_nat idx <? total - 1 then emit (Paused Delay) st1 else st1).
           assert (Hst2 : stats st2 = stats st1 /\ db st2 = db st1
                          /\ failures (events st2) = failures (events st)).
           { unfold st2. destruct (Z.of_nat idx <? total - 1); unfold st1, emit;
               cbn [stats db events]; rewrite ?failures_app; unfold failures;
               cbn [List.filter is_ImportFailed length]; repeat split; lia. }
           destruct Hst2 as (Hs2 & Hd2 & Hf2).
           destruct (IH (S idx) st2)
             as (err & st' & Hrun & Htot & Hacc' & Hsk & Hfl & Herr & Hdb).
           { rewrite Hs2. unfold st1, accounted. stats_simpl.
             destruct saved.1.1.1; stats_simpl; rewrite !wrap64_small by lia;
               repeat split; lia. }
           { lia. }
           exists err, st'. split; [exact Hrun|].
           cbn zeta in *. fold k in Hacc', Hsk, Hfl, Herr.
           rewrite Hs2 in Htot, Hsk, Hfl. rewrite Hf2 in Hfl. rewrite Hd2 in Hdb.
           unfold st1 in Htot, Hsk, Hfl, Hdb. cbn [stats db] in Htot, Hsk, Hfl, Hdb.
           split; [|split; [exact Hacc'|split; [|split; [|split; [exact Herr|exact Hdb]]]]].
           ++ rewrite Htot. destruct saved.1.1.1; reflexivity.
           ++ rewrite Hsk. destruct saved.1.1.1; stats_simpl; lia.
           ++ rewrite Hfl. destruct saved.1.1.1; stats_simpl; lia.
        -- cbn zeta.
           set (st2 := State _ _ _).
           destruct (IH (S idx) st2)
             as (err & st' & Hrun & Htot & Hacc' & Hsk & Hfl & Herr & Hdb).
           { unfold st2, accounted, emit. stats_simpl. rewrite wrap64_small by lia.
             repeat split; lia. }
           { lia. }
           exists err, st'. split; [exact Hrun|].
           cbn zeta in *. fold k in Hacc', Hsk, Hfl, Herr.
           unfold st2 in Htot, Hsk, Hfl, Hdb. cbn [stats db events emit] in Htot, Hsk, Hfl, Hdb.
           split; [exact Htot|split; [exact Hacc'|split; [|split; [|split; [exact Herr|exact Hdb]]]]].
           ++ rewrite Hsk. stats_simpl. lia.
           ++ rewrite Hfl. rewrite !failures_app. stats_simpl. rewrite wrap64_small by lia.
              unfold failures. cbn [List.filter is_ImportFailed length]. lia.
Qed.

(** What [Import] does once the list is fetched and the date parsed. *)
Lemma Import_returns date db0 metas sd :
  fst (ECFRClient.FetchTitles (http ListTitles) unmarshalTitles) = inl metas ->
  parseDate date = inl sd ->
  Z.of_nat (length metas) < 2 ^ 63 ->
  exists err st,
    Import http unmarshalTitles parseDate dec ctxDone clock date db0
    = (Returned (Some (stats st), err), st)
    /\ Total (stats st) = Z.of_nat (length metas)
    /\ let k := stopFrom ctxDone 0 (length metas) in
       accounted (stats st) (Z.of_nat k)
       /\ Skipped (stats st)
          = Z.of_nat (length (List.filter TitleMeta.Reserved (take k metas)))
       /\ Failed (stats st) = failures (events st)
       /\ err = (if (k <? length metas)%nat then option_map ErrContext (ctxDone k) else None)
       /\ db st = savedFrom http parseDate dec ctxDone clock 0 metas date sd db0.
Proof using Type.
  intros Hfetch Hdate Hlen. unfold Import.
  destruct (ECFRClient.FetchTitles _ _) as [fetched trace]. cbn [fst] in Hfetch. subst fetched.
  rewrite Hdate.
  destruct (importLoop_accounting (Z.of_nat (length metas)) date sd metas 0%nat
              (State (setTotal (Z.of_nat (length metas))
                               (stats (emit (Requested ListTitles trace)
                                            (State zeroStats db0 []))))
                     (db (emit (Requested ListTitles trace) (State zeroStats db0 [])))
                     (events (emit (Requested ListTitles trace) (State zeroStats db0 [])))))
    as (err & st' & Hrun & Htot & Hacc & Hsk & Hfl & Herr & Hdb).
  { unfold accounted. stats_simpl. cbn. repeat split; lia. }
  { lia. }
  exists err, st'. split; [exact Hrun|]. cbn zeta in *.
  rewrite Nat.sub_0_r in Hsk. rewrite Nat.add_0_l in Herr.
  split; [rewrite Htot; reflexivity|].
  split; [exact Hacc|]. split; [rewrite Hsk; stats_simpl; cbn; lia|].
  split; [|split; [exact Herr|exact Hdb]].
  revert Hfl. stats_simpl. unfold failures. cbn. lia.
Qed.



(** The titles that [FetchTitles] returns are as many as the entries of
    the response. *)
Lemma FetchTitles_length w metas :
  fst (ECFRClient.FetchTitles w unmarshalTitles) = inl metas ->
  exists body resp, unmarshalTitles body = inl resp /\ length metas = length resp.
Proof using Type.
  unfold ECFRClient.FetchTitles.
  destruct (fetchWithRetry _) as [[body|err] trace]; [|discriminate].
  destruct (unmarshalTitles body) as [resp|err] eqn:Hresp; [|discriminate].
  cbn [fst]. intros H. injection H as <-. exists body, resp.
  split; [exact Hresp|]. apply length_map.
Qed.

(** X1.  [Import] never panics.  When it returns statistics, the list of
    the titles was fetched and the date parsed, and the counters add up:
    [Total] is the length of the list; the titles that were dealt with,
    all of them unless the context was found done at the turn of one, are
    each counted once as imported, skipped or failed; every imported
    title is counted once as changed or unchanged; the skipped ones are
    the reserved ones; and every failure was logged.  When it returns no
    statistics, the store is as it was, and the error is that of the
    list, or else that of the date. *)
Theorem Import_accounting (date : string) (db0 : DB) :
  (forall body resp, unmarshalTitles body = inl resp -> Z.of_nat (length resp) < 2 ^ 63) ->
  exists r st,
    Import http unmarshalTitles parseDate dec ctxDone clock date db0 = (Returned r, st)
    /\ match r with
       | (Some stats1, err) =>
           exists metas sd (k : nat),
             fst (ECFRClient.FetchTitles (http ListTitles) unmarshalTitles) = inl metas
             /\ parseDate date = inl sd
             /\ stats st = stats1
             /\ Total stats1 = Z.of_nat (length metas)
             /\ (k <= length metas)%nat
             /\ (forall j, (j < k)%nat -> ctxDone j = None)
             /\ Imported stats1 + Skipped stats1 + Failed stats1 = Z.of_nat k
             /\ Changed stats1 + Unchanged stats1 = Imported stats1
             /\ Skipped stats1
                = Z.of_nat (length (List.filter TitleMeta.Reserved (take k metas)))
             /\ Failed stats1
                = Z.of_nat (length (List.filter is_ImportFailed (events st)))
             /\ match err with
                | None => k = length metas
                | Some e =>
                    (k < length metas)%nat
                    /\ exists reason, ctxDone k = Some reason /\ e = ErrContext reason
                end
       | (None, Some e) =>
           db st = db0
           /\ ((exists err,
                   fst (ECFRClient.FetchTitles (http ListTitles) unmarshalTitles) = inr err
                   /\ e = ErrorfW "failed to fetch titles list: " err)
               \/ (exists metas err,
                      fst (ECFRClient.FetchTitles (http ListTitles) unmarshalTitles)
                      = inl metas
                      /\ parseDate date = inr err
                      /\ e = ErrorfW "invalid date format: " err))
       | (None, None) => False
       end.
Proof using Type.
  intros Hlen.
  destruct (ECFRClient.FetchTitles (http ListTitles) unmarshalTitles)
    as [[metas|e] trace] eqn:Hfetch.
  - destruct (parseDate date) as [sd|e] eqn:Hdate.
    + assert (Hf : fst (ECFRClient.FetchTitles (http ListTitles) unmarshalTitles) = inl metas)
        by (rewrite Hfetch; reflexivity).
      destruct (FetchTitles_length _ _ Hf) as (body & resp & Hresp & Hl).
      destruct (Import_returns date db0 metas sd Hf Hdate)
        as (err & st & Hrun & Htot & Hacc & Hsk & Hfl & Herr & Hdb).
      { rewrite Hl. exact (Hlen body resp Hresp). }
      cbn zeta in *.
      destruct (stopFrom_spec (length metas) 0%nat) as (Hk1 & Hk2 & Hk3). cbn zeta in *.
      set (k := stopFrom ctxDone 0 (length metas)) in *.
      exists (Some (stats st), err), st. split; [exact Hrun|].
      exists metas, sd, k.
      destruct Hacc as (_ & _ & _ & _ & _ & Hsum1 & Hsum2).
      split; [reflexivity|]. split; [reflexivity|]. split; [reflexivity|].
      split; [exact Htot|]. split; [lia|].
      split; [intros j Hj; apply Hk2; lia|].
      split; [exact Hsum2|]. split; [exact Hsum1|]. split; [exact Hsk|].
      split; [exact Hfl|].
      destruct (k <? length metas)%nat eqn:Hlt.
      * apply Nat.ltb_lt in Hlt. destruct (Hk3 Hlt) as [reason Hreason].
        rewrite Hreason in Herr. subst err. split; [exact Hlt|]. eauto.
      * apply Nat.ltb_ge in Hlt. subst err. lia.
    + exists (None, Some (ErrorfW "invalid date format: " e)).
      eexists. unfold Import. rewrite Hfetch, Hdate. split; [reflexivity|].
      split; [reflexivity|]. right. exists metas, e. repeat split; reflexivity.
  - exists (None, Some (ErrorfW "failed to fetch titles list: " e)).
    eexists. unfold Import. rewrite Hfetch. split; [reflexivity|].
    split; [reflexivity|]. left. exists e. split; reflexivity.
Qed.


(** The pauses of the loop: one after every title that is imported,
    the last of the list apart. *)
Lemma importLoop_pauses total date sd : forall metas idx st,
  accounted (stats st) (Z.of_nat idx) ->
  Z.of_nat idx + Z.of_nat (length metas) < 2 ^ 63 ->
  total = Z.of_nat idx + Z.of_nat (length metas) ->
  let st' := (importLoop http parseDate dec ctxDone clock total idx metas date sd st).2 in
  ((forall d, In (Paused d) (events st) -> d = Delay) ->
   forall d, In (Paused d) (events st') -> d = Delay)
  /\ Imported (stats st') - pauses (events st')
     = Imported (stats st) - pauses (events st)
       + (if (stopFrom ctxDone idx (length metas) =? idx + length metas)%nat
             && match last metas with
                | Some meta =>
                    negb (TitleMeta.Reserved meta)
                    && match contentOf http (idx + length metas - 1) meta date with
                       | inl _ => true
                       | inr _ => false
                       end
                | None => false
                end
          then 1 else 0).
Proof using Type.
  induction metas as [|meta rest IH]; intros idx st Hacc Hlen Htotal;
    cbn [importLoop stopFrom length].
  - cbn zeta. cbn [snd last]. rewrite andb_false_r. split; [tauto|lia].
  - destruct (ctxDone idx) as [reason|] eqn:Hdone.
    + cbn zeta. cbn [snd].
      replace (idx =? idx + S (length rest))%nat with false
        by (symmetry; apply Nat.eqb_neq; lia).
      split; [tauto|cbn; lia].
    + cbn [length] in Hlen, Htotal.
      destruct Hacc as (HI & HS & HF & HC & HU & Hsum1 & Hsum2).
      replace (idx + S (length rest))%nat with (S idx + length rest)%nat by lia.
      assert (Hlast :
        forall st2,
          accounted (stats st2) (Z.of_nat (S idx)) ->
          ((forall d, In (Paused d) (events st) -> d = Delay) ->
           forall d, In (Paused d) (events st2) -> d = Delay) ->
          Imported (stats st2) - pauses (events st2)
          = Imported (stats st) - pauses (events st)
            + (match rest with
               | [] =>
                   if negb (TitleMeta.Reserved meta)
                      && match contentOf http idx meta date with
                         | inl _ => true
                         | inr _ => false
                         end
                   then 1 else 0
               | _ => 0
               end) ->
          let st' := (importLoop http parseDate dec ctxDone clock total (S idx) rest date sd
                                 st2).2 in
          ((forall d, In (Paused d) (events st) -> d = Delay) ->
           forall d, In (Paused d) (events st') -> d = Delay)
          /\ Imported (stats st') - pauses (events st')
             = Imported (stats st) - pauses (events st)
               + (if (stopFrom ctxDone (S idx) (length rest) =? S idx + length rest)%nat
                     && match last (meta :: rest) with
                        | Some meta0 =>
                            negb (TitleMeta.Reserved meta0)
                            && match contentOf http (S idx + length rest - 1) meta0 date with
                               | inl _ => true
                               | inr _ => false
                               end
                        | None => false
                        end
                  then 1 else 0)).
      { intros st2 Hacc2 Hp2 Hdiff.
        destruct (IH (S idx) st2 Hacc2) as [H1 H2]; [lia|lia|].
        cbn zeta in *. split; [intros Hp; apply H1, Hp2, Hp|].
        rewrite H2, Hdiff. clear H1 H2 IH.
        destruct rest as [|m2 rest'].
        - cbn [length stopFrom last]. rewrite Nat.add_0_r, Nat.eqb_refl.
          replace (S idx - 1)%nat with idx by lia.
          rewrite andb_false_r, andb_true_l. lia.
        - rewrite last_cons_cons. lia. }
      destruct (TitleMeta.Reserved meta) eqn:Hres.
      * apply Hlast.
        -- unfold accounted. stats_simpl. rewrite wrap64_small by lia. repeat split; lia.
        -- tauto.
        -- stats_simpl. cbn [negb andb]. destruct rest; lia.
      * rewrite importTitle_spec.
        destruct (contentOf http idx meta date) as [content|e] eqn:Hcontent.
        -- cbn zeta. cbn [negb andb].
           destruct (Z.of_nat idx <? total - 1) eqn:Hidx.
           ++ apply Hlast.
              ** unfold accounted. stats_simpl.
                 destruct (SaveTitleWithSnapshot _ _ _ _).1.1.1; stats_simpl;
                   rewrite !wrap64_small by lia; repeat split; lia.
              ** stats_simpl. intros Hp d Hd.
                 rewrite !in_app_iff in Hd. destruct Hd as [[Hd|Hd]|Hd].
                 --- apply Hp, Hd.
                 --- destruct Hd as [Hd|[]]. discriminate.
                 --- destruct Hd as [Hd|[]]. injection Hd as <-. reflexivity.
              ** stats_simpl. unfold pauses. rewrite !List.filter_app, !length_app.
                 cbn [List.filter is_Paused length].
                 apply Z.ltb_lt in Hidx.
                 destruct rest as [|m2 rest']; [cbn [length] in Htotal; lia|].
                 destruct (SaveTitleWithSnapshot _ _ _ _).1.1.1; stats_simpl;
                   rewrite !wrap64_small by lia; cbn [negb andb]; lia.
           ++ apply Hlast.
              ** unfold accounted. stats_simpl.
                 destruct (SaveTitleWithSnapshot _ _ _ _).1.1.1; stats_simpl;
                   rewrite !wrap64_small by lia; repeat split; lia.
              ** stats_simpl. intros Hp d Hd.
                 rewrite in_app_iff in Hd. destruct Hd as [Hd|Hd].
                 --- apply Hp, Hd.
                 --- destruct Hd as [Hd|[]]. discriminate.
              ** stats_simpl. unfold pauses. rewrite !List.filter_app, !length_app.
                 cbn [List.filter is_Paused length].
                 apply Z.ltb_ge in Hidx.
                 destruct rest as [|m2 rest']; [|cbn [length] in Htotal; lia].
                 destruct (SaveTitleWithSnapshot _ _ _ _).1.1.1; stats_simpl;
                   rewrite !wrap64_small by lia; cbn [negb andb]; lia.
        -- cbn zeta. cbn [negb andb]. apply Hlast.
           ++ unfold accounted. stats_simpl. rewrite wrap64_small by lia. repeat split; lia.
           ++ stats_simpl. intros Hp d Hd.
              rewrite !in_app_iff in Hd. destruct Hd as [[Hd|Hd]|Hd].
              ** apply Hp, Hd.
              ** destruct Hd as [Hd|[]]. discriminate.
              ** destruct Hd as [Hd|[]]. discriminate.
           ++ stats_simpl. unfold pauses. rewrite !List.filter_app, !length_app.
              cbn [List.filter is_Paused length]. cbn [negb andb]. destruct rest; lia.
Qed.

(** X5.  The rate limit of [Import]: every pause lasts [requestDelay],
    one second, and there is exactly one pause for every title that is
    imported, except for the last title of the list, after which the run
    does not pause.  In particular a title that is skipped or that fails
    is followed by no pause, and a run that imports nothing never
    pauses. *)
Theorem Import_pauses (date : string) (db0 : DB) (metas : list TitleMeta.t) (sd : Z) :
  fst (ECFRClient.FetchTitles (http ListTitles) unmarshalTitles) = inl metas ->
  parseDate date = inl sd ->
  Z.of_nat (length metas) < 2 ^ 63 ->
  let st := (Import http unmarshalTitles parseDate dec ctxDone clock date db0).2 in
  (forall d, In (Paused d) (events st) -> d = 1000000000)
  /\ pauses (events st)
     = Imported (stats st) - (if lastImported http ctxDone metas date then 1 else 0)
  /\ 0 <= pauses (events st) <= Imported (stats st).
Proof using Type.
  intros Hfetch Hdate Hlen. unfold Import.
  destruct (ECFRClient.FetchTitles _ _) as [fetched trace]. cbn [fst] in Hfetch. subst fetched.
  rewrite Hdate.
  match goal with
  | |- context [importLoop _ _ _ _ _ ?total ?idx ?ms ?d ?s ?st0] =>
      destruct (importLoop_pauses total d s ms idx st0) as [H1 H2]
  end.
  { unfold accounted. stats_simpl. cbn. repeat split; lia. }
  { lia. }
  { lia. }
  cbn zeta in *. revert H1 H2. stats_simpl. rewrite !Nat.add_0_l.
  intros H1 H2.
  assert (H3 : pauses [Requested ListTitles trace] = 0) by reflexivity.
  unfold lastImported. cbn [app] in *.
  split; [|split].
  - apply H1. intros d [Hd|[]]. discriminate.
  - cbn [zeroStats Imported] in H2. rewrite H3 in H2. lia.
  - split; [unfold pauses; lia|].
    cbn [zeroStats Imported] in H2. rewrite H3 in H2.
    destruct (_ && _) in H2; lia.
Qed.

(** X4.  [ImportSingleTitle], once the list is fetched, deals with the
    first entry of the list that has the number.  Without such an entry
    it returns no statistics and an error, and leaves the store as it is.
    For a reserved title it returns, with no error, statistics with
    [Total] = 1 and [Skipped] = 1, for which the success rate of
    [PrintSummary] is not a number; nothing is fetched or written.  When
    the content cannot be fetched it returns the error next to statistics
    with one failure; otherwise the title is saved and counted as
    imported. *)
Theorem ImportSingleTitle_cases (titleNumber : Z) (date : string) (sd : Z) (db0 : DB)
        (metas : list TitleMeta.t) :
  fst (ECFRClient.FetchTitles (http ListTitles) unmarshalTitles) = inl metas ->
  let run := ImportSingleTitle http unmarshalTitles parseDate dec clock titleNumber date sd db0 in
  let listed :=
    Requested ListTitles (snd (ECFRClient.FetchTitles (http ListTitles) unmarshalTitles)) in
  match List.find (fun t => TitleMeta.Number t =? titleNumber) metas with
  | None =>
      run = (Returned (None, Some (Errorf ("title " ++ pretty titleNumber
                                            ++ " not found in eCFR API"))),
             State (setTotal 1 zeroStats) db0 [listed])
  | Some meta =>
      if TitleMeta.Reserved meta then
        run = (Returned (Some (incSkipped (setTotal 1 zeroStats)), None),
               State (incSkipped (setTotal 1 zeroStats)) db0 [listed])
        /\ Total (incSkipped (setTotal 1 zeroStats)) = 1
        /\ Skipped (incSkipped (setTotal 1 zeroStats)) = 1
        /\ PrimFloat.is_nan (successRate (incSkipped (setTotal 1 zeroStats))) = true
      else
        match contentOf http 0 meta date with
        | inr err =>
            exists st,
              run = (Returned (Some (stats st),
                               Some (ErrorfW "failed to fetch content: " err)), st)
              /\ stats st = incFailed (setTotal 1 zeroStats)
              /\ db st = db0
              /\ last (events st)
                 = Some (ImportFailed (TitleMeta.Number meta)
                                      (ErrorfW "failed to fetch content: " err))
        | inl content =>
            exists st,
              run = (Returned (Some (stats st), None), st)
              /\ Total (stats st) = 1
              /\ Imported (stats st) = 1
              /\ Changed (stats st) + Unchanged (stats st) = 1
              /\ Skipped (stats st) = 0
              /\ Failed (stats st) = 0
              /\ db st
                 = (SaveTitleWithSnapshot (clock (AtSaved 0))
                                          (titleOf parseDate dec clock 0 meta content)
                                          sd db0).2
        end
  end.
Proof using Type.
  intros Hfetch. cbn zeta. unfold ImportSingleTitle.
  destruct (ECFRClient.FetchTitles (http ListTitles) unmarshalTitles) as [fetched trace].
  cbn [fst snd] in *. subst fetched.
  destruct (List.find _ metas) as [meta|]; [|reflexivity].
  destruct (TitleMeta.Reserved meta).
  - repeat split; reflexivity.
  - rewrite importTitle_spec.
    destruct (contentOf http 0 meta date) as [content|err].
    + cbn zeta. eexists. split; [reflexivity|]. stats_simpl.
      destruct (SaveTitleWithSnapshot _ _ _ _).1.1.1; repeat split; reflexivity.
    + eexists. split; [reflexivity|]. stats_simpl.
      split; [reflexivity|]. split; [reflexivity|].
      rewrite last_snoc. reflexivity.
Qed.

End ImportProperties.

Section ReimportProperties.
Import GoInt Client Store Importer ImportRun.

Variables http1 http2 : call_site -> string -> world.
Variable unmarshalTitles : list byte -> list ECFRClient.titleJSON + error.
Variable parseDate : string -> Z + error.
Variable dec : Parser.decoder.
Variables ctxDone1 ctxDone2 : nat -> option ctx_error.
Variables clock1 clock2 : clock_site -> Z.

(** The network answers the calls of the second run as it answered those
    of the first. *)
Hypothesis same_answers : forall site url,
  fst (fetchWithRetry (http1 site url)) = fst (fetchWithRetry (http2 site url)).





End ReimportProperties.

(** The example run: the first title is imported, the second skipped and
    the third fails. *)
Lemma Import_accounting_witness :
  exists r st,
    ImportRun.Import ImportRun.example_http ImportRun.example_unmarshal
                     ImportRun.example_parseDate ImportRun.example_decoder
                     ImportRun.never_done ImportRun.example_clock
                     "2024-01-01" Store.empty_db = (Importer.Returned r, st)
    /\ fst r = Some {| Importer.Total := 3; Importer.Imported := 1; Importer.Changed := 1;
                       Importer.Unchanged := 0; Importer.Skipped := 1;
                       Importer.Failed := 1 |}.
Proof.
  destruct (Import_accounting ImportRun.example_http ImportRun.example_unmarshal
              ImportRun.example_parseDate ImportRun.example_decoder
              ImportRun.never_done ImportRun.example_clock "2024-01-01" Store.empty_db)
    as (r & st & Hrun & _).
  - intros body resp H. injection H as <-. vm_compute. reflexivity.
  - exists r, st. split; [exact Hrun|].
    vm_compute in Hrun. injection Hrun as <- _. reflexivity.
Defined.



(** Title 35 of the example is reserved. *)
Lemma ImportSingleTitle_cases_witness :
  fst (ImportRun.ImportSingleTitle ImportRun.example_http ImportRun.example_unmarshal
         ImportRun.example_parseDate ImportRun.example_decoder ImportRun.example_clock
         35 "2024-01-01" Store.day_2024_01_01 Store.empty_db)
  = Importer.Returned
      (Some {| Importer.Total := 1; Importer.Imported := 0; Importer.Changed := 0;
               Importer.Unchanged := 0; Importer.Skipped := 1; Importer.Failed := 0 |},
       None)
  /\ PrimFloat.is_nan
       (Importer.successRate
          {| Importer.Total := 1; Importer.Imported := 0; Importer.Changed := 0;
             Importer.Unchanged := 0; Importer.Skipped := 1; Importer.Failed := 0 |}) = true.
Proof.
  pose proof (ImportSingleTitle_cases ImportRun.example_http ImportRun.example_unmarshal
                ImportRun.example_parseDate ImportRun.example_decoder ImportRun.example_clock
                35 "2024-01-01" Store.day_2024_01_01 Store.empty_db
                ImportRun.example_metas eq_refl) as H.
  cbn [List.find ImportRun.example_metas TitleMeta.Number TitleMeta.Reserved Z.eqb Pos.eqb] in H.
  destruct H as (Hrun & _ & _ & Hnan).
  split; [rewrite Hrun; reflexivity|exact Hnan].
Defined.

Lemma Import_pauses_witness :
  let st :=
    (ImportRun.Import ImportRun.example_http ImportRun.example_unmarshal
                      ImportRun.example_parseDate ImportRun.example_decoder
                      ImportRun.never_done ImportRun.example_clock
                      "2024-01-01" Store.empty_db).2 in
  (forall d, In (ImportRun.Paused d) (ImportRun.events st) -> d = 1000000000)
  /\ ImportRun.pauses (ImportRun.events st)
     = Importer.Imported (ImportRun.stats st)
       - (if ImportRun.lastImported ImportRun.example_http ImportRun.never_done
                                    ImportRun.example_metas "2024-01-01"
          then 1 else 0)
  /\ 0 <= ImportRun.pauses (ImportRun.events st) <= Importer.Imported (ImportRun.stats st).
Proof.
  apply (Import_pauses ImportRun.example_http ImportRun.example_unmarshal
           ImportRun.example_parseDate ImportRun.example_decoder
           ImportRun.never_done ImportRun.example_clock "2024-01-01" Store.empty_db
           ImportRun.example_metas Store.day_2024_01_01).
  - reflexivity.
  - reflexivity.
  - vm_compute. reflexivity.
Defined.

(** ** Title store *)

(** Membership in a list that is written out. *)
Ltac in_list := repeat first [apply list_elem_of_here | apply list_elem_of_further].

Section TitleStoreProperties.
Import Store TitleStore.


(** X7.  [SaveTitleWithSnapshot] is the composition of the two other
    writes of the store: it leaves the tables that [UpsertTitle] leaves,
    followed, when it reports a change, by [InsertSnapshot] of the snapshot
    of the title for the date, and it scans the same identifier into the
    title. *)
Theorem SaveTitleWithSnapshot_composes (now : Z) (t : Title.t) (date : Z) (db : DB) :
  let saved := SaveTitleWithSnapshot now t date db in
  let upserted := UpsertTitle now t db in
  saved.1.2 = upserted.1.2
  /\ saved.2
     = (if saved.1.1.1
        then (InsertSnapshot now (snapshotOf t date) upserted.2).2
        else upserted.2)
  /\ (saved.1.1.1 = false <->
      exists r,
        List.find (snapshot_conflict (Title.TitleNumber t) date) (title_snapshots db) = Some r
        /\ TitleSnapshot.Checksum r = Title.Checksum t).
Proof.
  cbn zeta. unfold SaveTitleWithSnapshot, UpsertTitle, InsertSnapshot.
  destruct (List.find (snapshot_conflict (Title.TitleNumber t) date) (title_snapshots db))
    as [r|] eqn:Hr; cbn [option_map].
  - destruct (String.eqb (TitleSnapshot.Checksum r) (Title.Checksum t)) eqn:Hsum;
      cbn [negb fst snd]; (split; [reflexivity|]); (split; [reflexivity|]).
    + apply String.eqb_eq in Hsum. split; [|reflexivity]. intros _. eauto.
    + apply String.eqb_neq in Hsum. split; [discriminate|].
      intros (r' & Hr' & Hsum'). congruence.
  - cbn [fst snd]. split; [reflexivity|]. split; [reflexivity|].
    split; [discriminate|]. intros (r' & Hr' & _). discriminate.
Qed.

(** A list that is sorted by a key without duplicates is strictly
    sorted. *)
Lemma StronglySorted_strict {A : Type} (key : A -> Z) (l : list A) :
  StronglySorted (fun a b => key b <= key a) l ->
  NoDup (map key l) ->
  StronglySorted (fun a b => key b < key a) l.
Proof.
  induction 1 as [|a l Hl IH Ha]; intros Hnodup; constructor.
  - apply IH. rewrite map_cons in Hnodup. apply NoDup_cons in Hnodup. tauto.
  - rewrite map_cons in Hnodup. apply NoDup_cons in Hnodup as [Hfresh _].
    rewrite Forall_forall in Ha |- *. intros b Hb.
    specialize (Ha b Hb). cbn beta in Ha.
    assert (key b <> key a); [|lia].
    intros Heq. apply Hfresh. rewrite <- Heq. apply list_elem_of_fmap_2. exact Hb.
Qed.

Lemma NoDup_filter_keys {A K : Type} (key : A -> K) (p : A -> bool) (l : list A) :
  NoDup (map key l) -> NoDup (map key (List.filter p l)).
Proof.
  induction l as [|a l IH]; cbn [map List.filter]; [tauto|].
  intros Hnodup. apply NoDup_cons in Hnodup as [Hfresh Hnodup].
  destruct (p a); [|apply IH, Hnodup].
  cbn [map]. apply NoDup_cons. split; [|apply IH, Hnodup].
  intros Hin. apply Hfresh. apply list_elem_of_fmap in Hin as (b & Hb & Hin).
  apply list_elem_of_fmap. exists b. split; [exact Hb|].
  apply list_elem_of_In. apply list_elem_of_In, filter_In in Hin. tauto.
Qed.

Lemma NoDup_keys_inj {A K : Type} (key : A -> K) (l : list A) a b :
  NoDup (map key l) -> a ∈ l -> b ∈ l -> key a = key b -> a = b.
Proof.
  induction l as [|c l IH]; intros Hnodup Ha Hb Hkey; [inversion Ha|].
  rewrite map_cons in Hnodup. apply NoDup_cons in Hnodup as [Hfresh Hnodup].
  apply elem_of_cons in Ha as [->|Ha]; apply elem_of_cons in Hb as [->|Hb].
  - reflexivity.
  - exfalso. apply Hfresh. rewrite Hkey. apply list_elem_of_fmap_2, Hb.
  - exfalso. apply Hfresh. rewrite <- Hkey. apply list_elem_of_fmap_2, Ha.
  - apply IH; assumption.
Qed.

#[local] Instance byDateDesc_total : Total byDateDesc.
Proof. intros a b. unfold byDateDesc. lia. Qed.

#[local] Instance byDateDesc_trans : Transitive byDateDesc.
Proof. intros a b c. unfold byDateDesc. lia. Qed.

(** X8.  The history of a title after a save.  [GetSnapshots] lists the
    snapshots of the title only, the latest first, and, the keys of the
    table being pairwise distinct, with at most one snapshot for a date:
    the dates decrease strictly.  The snapshot of the date that was saved
    is on the list, once, and carries the checksum and the metrics of the
    title that was saved. *)
Theorem GetSnapshots_history (now : Z) (t : Title.t) (date : Z) (db : DB) :
  NoDup (map title_snapshot_key (title_snapshots db)) ->
  let history :=
    (GetSnapshots (Title.TitleNumber t) (SaveTitleWithSnapshot now t date db).2).1 in
  StronglySorted
    (fun a b => TitleSnapshot.SnapshotDate b < TitleSnapshot.SnapshotDate a) history
  /\ Forall (fun r => TitleSnapshot.TitleNumber r = Title.TitleNumber t) history
  /\ exists r,
       r ∈ history
       /\ TitleSnapshot.SnapshotDate r = date
       /\ TitleSnapshot.Checksum r = Title.Checksum t
       /\ forall r', r' ∈ history -> TitleSnapshot.SnapshotDate r' = date -> r' = r.
Proof.
  intros Hnodup. cbn zeta. unfold GetSnapshots. cbn [fst].
  set (n := Title.TitleNumber t).
  set (table := title_snapshots (SaveTitleWithSnapshot now t date db).2).
  set (rows := List.filter (fun r => TitleSnapshot.TitleNumber r =? n) table).
  assert (Hkeys : NoDup (map title_snapshot_key table))
    by (apply SaveTitleWithSnapshot_unique, Hnodup).
  assert (Hrows : forall r, r ∈ merge_sort byDateDesc rows <->
                            r ∈ table /\ TitleSnapshot.TitleNumber r = n).
  { intros r. rewrite merge_sort_Permutation. unfold rows.
    rewrite !list_elem_of_In, filter_In, Z.eqb_eq. reflexivity. }
  assert (Hdates : NoDup (map TitleSnapshot.SnapshotDate (merge_sort byDateDesc rows))).
  { rewrite merge_sort_Permutation.
    apply (NoDup_fmap_2_strong TitleSnapshot.SnapshotDate).
    - intros a b Ha Hb Hdate.
      apply (NoDup_keys_inj title_snapshot_key rows);
        [apply NoDup_filter_keys, Hkeys|exact Ha|exact Hb|].
      unfold rows in Ha, Hb.
      apply list_elem_of_In, filter_In in Ha as [_ Ha]. apply Z.eqb_eq in Ha.
      apply list_elem_of_In, filter_In in Hb as [_ Hb]. apply Z.eqb_eq in Hb.
      unfold title_snapshot_key. congruence.
    - apply (NoDup_fmap_1 title_snapshot_key), NoDup_filter_keys, Hkeys. }
  split; [|split].
  - apply (StronglySorted_strict TitleSnapshot.SnapshotDate); [|exact Hdates].
    apply (StronglySorted_merge_sort byDateDesc); apply _.
  - apply Forall_forall. intros r Hr. apply Hrows in Hr. tauto.
  - destruct (SaveTitleWithSnapshot_row now t date db) as (r & Hr & Hsum).
    apply find_some in Hr as [Hin Hconflict].
    apply snapshot_conflict_key in Hconflict. unfold title_snapshot_key in Hconflict.
    injection Hconflict as Hn Hd.
    assert (Hr : r ∈ merge_sort byDateDesc rows)
      by (apply Hrows; split; [apply list_elem_of_In, Hin|exact Hn]).
    exists r. split; [exact Hr|]. split; [exact Hd|]. split; [exact Hsum|].
    intros r' Hr' Hd'.
    apply (NoDup_keys_inj TitleSnapshot.SnapshotDate (merge_sort byDateDesc rows));
      [exact Hdates|exact Hr'|exact Hr|congruence].
Qed.

(** X9.  The whitelist of [GetAllSorted] and [GetAllSortedWithDensity]:
    whatever the sort key and the order that are asked for, the column of
    the [ORDER BY] is one of five columns of the table, [title_number] for
    a key that is not known, and the direction is [DESC] for the order
    [desc] and [ASC] for every other, so that the statement is one of ten
    statements that are fixed in advance. *)
Theorem sortedQuery_whitelist (sortBy order : string) :
  sortColumn sortBy
    ∈ ["title_number"; "title_name"; "word_count"; "section_count";
       "last_amended_date"]%string
  /\ (sortBy ∉ ["number"; "name"; "word_count"; "section_count"; "last_amended"]%string ->
      sortColumn sortBy = "title_number"%string)
  /\ (order = "desc"%string -> sortOrder order = "DESC"%string)
  /\ (order <> "desc"%string -> sortOrder order = "ASC"%string)
  /\ exists key direction,
       key ∈ ["number"; "name"; "word_count"; "section_count"; "last_amended"]%string
       /\ direction ∈ ["asc"; "desc"]%string
       /\ sortedQuery sortBy order = sortedQuery key direction.
Proof.
  assert (Hcol : exists key,
             key ∈ ["number"; "name"; "word_count"; "section_count"; "last_amended"]%string
             /\ sortColumn sortBy = sortColumn key
             /\ (sortBy ∉ ["number"; "name"; "word_count"; "section_count";
                           "last_amended"]%string -> sortColumn sortBy = "title_number"%string)).
  { unfold sortColumn at 1 3. destruct (validColumns !! sortBy) as [column|] eqn:Hlookup.
    - apply elem_of_list_to_map_2 in Hlookup.
      exists sortBy.
      assert (Hkey : sortBy ∈ ["number"; "name"; "word_count"; "section_count";
                               "last_amended"]%string).
      { repeat (apply elem_of_cons in Hlookup as [Hlookup|Hlookup];
                [injection Hlookup as -> ->; in_list|]).
        inversion Hlookup. }
      split; [exact Hkey|]. split; [|intros Hnot; contradiction].
      unfold sortColumn, validColumns.
      apply elem_of_list_to_map_1 in Hlookup; [|apply (bool_decide_unpack _); vm_compute; exact I].
      unfold validColumns in Hlookup. rewrite Hlookup. reflexivity.
    - exists "number"%string. split; [in_list|]. split; [reflexivity|].
      intros _. reflexivity. }
  destruct Hcol as (key & Hkey & Hcol & Hunknown).
  assert (Hvalues : sortColumn sortBy
                      ∈ ["title_number"; "title_name"; "word_count"; "section_count";
                         "last_amended_date"]%string).
  { rewrite Hcol. clear Hcol.
    repeat (apply elem_of_cons in Hkey as [->|Hkey]; [vm_compute; in_list|]).
    inversion Hkey. }
  split; [exact Hvalues|]. split; [exact Hunknown|].
  split; [intros ->; reflexivity|].
  split.
  - intros Hne. unfold sortOrder. apply String.eqb_neq in Hne. rewrite Hne. reflexivity.
  - exists key. unfold sortedQuery. rewrite Hcol. unfold sortOrder.
    destruct (String.eqb order "desc") eqn:Horder.
    + exists "desc"%string. split; [exact Hkey|]. split; [in_list|reflexivity].
    + exists "asc"%string. split; [exact Hkey|]. split; [in_list|reflexivity].
Qed.

End TitleStoreProperties.

(** Document A, saved on two dates. *)
Lemma GetSnapshots_history_witness :
  let db1 := (Store.SaveTitleWithSnapshot 1 (Store.document_A "X") Store.day_2024_01_01
                                          Store.empty_db).2 in
  let t := Store.document_A "Y" in
  let history :=
    (TitleStore.GetSnapshots (Title.TitleNumber t)
       (Store.SaveTitleWithSnapshot 2 t Store.day_2024_04_01 db1).2).1 in
  StronglySorted
    (fun a b => TitleSnapshot.SnapshotDate b < TitleSnapshot.SnapshotDate a) history
  /\ Forall (fun r => TitleSnapshot.TitleNumber r = Title.TitleNumber t) history
  /\ exists r,
       r ∈ history
       /\ TitleSnapshot.SnapshotDate r = Store.day_2024_04_01
       /\ TitleSnapshot.Checksum r = Title.Checksum t
       /\ forall r', r' ∈ history ->
                     TitleSnapshot.SnapshotDate r' = Store.day_2024_04_01 -> r' = r.
Proof.
  refine (GetSnapshots_history 2 (Store.document_A "Y") Store.day_2024_04_01
            (Store.SaveTitleWithSnapshot 1 (Store.document_A "X") Store.day_2024_01_01
                                         Store.empty_db).2 _).
  apply (bool_decide_unpack _). vm_compute. exact I.
Defined.

(** ** Density of the titles *)

(** No float is less than itself. *)
Lemma ltb_irrefl (x : float) : PrimFloat.ltb x x = false.
Proof.
  rewrite ltb_spec. unfold SFltb.
  destruct (Prim2SF x) as [s|s| |s m e]; cbn [SFcompare]; try reflexivity.
  - destruct s; reflexivity.
  - rewrite Z.compare_refl, Pos.compare_cont_refl. destruct s; reflexivity.
Qed.

Lemma filter_length_perm {A : Type} (p : A -> bool) (l1 l2 : list A) :
  l1 ≡ₚ l2 -> length (List.filter p l1) = length (List.filter p l2).
Proof.
  induction 1 as [|x l1 l2 _ IH|x y l|l1 l2 l3 _ IH1 _ IH2]; cbn [List.filter].
  - reflexivity.
  - destruct (p x); cbn [length]; congruence.
  - destruct (p x), (p y); reflexivity.
  - congruence.
Qed.

Lemma filter_map_comm {A B : Type} (f : A -> B) (p : B -> bool) (l : list A) :
  List.filter p (map f l) = map f (List.filter (fun x => p (f x)) l).
Proof.
  induction l as [|a l IH]; cbn [map List.filter]; [reflexivity|].
  destruct (p (f a)); cbn [map]; congruence.
Qed.

Lemma filter_none {A : Type} (p : A -> bool) (l : list A) :
  (forall x, In x l -> p x = false) -> List.filter p l = [].
Proof.
  induction l as [|a l IH]; intros Hnone; [reflexivity|]. cbn [List.filter].
  rewrite (Hnone a) by (left; reflexivity). apply IH.
  intros x Hx. apply Hnone. right. exact Hx.
Qed.

(** The position of an element of a slice that is in order, when no two
    elements are equivalent: the number of the elements that are less. *)
Lemma inOrder_rank {A : Type} (less : A -> A -> bool) :
  (forall x, less x x = false) ->
  forall (s : list A) (rank : nat) (d : A),
    TitleStore.inOrder less s = true ->
    (forall x y, x ∈ s -> y ∈ s -> x <> y -> less x y = true \/ less y x = true) ->
    NoDup s ->
    s !! rank = Some d ->
    length (List.filter (fun x => less x d) s) = rank.
Proof.
  intros Hirrefl. induction s as [|a s IH]; intros rank d Hsorted Hdistinct Hnodup Hrank;
    [discriminate|].
  cbn [TitleStore.inOrder] in Hsorted. apply andb_true_iff in Hsorted as [Ha Hsorted].
  rewrite forallb_forall in Ha.
  apply NoDup_cons in Hnodup as [Hfresh Hnodup].
  cbn [List.filter]. destruct rank as [|rank].
  - injection Hrank as ->. rewrite Hirrefl.
    rewrite filter_none; [reflexivity|]. intros x Hx.
    specialize (Ha x Hx). apply negb_true_iff in Ha. exact Ha.
  - cbn in Hrank.
    assert (Hd : d ∈ s) by (eapply list_elem_of_lookup_2; exact Hrank).
    assert (Hne : a <> d) by (intros ->; contradiction).
    assert (Hless : less a d = true).
    { destruct (Hdistinct a d) as [H|H]; [left|right; exact Hd|exact Hne|exact H|].
      specialize (Ha d (proj1 (list_elem_of_In _ _) Hd)).
      apply negb_true_iff in Ha. congruence. }
    rewrite Hless. cbn [length]. f_equal.
    apply IH; try assumption.
    intros x y Hx Hy. apply Hdistinct; right; assumption.
Qed.

Section TitleDensityProperties.
Import Store TitleStore.

(** The densities that the first loop collects: those of the titles
    that have sections, in the order of the slice. *)
Lemma collected_densities (titles : list TitleWithDensity) : forall k,
  map density (omap id (imap (fun i => densityEntry (k + i)) titles))
  = map densityOf (List.filter hasSections (map Title titles)).
Proof using Type.
  induction titles as [|t titles IH]; intros k; [reflexivity|].
  rewrite imap_cons. cbn [map List.filter].
  rewrite (imap_ext _ (fun i => densityEntry (S k + i))) by (intros; unfold compose; f_equal; lia).
  unfold densityEntry at 1, hasSections at 1.
  destruct (0 <? Title.SectionCount (Title t)); cbn [omap list_omap id map]; rewrite IH;
    reflexivity.
Qed.

Lemma collected_index (titles : list TitleWithDensity) : forall k d,
  d ∈ omap id (imap (fun i => densityEntry (k + i)) titles) <->
  exists j t,
    index d = (k + j)%nat /\ titles !! j = Some t
    /\ hasSections (Title t) = true /\ density d = densityOf (Title t).
Proof using Type.
  intros k d. rewrite list_elem_of_omap. split.
  - intros (x & Hx & Hid). apply elem_of_lookup_imap in Hx as (j & t & -> & Hj).
    unfold densityEntry in Hid. unfold hasSections.
    destruct (0 <? Title.SectionCount (Title t)) eqn:Hpos; [|discriminate].
    injection Hid as <-. exists j, t.
    split; [reflexivity|split; [exact Hj|split; [exact Hpos|reflexivity]]].
  - intros (j & t & Hidx & Hj & Hhas & Hdens).
    exists (Some d). split; [|reflexivity].
    apply elem_of_lookup_imap. exists j, t. split; [|exact Hj].
    unfold densityEntry. unfold hasSections in Hhas. rewrite Hhas.
    destruct d as [i x]. cbn in *. subst. reflexivity.
Qed.

Lemma collected_sublist (titles : list TitleWithDensity) : forall k,
  sublist (map index (omap id (imap (fun i => densityEntry (k + i)) titles)))
          (seq k (length titles)).
Proof using Type.
  induction titles as [|t titles IH]; intros k; [constructor|].
  rewrite imap_cons. cbn [length seq].
  rewrite (imap_ext _ (fun i => densityEntry (S k + i))) by (intros; unfold compose; f_equal; lia).
  unfold densityEntry at 1.
  destruct (0 <? Title.SectionCount (Title t)); cbn [omap list_omap id map index].
  - rewrite Nat.add_0_r. constructor. apply IH.
  - constructor. apply IH.
Qed.

Lemma collectDensities_NoDup (titles : list TitleWithDensity) :
  NoDup (map index (collectDensities titles)).
Proof using Type.
  apply (sublist_NoDup _ (seq 0 (length titles)));
    [apply NoDup_seq|apply (collected_sublist titles 0)].
Qed.

(** The last loop writes only at the positions of its entries. *)
Lemma title_assignScore_lookup_ne n (entries : list (nat * densityInfo)) :
  forall (titles : list TitleWithDensity) j,
    (forall e, e ∈ entries -> index e.2 <> j) ->
    fold_left (assignScore n) entries titles !! j = titles !! j.
Proof using Type.
  induction entries as [|[rank d] entries IH]; intros titles j Hj; [reflexivity|].
  cbn [fold_left]. rewrite IH.
  - assert (Hd : index d <> j) by (apply (Hj (rank, d)); left).
    unfold assignScore. destruct (n =? 1)%nat;
      rewrite ?list_lookup_alter_ne by exact Hd; reflexivity.
  - intros e He. apply Hj. right. exact He.
Qed.

(** At the position of an entry it writes the score of the rank of the
    entry. *)
Lemma title_assignScore_lookup n (entries : list (nat * densityInfo)) :
  forall (titles : list TitleWithDensity) rank d t,
    NoDup (map (fun e => index e.2) entries) ->
    (rank, d) ∈ entries ->
    titles !! index d = Some t ->
    fold_left (assignScore n) entries titles !! index d
    = Some (setDensityScore (scoreOf rank n) t).
Proof using Type.
  induction entries as [|[rank0 d0] entries IH]; intros titles rank d t Hnodup Hin Ht;
    [inversion Hin|].
  cbn [map] in Hnodup. apply NoDup_cons in Hnodup as [Hfresh Hnodup].
  cbn [fold_left]. apply elem_of_cons in Hin as [Heq|Hin].
  - injection Heq as <- <-.
    rewrite title_assignScore_lookup_ne.
    + unfold assignScore, scoreOf. destruct (n =? 1)%nat;
        rewrite !list_lookup_alter_eq, Ht; reflexivity.
    + intros e He Heq. apply Hfresh. cbn [snd]. rewrite <- Heq.
      apply (list_elem_of_fmap_2 (fun e => index e.2)). exact He.
  - apply IH; [exact Hnodup|exact Hin|].
    assert (Hne : index d0 <> index d).
    { intros Heq. apply Hfresh. cbn [snd]. rewrite Heq.
      apply (list_elem_of_fmap_2 (fun e => index e.2) _ (rank, d)). exact Hin. }
    unfold assignScore. destruct (n =? 1)%nat;
      rewrite ?list_lookup_alter_ne by exact Hne; exact Ht.
Qed.

Variable sortSlice :
  (densityInfo -> densityInfo -> bool) -> list densityInfo -> list densityInfo.
Variable orderBy : string -> string -> list Title.t -> list Title.t.

(** X10.  The score of a title on the list of [GetAllSortedWithDensity]
    is the score that [GetDensityScoreForTitle] computes for it from the
    table, whatever the order of the list, as soon as no two titles have
    the same density: both are the share of the other titles with sections
    that have a lower density, 0.5 for the only title with sections, and
    0 for a title without sections. *)
Theorem title_density_scores_agree (sortBy order : string) (db : DB) :
  let rows := orderBy (sortColumn sortBy) (sortOrder order) (titles db) in
  let densities :=
    collectDensities (map (fun t => {| Title := t; DensityScore := 0%float |}) rows) in
  rows ≡ₚ titles db ->
  sortSlice densityLess densities ≡ₚ densities ->
  inOrder densityLess (sortSlice densityLess densities) = true ->
  distinctDensities densities = true ->
  forall i t,
    (GetAllSortedWithDensity sortSlice orderBy sortBy order db).1 !! i = Some t ->
    0 <= Title.SectionCount (Title t) ->
    rows !! i = Some (Title t)
    /\ DensityScore t = (GetDensityScoreForTitle (Title t) db).1.
Proof using Type.
  cbn zeta. unfold GetAllSortedWithDensity. cbn [fst].
  remember (orderBy (sortColumn sortBy) (sortOrder order) (titles db)) as rows eqn:Hrows0.
  remember (map (fun t => {| Title := t; DensityScore := 0%float |}) rows) as tds eqn:Htds.
  remember (collectDensities tds) as ds eqn:Hds.
  remember (sortSlice densityLess ds) as s eqn:Hs.
  intros Hrows Hperm Hsorted Hdistinct i t Hi Hsections.
  assert (Hcalc : calculateTitleDensityScores sortSlice tds
                  = fold_left (assignScore (length s)) (imap pair s) tds).
  { clear - Hds Hs Hperm. unfold calculateTitleDensityScores. rewrite <- Hds.
    destruct ds as [|d0 ds'].
    - apply Permutation_nil_r in Hperm. rewrite Hperm. reflexivity.
    - rewrite <- Hs. reflexivity. }
  rewrite Hcalc in Hi.
  assert (Htitles : map Title tds = rows).
  { rewrite Htds, map_map. cbn [Title]. apply map_id. }
  assert (Hlen : length (fold_left (assignScore (length s)) (imap pair s) tds) = length tds).
  { generalize (imap pair s). intros entries. generalize tds.
    induction entries as [|[r entry] entries IH]; intros l; [reflexivity|].
    cbn [fold_left]. rewrite IH. unfold assignScore.
    destruct (length s =? 1)%nat; rewrite ?length_alter; reflexivity. }
  assert (Hrow : exists row, rows !! i = Some row).
  { apply lookup_lt_is_Some. apply lookup_lt_Some in Hi.
    rewrite Hlen, Htds, length_map in Hi. exact Hi. }
  destruct Hrow as [row Hrow].
  assert (Htd : tds !! i = Some {| Title := row; DensityScore := 0%float |}).
  { rewrite Htds, list_lookup_fmap, Hrow. reflexivity. }
  assert (Hdensities : map density ds = map densityOf (List.filter hasSections rows)).
  { rewrite Hds, <- Htitles. apply (collected_densities tds 0). }
  assert (Htotal : Z.of_nat (length ds) = totalCount db).
  { unfold totalCount. f_equal. rewrite <- (filter_length_perm _ _ _ Hrows).
    rewrite <- (length_map densityOf), <- Hdensities, length_map. reflexivity. }
  assert (Hindices : map (fun e : nat * densityInfo => index e.2) (imap pair s) = map index s).
  { change (map (fun e : nat * densityInfo => index e.2) (imap pair s))
      with ((fun e : nat * densityInfo => index e.2) <$> imap pair s).
    rewrite fmap_imap.
    rewrite (imap_ext _ (const index)) by (intros; reflexivity).
    apply imap_const. }
  assert (Hkeys : NoDup (map index ds)) by (rewrite Hds; apply collectDensities_NoDup).
  destruct (0 <? Title.SectionCount row) eqn:Hpos.
  - set (d := {| index := i; density := densityOf row |}).
    assert (Hd : d ∈ ds).
    { rewrite Hds. apply (collected_index tds 0).
      exists i, {| Title := row; DensityScore := 0%float |}.
      split; [reflexivity|split; [exact Htd|split; [exact Hpos|reflexivity]]]. }
    assert (Hdin : d ∈ s) by (rewrite Hperm; exact Hd).
    apply list_elem_of_lookup_1 in Hdin as [rank Hrank].
    assert (Hnodup : NoDup (map index s)) by (rewrite Hperm; exact Hkeys).
    pose proof (title_assignScore_lookup (length s) (imap pair s) tds rank d
                  {| Title := row; DensityScore := 0%float |}) as Hlook.
    change (index d) with i in Hlook.
    rewrite Hlook in Hi;
      [|rewrite Hindices; exact Hnodup
       |apply elem_of_lookup_imap; exists rank, d; split; [reflexivity|exact Hrank]
       |exact Htd].
    injection Hi as <-. cbn [Title setDensityScore DensityScore].
    split; [exact Hrow|].
    assert (Hrankcount : Z.of_nat rank = lowerCount (densityOf row) db).
    { unfold lowerCount. f_equal.
      rewrite <- (filter_length_perm _ _ _ Hrows).
      rewrite filter_andb. rewrite <- (length_map densityOf).
      rewrite <- (filter_map_comm densityOf (fun x => PrimFloat.ltb x (densityOf row))).
      rewrite <- Hdensities.
      rewrite filter_map_comm, length_map.
      change (fun x : densityInfo => PrimFloat.ltb (density x) (densityOf row))
        with (fun x : densityInfo => densityLess x d).
      rewrite <- (filter_length_perm _ _ _ Hperm).
      symmetry. apply (inOrder_rank densityLess).
      - intros x. apply ltb_irrefl.
      - exact Hsorted.
      - intros x y Hx Hy Hne.
        rewrite Hperm in Hx, Hy.
        unfold distinctDensities in Hdistinct. rewrite forallb_forall in Hdistinct.
        specialize (Hdistinct x (proj1 (list_elem_of_In _ _) Hx)).
        rewrite forallb_forall in Hdistinct.
        specialize (Hdistinct y (proj1 (list_elem_of_In _ _) Hy)).
        apply orb_true_iff in Hdistinct as [Hdistinct|Hdistinct]; [|right; exact Hdistinct].
        apply orb_true_iff in Hdistinct as [Hdistinct|Hdistinct]; [|left; exact Hdistinct].
        apply Nat.eqb_eq in Hdistinct. exfalso. apply Hne.
        apply (NoDup_keys_inj index ds); assumption.
      - apply (NoDup_fmap_1 index). exact Hnodup.
      - exact Hrank. }
    unfold GetDensityScoreForTitle, scoreOf.
    assert (Hsec : (Title.SectionCount row =? 0) = false)
      by (apply Z.ltb_lt in Hpos; apply Z.eqb_neq; lia).
    rewrite Hsec. rewrite <- Htotal, <- Hrankcount.
    assert (Hslen : length s = length ds) by (rewrite Hperm; reflexivity).
    rewrite Hslen.
    assert (Hone : (1 <= length ds)%nat).
    { apply list_elem_of_lookup_1 in Hd as [k Hk]. apply lookup_lt_Some in Hk. lia. }
    destruct (Nat.eqb_spec (length ds) 1) as [Heq|Hne].
    + rewrite Heq. reflexivity.
    + destruct (Z.leb_spec (Z.of_nat (length ds)) 1); [lia|reflexivity].
  - rewrite title_assignScore_lookup_ne in Hi.
    + rewrite Htd in Hi. injection Hi as <-. cbn [Title DensityScore] in *.
      split; [exact Hrow|].
      unfold GetDensityScoreForTitle.
      apply Z.ltb_ge in Hpos.
      replace (Title.SectionCount row) with 0 by lia. reflexivity.
    + intros e He Heq. apply elem_of_lookup_imap in He as (rank & d & -> & Hd).
      apply list_elem_of_lookup_2 in Hd. rewrite Hperm, Hds in Hd.
      apply (collected_index tds 0) in Hd as (j & t' & Hidx & Hj & Hhas & _).
      cbn [snd] in Heq. rewrite Heq in Hidx. cbn in Hidx. subst j.
      rewrite Htd in Hj. injection Hj as <-. cbn [Title] in Hhas.
      unfold hasSections in Hhas. congruence.
Qed.

End TitleDensityProperties.

(** The four titles of the example, listed in reverse order: the scores
    of the list are those of the detail pages. *)
Lemma title_density_scores_agree_witness :
  map TitleStore.DensityScore
      (TitleStore.GetAllSortedWithDensity Store.insertionSort TitleStore.reversed
                                          "number" "desc" TitleStore.density_db).1
  = map (fun t => (TitleStore.GetDensityScoreForTitle t TitleStore.density_db).1)
        (rev TitleStore.density_titles)
  /\ map TitleStore.DensityScore
         (TitleStore.GetAllSortedWithDensity Store.insertionSort TitleStore.reversed
                                             "number" "desc" TitleStore.density_db).1
     = [0; 1; 0; 0.5]%float.
Proof.
  pose proof (title_density_scores_agree Store.insertionSort TitleStore.reversed
                "number" "desc" TitleStore.density_db) as H.
  cbn zeta in H.
  specialize (H (Permutation_sym (Permutation_rev _))
                (insertionSort_perm _ _) eq_refl eq_refl).
  split; [|vm_compute; reflexivity].
  assert (Hall : forall i t,
             (TitleStore.GetAllSortedWithDensity Store.insertionSort TitleStore.reversed
                "number" "desc" TitleStore.density_db).1 !! i = Some t ->
             0 <= Title.SectionCount (TitleStore.Title t)).
  { intros i t Hi. do 4 (destruct i as [|i]; [injection Hi as <-; vm_compute; discriminate|]).
    discriminate. }
  apply list_eq. intros i. rewrite !list_lookup_fmap.
  destruct ((TitleStore.GetAllSortedWithDensity Store.insertionSort TitleStore.reversed
               "number" "desc" TitleStore.density_db).1 !! i) as [t|] eqn:Hi.
  - destruct (H i t Hi (Hall i t Hi)) as [Hrow Hscore].
    unfold TitleStore.reversed in Hrow. cbn [Store.titles TitleStore.density_db] in Hrow.
    rewrite Hrow. cbn [fmap option_fmap option_map]. rewrite Hscore. reflexivity.
  - do 4 (destruct i as [|i]; [discriminate|]). reflexivity.
Defined.
